(** * cloud-resource-operator: the AWS Redis provider and the Redis snapshot
      reconciler

    A shallow embedding of
    - [pkg/providers/aws/provider_redis.go] (CreateRedis, createRedisCluster,
      DeleteRedis, deleteRedisCluster, getReplicationGroups, getRedisConfig,
      verifyRedisConfig), and
    - the RedisSnapshot controller (package redissnapshot, Reconcile),
    followed by the properties of the specification that concern them.

    Go functions become computations in a small monad that threads the
    external world (Kubernetes object store, AWS control plane), records the
    external calls that were made, and has Go's [return] and run-time panics. *)

From Stdlib Require Import String Ascii List ZArith NArith Bool Lia.
Import ListNotations.
Local Open Scope string_scope.
Local Open Scope Z_scope.

Set Implicit Arguments.

(* ===================================================================== *)
(** * Go values                                                            *)
(* ===================================================================== *)

(** A Go pointer that the code only compares with nil and dereferences is an
    [option].  One pointer is also handed to a formatting verb, which prints
    where it points: such a pointer keeps its address. *)
Record located (A : Type) : Type := at_addr { addr : N; pointee : A }.

(** time.Duration counts nanoseconds. *)
Definition Duration := Z.
Definition Second : Duration := 1000000000.
Definition Minute : Duration := 60 * Second.

(** Go's [error] interface values.  [None] in [option error] is the nil
    error. *)
Inductive error : Type :=
| errorString (text : string)            (* errors.New, or any opaque error *)
| awserr_Error (code message : string)   (* a value implementing awserr.Error *)
| withMessage (cause : error) (msg : string). (* errorUtil.Wrap, Wrapf *)

Fixpoint Error (e : error) : string :=
  match e with
  | errorString text => text
  | awserr_Error code message => code ++ ": " ++ message
  | withMessage cause msg => msg ++ ": " ++ Error cause
  end.

(** errorUtil.Wrap and errorUtil.Wrapf return nil when the error is nil. *)
Definition Wrap (err : option error) (msg : string) : option error :=
  match err with
  | None => None
  | Some e => Some (withMessage e msg)
  end.

(** The comma-ok type assertion [err.(awserr.Error)]. *)
Definition as_awserr (err : option error) : option (string * string) * bool :=
  match err with
  | Some (awserr_Error code message) => (Some (code, message), true)
  | _ => (None, false)
  end.

(** wait.ErrWaitTimeout of k8s.io/apimachinery. *)
Definition ErrWaitTimeout : error :=
  errorString "timed out waiting for the condition".

(** Run-time panics of the Go code. *)
Inductive panic : Type :=
| nil_dereference
| index_out_of_range (index length : nat).

(* ===================================================================== *)
(** * Kubernetes objects                                                   *)
(* ===================================================================== *)

Record ObjectMeta : Type := {
  Name : string;
  Namespace : string;
  DeletionTimestamp : option Z;
  Finalizers : list string
}.

Record NamespacedName : Type := {
  nn_Namespace : string;
  nn_Name : string
}.

(** v1alpha1.Redis, with the fields the code reads. *)
Record Redis : Type := {
  r_ObjectMeta : ObjectMeta;
  r_Spec_Tier : string;
  r_Status_Strategy : string
}.

(** The value of [&integreatlyv1alpha1.Redis{}]. *)
Definition empty_Redis : Redis :=
  {| r_ObjectMeta := {| Name := ""; Namespace := ""; DeletionTimestamp := None;
                        Finalizers := [] |};
     r_Spec_Tier := "";
     r_Status_Strategy := "" |}.

(** Modelled from the spec: croType.StatusPhase and its constants are declared
    outside src/; the specification lists the phases of a snapshot request. *)
Inductive StatusPhase : Type :=
| PhasePending
| PhaseInProgress
| PhaseComplete
| PhaseFailed.

Definition StatusPhase_eqb (a b : StatusPhase) : bool :=
  match a, b with
  | PhasePending, PhasePending
  | PhaseInProgress, PhaseInProgress
  | PhaseComplete, PhaseComplete
  | PhaseFailed, PhaseFailed => true
  | _, _ => false
  end.

(** v1alpha1.RedisSnapshot. *)
Record RedisSnapshot : Type := {
  s_ObjectMeta : ObjectMeta;
  s_Spec_ResourceName : string;
  s_Status_Phase : StatusPhase;
  s_Status_Message : string
}.

(** reconcile.Request and reconcile.Result. *)
Record Request : Type := { req_NamespacedName : NamespacedName }.

Record Result : Type := {
  Requeue : bool;
  RequeueAfter : Duration
}.

Definition Result_zero : Result := {| Requeue := false; RequeueAfter := 0 |}.

(** Modelled from the spec: resources.AddFinalizer and resources.RemoveFinalizer
    are declared outside src/.  The specification describes the finalizer as a
    boolean-like tag attached to the object: adding it makes it present (once),
    removing it makes it absent. *)
Definition has_finalizer (om : ObjectMeta) (f : string) : bool :=
  existsb (String.eqb f) (Finalizers om).

Definition AddFinalizer (om : ObjectMeta) (f : string) : ObjectMeta :=
  if has_finalizer om f then om
  else {| Name := Name om; Namespace := Namespace om;
          DeletionTimestamp := DeletionTimestamp om;
          Finalizers := (Finalizers om ++ [f])%list |}.

Definition RemoveFinalizer (om : ObjectMeta) (f : string) : ObjectMeta :=
  {| Name := Name om; Namespace := Namespace om;
     DeletionTimestamp := DeletionTimestamp om;
     Finalizers := filter (fun x => negb (String.eqb f x)) (Finalizers om) |}.

Definition with_ObjectMeta (r : Redis) (om : ObjectMeta) : Redis :=
  {| r_ObjectMeta := om; r_Spec_Tier := r_Spec_Tier r;
     r_Status_Strategy := r_Status_Strategy r |}.

(* ===================================================================== *)
(** * The AWS SDK types (service/elasticache)                              *)
(* ===================================================================== *)

Record Endpoint : Type := {
  Address : option string;
  Port : option Z
}.

Record NodeGroupMember : Type := {
  CacheClusterId : option string;
  CurrentRole : option string
}.

Record NodeGroup : Type := {
  PrimaryEndpoint : option Endpoint;
  NodeGroupMembers : list (option NodeGroupMember)
}.

(** [Status] is the *string that Reconcile passes to Sprintf, so it keeps its
    address. *)
Record ReplicationGroup : Type := {
  ReplicationGroupId : option string;
  Status : option (located string);
  NodeGroups : list (option NodeGroup)
}.

Record DescribeReplicationGroupsInput : Type := {
  drg_ReplicationGroupId : option string
}.

Record DescribeReplicationGroupsOutput : Type := {
  ReplicationGroups : list (option ReplicationGroup)
}.

(** The fields of elasticache.CreateReplicationGroupInput that the provider
    reads or writes. *)
Record CreateReplicationGroupInput : Type := {
  AutomaticFailoverEnabled : option bool;
  Engine : option string;
  crg_ReplicationGroupId : option string;
  CacheNodeType : option string;
  EngineVersion : option string;
  ReplicationGroupDescription : option string;
  NumCacheClusters : option Z;
  SnapshotRetentionLimit : option Z
}.

Record DeleteReplicationGroupInput : Type := {
  del_ReplicationGroupId : option string;
  RetainPrimaryCluster : option bool
}.

Record Snapshot : Type := {
  SnapshotName : option string;
  SnapshotStatus : option string
}.

Record DescribeSnapshotsInput : Type := {
  ds_SnapshotName : option string
}.

Record DescribeSnapshotsOutput : Type := {
  Snapshots : list (option Snapshot)
}.

Record CreateSnapshotInput : Type := {
  cs_CacheClusterId : option string;
  cs_SnapshotName : option string
}.

(** providers.RedisCluster with its RedisDeploymentDetails. *)
Record RedisDeploymentDetails : Type := {
  URI : string;
  rdd_Port : Z
}.

Record RedisCluster : Type := {
  DeploymentDetails : option RedisDeploymentDetails
}.

(** aws.StrategyConfig and aws.AWSCredentials. *)
Record StrategyConfig : Type := {
  Region : string;
  RawStrategy : string
}.

Record AWSCredentials : Type := {
  AccessKeyID : string;
  SecretAccessKey : string
}.

(** The ElastiCache client built by createCacheService: a session bound to one
    region and one pair of static credentials. *)
Record CacheService : Type := {
  svc_Region : string;
  svc_AccessKeyID : string;
  svc_SecretAccessKey : string
}.

(* ===================================================================== *)
(** * External calls                                                       *)
(* ===================================================================== *)

(** Every call that leaves the process, with what was sent. *)
Inductive Event : Type :=
| Call_Client_Update (r : Redis)
| Call_Client_Get_RedisSnapshot (key : NamespacedName)
| Call_Client_Get_Redis (key : NamespacedName)
| Call_Client_Status_Update (inst : RedisSnapshot)
| Call_ReadStorageStrategy (resourceType tier : string)
| Call_ReconcileProviderCredentials (ns : string)
| Call_BuildTimestampedInfraNameFromObjectCreation (om : ObjectMeta) (n : Z)
| Call_BuildInfraNameFromObject (om : ObjectMeta) (n : Z)
| Call_DescribeReplicationGroups (svc : CacheService)
                                 (input : DescribeReplicationGroupsInput)
| Call_CreateReplicationGroup (svc : CacheService)
                              (input : CreateReplicationGroupInput)
| Call_DeleteReplicationGroup (svc : CacheService)
                              (input : DeleteReplicationGroupInput)
| Call_DescribeSnapshots (svc : CacheService) (input : DescribeSnapshotsInput)
| Call_CreateSnapshot (svc : CacheService) (input : CreateSnapshotInput)
| Wait (d : Duration).

(** The collaborators of the two files, as transitions of an external world
    [W], together with the constants that the two files import.

    A call whose error the code tests before it reads the value returns a sum.
    The two describe calls return the pair of the Go signature, because
    Reconcile reads their output without looking at the error.

    The Go scheduler is a collaborator too: wait's poller has a ticker and a
    timer, and when a tick falls on the deadline the scheduler decides which
    of the two the poller sees first. *)
Record Externals (W : Type) : Type := {
  (* constants declared outside src/ *)
  AWSDeploymentStrategy : string;          (* providers *)
  RedisResourceType : string;              (* providers *)
  DefaultRegion : string;                  (* aws *)
  DefaultFinalizer : string;               (* aws *)
  DefaultAwsIdentifierLength : Z;          (* aws *)
  ErrCodeReplicationGroupNotFoundFault : string;   (* elasticache *)
  (* client.Client and k8s errors *)
  Client_Update : Redis -> W -> option error * W;
  Client_Get_RedisSnapshot : NamespacedName -> W -> (RedisSnapshot + error) * W;
  Client_Get_Redis : NamespacedName -> W -> (Redis + error) * W;
  Client_Status_Update : RedisSnapshot -> W -> option error * W;
  IsNotFound : error -> bool;
  (* the scheduler: is the tick on the deadline delivered before the timer
     closes the poller's channel *)
  DeadlineTickDelivered : W -> bool;
  (* ConfigManager, CredentialManager, name builders, encoding/json *)
  ReadStorageStrategy : string -> string -> W -> (StrategyConfig + error) * W;
  ReconcileProviderCredentials : string -> W -> (AWSCredentials + error) * W;
  Unmarshal : string -> CreateReplicationGroupInput + error;
  BuildTimestampedInfraNameFromObjectCreation :
    ObjectMeta -> Z -> W -> (string + error) * W;
  BuildInfraNameFromObject : ObjectMeta -> Z -> W -> (string + error) * W;
  (* elasticacheiface.ElastiCacheAPI *)
  DescribeReplicationGroups :
    CacheService -> DescribeReplicationGroupsInput -> W ->
    (option DescribeReplicationGroupsOutput * option error) * W;
  CreateReplicationGroup :
    CacheService -> CreateReplicationGroupInput -> W -> option error * W;
  DeleteReplicationGroup :
    CacheService -> DeleteReplicationGroupInput -> W -> option error * W;
  DescribeSnapshots :
    CacheService -> DescribeSnapshotsInput -> W ->
    (option DescribeSnapshotsOutput * option error) * W;
  CreateSnapshot :
    CacheService -> CreateSnapshotInput -> W -> option error * W
}.

(* ===================================================================== *)
(** * The monad of Go function bodies                                      *)
(* ===================================================================== *)

(** A statement either goes on with a value, returns from the enclosing
    function, or panics. *)
Inductive step (R A : Type) : Type :=
| Next (a : A)
| Return (r : R)
| Panicked (p : panic).
Arguments Next {R A} a.
Arguments Return {R A} r.
Arguments Panicked {R A} p.

(** A computation maps the world to a step, the new world and the calls it
    made, oldest first. *)
Definition M (W R A : Type) : Type := W -> step R A * W * list Event.

Definition ret {W R A} (a : A) : M W R A := fun w => (Next a, w, []).

Definition return_ {W R A} (r : R) : M W R A := fun w => (Return r, w, []).

Definition throw {W R A} (p : panic) : M W R A := fun w => (Panicked p, w, []).

Definition bind {W R A B} (m : M W R A) (k : A -> M W R B) : M W R B :=
  fun w =>
    match m w with
    | (Next a, w1, t1) =>
        match k a w1 with
        | (s, w2, t2) => (s, w2, (t1 ++ t2)%list)
        end
    | (Return r, w1, t1) => (Return r, w1, t1)
    | (Panicked p, w1, t1) => (Panicked p, w1, t1)
    end.

Declare Scope go_scope.
Delimit Scope go_scope with go.
Notation "x <- c ;; k" := (bind c (fun x => k))
  (at level 61, c at next level, right associativity) : go_scope.
Notation "' pat <- c ;; k" := (bind c (fun x => match x with pat => k end))
  (at level 61, pat pattern, c at next level, right associativity) : go_scope.
Notation "c ;; k" := (bind c (fun _ => k))
  (at level 61, right associativity) : go_scope.
Local Open Scope go_scope.

(** [if b { body }] where the body ends in a return or falls through. *)
Definition when {W R} (b : bool) (body : M W R unit) : M W R unit :=
  if b then body else ret tt.

(** An external call: it is recorded and moves the world. *)
Definition external {W R A} (ev : Event) (f : W -> A * W) : M W R A :=
  fun w => match f w with (a, w') => (Next a, w', [ev]) end.

(** Reading the world without moving it. *)
Definition ask {W R A} (f : W -> A) : M W R A := fun w => (Next (f w), w, []).

(** Calling a function from another body: its [return] ends the callee only. *)
Definition call {W R B} (f : M W B B) : M W R B :=
  fun w =>
    match f w with
    | (Next b, w', t) => (Next b, w', t)
    | (Return b, w', t) => (Next b, w', t)
    | (Panicked p, w', t) => (Panicked p, w', t)
    end.

(** What a caller sees of a function. *)
Inductive outcome (B : Type) : Type :=
| Done (b : B)
| Panic (p : panic).
Arguments Done {B} b.
Arguments Panic {B} p.

Definition run {W B} (f : M W B B) (w : W) : outcome B * W * list Event :=
  match f w with
  | (Next b, w', t) => (Done b, w', t)
  | (Return b, w', t) => (Done b, w', t)
  | (Panicked p, w', t) => (Panic p, w', t)
  end.

(** [*p] and [s[i]]. *)
Definition deref {W R A} (p : option A) : M W R A :=
  match p with
  | Some v => ret v
  | None => throw nil_dereference
  end.

Definition index {W R A} (s : list A) (i : nat) : M W R A :=
  match nth_error s i with
  | Some v => ret v
  | None => throw (index_out_of_range i (length s))
  end.

Definition is_nil {A} (p : option A) : bool :=
  match p with None => true | Some _ => false end.

Definition not_nil {A} (p : option A) : bool := negb (is_nil p).

(* ===================================================================== *)
(** * k8s.io/apimachinery/pkg/util/wait                                    *)
(* ===================================================================== *)

Section Wait.
Context {W : Type}.

(** A condition function is a closure; [V] is the variable it captures, and
    it returns that variable with [(done, err)]. *)
Definition ConditionFunc (V : Type) : Type :=
  V -> M W (V * bool * option error) (V * bool * option error).

(** One turn of the loop of WaitFor after something has come out of the
    poller's channel:
    [ok, err := fn(); if err != nil { return err }; if ok { return nil }].
    The result is [Some err] when WaitFor returns [err], and [None] when the
    loop goes on. *)
Definition poll_run {R V} (condition : ConditionFunc V) (v : V)
  : M W R (V * option (option error)) :=
  '(v1, done, err) <- call (condition v) ;;
  match err with
  | Some e => ret (v1, Some (Some e))
  | None => if done then ret (v1, Some None) else ret (v1, None)
  end.

(** The turns that the ticks drive: WaitFor blocks until the next tick, which
    comes [interval] after the one before, and runs the condition.  [None]
    says that every tick has been used and WaitFor has not returned. *)
Fixpoint poll_ticks {R V} (ticks : nat) (interval : Duration)
    (condition : ConditionFunc V) (v : V)
  : M W R (V * option (option error)) :=
  match ticks with
  | O => ret (v, None)
  | S ticks' =>
      external (Wait interval) (fun w => (tt, w)) ;;
      '(v1, ended) <- poll_run condition v ;;
      match ended with
      | Some r => ret (v1, Some r)
      | None => poll_ticks ticks' interval condition v1
      end
  end.

(** wait.PollImmediate is a library function, not part of src/.  It is
    modelled from the library's code, for a positive [interval] and
    [timeout]:

    - pollImmediateInternal runs the condition at once and returns if it is
      done or has failed;
    - WaitFor then takes what comes out of the channel of
      poller(interval, timeout): a tick every [interval], and the closing of
      the channel when [timeout] has gone by.  After each of them it runs the
      condition, and it returns if the condition is done or has failed;
    - [if !open { break }] comes after that run: the closing of the channel
      is followed by one last run of the condition, and only when that run
      is not done either does WaitFor return ErrWaitTimeout.

    A tick that falls on the deadline races with the timer: [deadline_tick]
    says whether the poller delivers it before it closes the channel.  When
    it does, the condition runs twice at the deadline.

    Time is virtual: the only time that passes is the waiting for the
    channel, and a run of the condition is over before the next tick, so
    that the poller drops no tick. *)
Definition PollImmediate {V} (deadline_tick : W -> bool)
    (interval timeout : Duration) (condition : ConditionFunc V) (v : V)
  : M W (V * option error) (V * option error) :=
  '(v1, done, err) <- call (condition v) ;;
  when (not_nil err) (return_ (v1, err)) ;;
  when done (return_ (v1, None)) ;;
  let on_deadline := (timeout mod interval =? 0) in
  let ticks := Z.to_nat (timeout / interval) in
  (* the ticks before the deadline *)
  '(v2, ended) <-
    poll_ticks (if on_deadline then pred ticks else ticks) interval condition v1 ;;
  match ended with
  | Some r => return_ (v2, r)
  | None =>
      (* the deadline *)
      external (Wait (if on_deadline then interval else timeout mod interval))
               (fun w => (tt, w)) ;;
      delivered <- ask (fun w => on_deadline && deadline_tick w) ;;
      '(v3, ended) <-
        (if delivered : bool then poll_run condition v2 else ret (v2, None)) ;;
      match ended with
      | Some r => return_ (v3, r)
      | None =>
          (* the channel is closed *)
          '(v4, ended) <- poll_run condition v3 ;;
          match ended with
          | Some r => return_ (v4, r)
          | None => return_ (v4, Some ErrWaitTimeout)
          end
      end
  end.

End Wait.

(* ===================================================================== *)
(** * pkg/providers/aws/provider_redis.go                                  *)
(* ===================================================================== *)

Definition defaultCacheNodeType : string := "cache.t2.micro".
Definition defaultEngineVersion : string := "3.2.10".
Definition defaultDescription : string := "A Redis replication group".
Definition defaultNumCacheClusters : Z := 2.
Definition defaultSnapshotRetention : Z := 30.

Definition or_default {A} (p : option A) (d : A) : option A :=
  match p with None => Some d | Some _ => p end.

(** verifyRedisConfig checks redis config, if none exist sets values to
    default. *)
Definition verifyRedisConfig (redisConfig : CreateReplicationGroupInput)
  : CreateReplicationGroupInput :=
  {| AutomaticFailoverEnabled := AutomaticFailoverEnabled redisConfig;
     Engine := Engine redisConfig;
     crg_ReplicationGroupId := crg_ReplicationGroupId redisConfig;
     CacheNodeType := or_default (CacheNodeType redisConfig) defaultCacheNodeType;
     EngineVersion := or_default (EngineVersion redisConfig) defaultEngineVersion;
     ReplicationGroupDescription :=
       or_default (ReplicationGroupDescription redisConfig) defaultDescription;
     NumCacheClusters :=
       or_default (NumCacheClusters redisConfig) defaultNumCacheClusters;
     SnapshotRetentionLimit :=
       or_default (SnapshotRetentionLimit redisConfig) defaultSnapshotRetention |}.

Definition with_ReplicationGroupId (c : CreateReplicationGroupInput)
    (id : option string) : CreateReplicationGroupInput :=
  {| AutomaticFailoverEnabled := AutomaticFailoverEnabled c;
     Engine := Engine c;
     crg_ReplicationGroupId := id;
     CacheNodeType := CacheNodeType c;
     EngineVersion := EngineVersion c;
     ReplicationGroupDescription := ReplicationGroupDescription c;
     NumCacheClusters := NumCacheClusters c;
     SnapshotRetentionLimit := SnapshotRetentionLimit c |}.

Definition with_Region (c : StrategyConfig) (region : string) : StrategyConfig :=
  {| Region := region; RawStrategy := RawStrategy c |}.

Section Provider.
Context {W : Type} (E : Externals W).

Definition GetName : string := AWSDeploymentStrategy E.

Definition SupportsStrategy (d : string) : bool :=
  String.eqb d (AWSDeploymentStrategy E).

Definition createCacheService (stratCfg : StrategyConfig)
    (providerCreds : AWSCredentials) : CacheService :=
  {| svc_Region := Region stratCfg;
     svc_AccessKeyID := AccessKeyID providerCreds;
     svc_SecretAccessKey := SecretAccessKey providerCreds |}.

(** The condition function of getReplicationGroups; it captures [rgs]. *)
Definition describe_condition (cacheSvc : CacheService)
  : ConditionFunc (W := W) (list (option ReplicationGroup)) :=
  fun rgs =>
    let input := {| drg_ReplicationGroupId := None |} in
    '(listOutput, err) <-
      external (Call_DescribeReplicationGroups cacheSvc input)
               (DescribeReplicationGroups E cacheSvc input) ;;
    when (not_nil err) (return_ (rgs, false, None)) ;;
    out <- deref listOutput ;;
    return_ (ReplicationGroups out, true, None).

(** poll for replication groups.  The call has the three arguments of the
    source; the scheduler that the model of wait.PollImmediate asks is the
    world's. *)
Definition getReplicationGroups (cacheSvc : CacheService)
  : M W (list (option ReplicationGroup) * option error)
        (list (option ReplicationGroup) * option error) :=
  '(rgs, err) <-
    call (PollImmediate (DeadlineTickDelivered E) (Second * 5) (Minute * 5)
                        (describe_condition cacheSvc) []) ;;
  when (not_nil err) (return_ ([], err)) ;;
  return_ (rgs, None).

(** The loop [for _, c := range rgs] with its [break], shared by
    createRedisCluster and deleteRedisCluster; the result is [foundCache]. *)
Fixpoint find_replication_group {R} (rgs : list (option ReplicationGroup))
    (id : option string) : M W R (option ReplicationGroup) :=
  match rgs with
  | [] => ret None
  | c :: rest =>
      g <- deref c ;;
      cid <- deref (ReplicationGroupId g) ;;
      rid <- deref id ;;
      if String.eqb cid rid then ret c
      else find_replication_group rest id
  end.

Definition createRedisCluster (cacheSvc : CacheService)
    (redisConfig : CreateReplicationGroupInput)
  : M W (option RedisCluster * option error)
        (option RedisCluster * option error) :=
  (* the aws access key can sometimes still not be registered in aws on
     first try, so loop *)
  '(rgs, err) <- call (getReplicationGroups cacheSvc) ;;
  when (not_nil err) (return_ (None, err)) ;;
  (* check if the cluster has already been created *)
  foundCache <- find_replication_group rgs (crg_ReplicationGroupId redisConfig) ;;
  when (not_nil foundCache) (
    g <- deref foundCache ;;
    status <- deref (Status g) ;;
    when (String.eqb (pointee status) "available") (
      ng0 <- index (NodeGroups g) 0 ;;
      ng <- deref ng0 ;;
      primaryEndpoint <- deref (PrimaryEndpoint ng) ;;
      address <- deref (Address primaryEndpoint) ;;
      port <- deref (Port primaryEndpoint) ;;
      return_ (Some {| DeploymentDetails :=
                         Some {| URI := address; rdd_Port := port |} |}, None)) ;;
    return_ (None, None)) ;;
  (* the cluster doesn't exist, so create it *)
  let redisConfig := verifyRedisConfig redisConfig in
  let input :=
    {| AutomaticFailoverEnabled := Some true;
       Engine := Some "redis";
       crg_ReplicationGroupId := crg_ReplicationGroupId redisConfig;
       CacheNodeType := CacheNodeType redisConfig;
       EngineVersion := EngineVersion redisConfig;
       ReplicationGroupDescription := ReplicationGroupDescription redisConfig;
       NumCacheClusters := NumCacheClusters redisConfig;
       SnapshotRetentionLimit := SnapshotRetentionLimit redisConfig |} in
  err <- external (Call_CreateReplicationGroup cacheSvc input)
                  (CreateReplicationGroup E cacheSvc input) ;;
  when (not_nil err) (return_ (None, err)) ;;
  return_ (None, None).

(** getRedisConfig retrieves the redis config from the
    cloud-resources-aws-strategies configmap *)
Definition getRedisConfig (r : Redis)
  : M W (option CreateReplicationGroupInput * option StrategyConfig * option error)
        (option CreateReplicationGroupInput * option StrategyConfig * option error) :=
  res <- external (Call_ReadStorageStrategy (RedisResourceType E) (r_Spec_Tier r))
                  (ReadStorageStrategy E (RedisResourceType E) (r_Spec_Tier r)) ;;
  match res with
  | inr err =>
      return_ (None, None, Wrap (Some err) "failed to read aws strategy config")
  | inl stratCfg =>
      let stratCfg :=
        if String.eqb (Region stratCfg) "" then with_Region stratCfg (DefaultRegion E)
        else stratCfg in
      (* unmarshal the redis cluster config *)
      match Unmarshal E (RawStrategy stratCfg) with
      | inr err =>
          return_ (None, None,
                   Wrap (Some err) "failed to unmarshal aws redis cluster configuration")
      | inl redisConfig => return_ (Some redisConfig, Some stratCfg, None)
      end
  end.

(** CreateRedis Create an Elasticache Replication Group from strategy config.
    [r] is passed by pointer: the object as the function leaves it is
    returned with the results. *)
Definition CreateRedis (r : Redis)
  : M W (Redis * (option RedisCluster * option error))
        (Redis * (option RedisCluster * option error)) :=
  (* handle provider-specific finalizer *)
  r <- match DeletionTimestamp (r_ObjectMeta r) with
       | None =>
           let r := with_ObjectMeta r (AddFinalizer (r_ObjectMeta r) (DefaultFinalizer E)) in
           err <- external (Call_Client_Update r) (Client_Update E r) ;;
           when (not_nil err)
                (return_ (r, (None, Wrap err "failed to add finalizer to instance"))) ;;
           ret r
       | Some _ => ret r
       end ;;
  (* info about the redis cluster to be created *)
  '(redisConfig, stratCfg, err) <- call (getRedisConfig r) ;;
  when (not_nil err)
       (return_ (r, (None, Wrap err ("failed to retrieve aws redis cluster config for instance "
                                      ++ Name (r_ObjectMeta r))))) ;;
  redisConfig <- deref redisConfig ;;
  let redisConfig :=
    if is_nil (crg_ReplicationGroupId redisConfig)
    then with_ReplicationGroupId redisConfig (Some (Name (r_ObjectMeta r)))
    else redisConfig in
  (* create the credentials to be used by the aws resource providers *)
  creds <- external (Call_ReconcileProviderCredentials (Namespace (r_ObjectMeta r)))
                    (ReconcileProviderCredentials E (Namespace (r_ObjectMeta r))) ;;
  match creds with
  | inr err =>
      return_ (r, (None, Wrap (Some err) "failed to reconcile s3 put object credentials"))
  | inl providerCreds =>
      (* setup aws redis cluster sdk session *)
      stratCfg <- deref stratCfg ;;
      let cacheSvc := createCacheService stratCfg providerCreds in
      (* create the aws redis cluster *)
      res <- call (createRedisCluster cacheSvc redisConfig) ;;
      return_ (r, res)
  end.

Definition deleteRedisCluster (cacheSvc : CacheService)
    (redisConfig : CreateReplicationGroupInput) (r : Redis)
  : M W (Redis * option error) (Redis * option error) :=
  (* the aws access key can sometimes still not be registered in aws on
     first try, so loop *)
  '(rgs, err) <- call (getReplicationGroups cacheSvc) ;;
  when (not_nil err) (return_ (r, err)) ;;
  (* check if the cluster has already been deleted *)
  foundCache <- find_replication_group rgs (crg_ReplicationGroupId redisConfig) ;;
  (* check if replication group does not exist and delete finalizer *)
  when (is_nil foundCache) (
    (* remove the finalizer added by the provider *)
    let r := with_ObjectMeta r (RemoveFinalizer (r_ObjectMeta r) (DefaultFinalizer E)) in
    err <- external (Call_Client_Update r) (Client_Update E r) ;;
    when (not_nil err)
         (return_ (r, Wrap err "failed to update instance as part of finalizer reconcile")) ;;
    return_ (r, None)) ;;
  (* check if replication group exists and is available *)
  g <- deref foundCache ;;
  status <- deref (Status g) ;;
  when (String.eqb (pointee status) "available") (
    (* delete the redis cluster that was created by the provider *)
    let input := {| del_ReplicationGroupId := crg_ReplicationGroupId redisConfig;
                    RetainPrimaryCluster := Some false |} in
    err <- external (Call_DeleteReplicationGroup cacheSvc input)
                    (DeleteReplicationGroup E cacheSvc input) ;;
    let '(redisErr, isAwsErr) := as_awserr err in
    when (not_nil err && negb isAwsErr) (
      id <- deref (crg_ReplicationGroupId redisConfig) ;;
      return_ (r, Wrap err ("failed to delete elasticache cluster " ++ id))) ;;
    when (not_nil err && isAwsErr) (
      '(code, _) <- deref redisErr ;;
      when (negb (String.eqb code (ErrCodeReplicationGroupNotFoundFault E))) (
        id <- deref (crg_ReplicationGroupId redisConfig) ;;
        return_ (r, Wrap err ("failed to delete elasticache cluster " ++ id
                              ++ ", aws error"))))) ;;
  return_ (r, None).

(** DeleteStorage Delete elasticache replication group *)
Definition DeleteRedis (r : Redis)
  : M W (Redis * option error) (Redis * option error) :=
  (* resolve redis information for redis created by provider *)
  '(redisConfig, stratCfg, err) <- call (getRedisConfig r) ;;
  when (not_nil err)
       (return_ (r, Wrap err ("failed to retrieve aws redis config for instance "
                              ++ Name (r_ObjectMeta r)))) ;;
  redisConfig <- deref redisConfig ;;
  let redisConfig :=
    if is_nil (crg_ReplicationGroupId redisConfig)
    then with_ReplicationGroupId redisConfig (Some (Name (r_ObjectMeta r)))
    else redisConfig in
  (* get provider aws creds so the redis cluster can be deleted *)
  creds <- external (Call_ReconcileProviderCredentials (Namespace (r_ObjectMeta r)))
                    (ReconcileProviderCredentials E (Namespace (r_ObjectMeta r))) ;;
  match creds with
  | inr err =>
      return_ (r, Wrap (Some err) "failed to reconcile aws provider credentials")
  | inl providerCreds =>
      (* setup aws redis cluster sdk session *)
      stratCfg <- deref stratCfg ;;
      let cacheSvc := createCacheService stratCfg providerCreds in
      (* delete the redis cluster *)
      res <- call (deleteRedisCluster cacheSvc redisConfig r) ;;
      return_ res
  end.

End Provider.

(* ===================================================================== *)
(** * fmt                                                                  *)
(* ===================================================================== *)

Definition hex_digit (n : N) : ascii :=
  match n with
  | 0 => "0" | 1 => "1" | 2 => "2" | 3 => "3" | 4 => "4" | 5 => "5"
  | 6 => "6" | 7 => "7" | 8 => "8" | 9 => "9" | 10 => "a" | 11 => "b"
  | 12 => "c" | 13 => "d" | 14 => "e" | _ => "f"
  end%N%char.

Fixpoint hex_digits (fuel : nat) (n : N) (acc : string) : string :=
  match fuel with
  | O => acc
  | S fuel' =>
      let acc' := String (hex_digit (n mod 16)) acc in
      if (n / 16 =? 0)%N then acc' else hex_digits fuel' (n / 16) acc'
  end.

(** Lower-case hexadecimal, as fmt writes an address after "0x". *)
Definition hex (n : N) : string := hex_digits (S (N.to_nat (N.size n))) n "".

(** [fmt.Sprintf("%s", p)] for [p] of type *string.  A pointer is not a
    string: fmt reports the verb as unfit for the operand and prints the
    operand's type and its default form, which for a pointer is its address
    (go doc fmt, "Format errors": %!verb(type=value)). *)
Definition Sprintf_s_string_pointer (p : option (located string)) : string :=
  "%!s(*string="
  ++ match p with
     | None => "<nil>"
     | Some l => "0x" ++ hex (addr l)
     end
  ++ ")".

(* ===================================================================== *)
(** * pkg/controller/redissnapshot: the snapshot reconciler                *)
(* ===================================================================== *)

Definition with_Status (inst : RedisSnapshot) (phase : StatusPhase)
    (msg : string) : RedisSnapshot :=
  {| s_ObjectMeta := s_ObjectMeta inst;
     s_Spec_ResourceName := s_Spec_ResourceName inst;
     s_Status_Phase := phase;
     s_Status_Message := msg |}.

Definition requeue_after_60s : Result :=
  {| Requeue := true; RequeueAfter := Second * 60 |}.

Section Snapshot.
Context {W : Type} (E : Externals W).

(** Modelled from the spec: resources.UpdateSnapshotPhase is declared outside
    src/.  The specification has a step "set phase to P with message m" that
    writes both on the snapshot request and persists its status; a failure to
    persist is returned to the caller. *)
Definition UpdateSnapshotPhase (inst : RedisSnapshot) (phase : StatusPhase)
    (msg : string)
  : M W (RedisSnapshot * option error) (RedisSnapshot * option error) :=
  let inst := with_Status inst phase msg in
  err <- external (Call_Client_Status_Update inst) (Client_Status_Update E inst) ;;
  return_ (inst, err).

(** The loop over [listOutput.Snapshots]; the result is [foundSnapshot]. *)
Fixpoint find_snapshot {R} (snapshots : list (option Snapshot))
    (snapshotName : string) : M W R (option Snapshot) :=
  match snapshots with
  | [] => ret None
  | c :: rest =>
      s <- deref c ;;
      name <- deref (SnapshotName s) ;;
      if String.eqb name snapshotName then ret c
      else find_snapshot rest snapshotName
  end.

(** The loop over the node group members; the result is [cacheName]. *)
Fixpoint find_primary {R} (members : list (option NodeGroupMember))
  : M W R string :=
  match members with
  | [] => ret ""
  | i :: rest =>
      m <- deref i ;;
      role <- deref (CurrentRole m) ;;
      if String.eqb role "primary" then deref (CacheClusterId m)
      else find_primary rest
  end.

(** Reconcile reads that state of the cluster for a RedisSnapshot object and
    makes changes based on the state read and what is in the
    RedisSnapshot.Spec *)
Definition Reconcile (request : Request)
  : M W (Result * option error) (Result * option error) :=
  (* Fetch the RedisSnapshot instance *)
  got <- external (Call_Client_Get_RedisSnapshot (req_NamespacedName request))
                  (Client_Get_RedisSnapshot E (req_NamespacedName request)) ;;
  match got with
  | inr err =>
      when (IsNotFound E err) (return_ (Result_zero, None)) ;;
      return_ (Result_zero, Some err)
  | inl instance =>
  (* check status, if complete return *)
  when (StatusPhase_eqb (s_Status_Phase instance) PhaseComplete)
       (return_ (Result_zero, None)) ;;
  (* get redis cr *)
  let key := {| nn_Namespace := Namespace (s_ObjectMeta instance);
                nn_Name := s_Spec_ResourceName instance |} in
  got <- external (Call_Client_Get_Redis key) (Client_Get_Redis E key) ;;
  (* when Get fails the object it was given stays as it was made: empty *)
  let redisCr := match got with inl cr => cr | inr _ => empty_Redis end in
  instance <- match got with
              | inr err =>
                  let errMsg := "failed to get redis cr : " ++ Error err in
                  '(instance, updateErr) <-
                    call (UpdateSnapshotPhase instance PhaseFailed errMsg) ;;
                  when (not_nil updateErr) (return_ (Result_zero, updateErr)) ;;
                  ret instance
              | inl _ => ret instance
              end ;;
  (* check redis cr deployment type is aws *)
  when (negb (String.eqb (r_Status_Strategy redisCr) (AWSDeploymentStrategy E))) (
    let errMsg := "none supported deployment strategy" in
    '(instance, updateErr) <- call (UpdateSnapshotPhase instance PhaseFailed errMsg) ;;
    when (not_nil updateErr) (return_ (Result_zero, updateErr)) ;;
    return_ (Result_zero, Some (errorString errMsg))) ;;
  (* get resource region *)
  res <- external (Call_ReadStorageStrategy (RedisResourceType E) (r_Spec_Tier redisCr))
                  (ReadStorageStrategy E (RedisResourceType E) (r_Spec_Tier redisCr)) ;;
  match res with
  | inr err =>
      '(instance, updateErr) <- call (UpdateSnapshotPhase instance PhaseFailed (Error err)) ;;
      when (not_nil updateErr) (return_ (Result_zero, updateErr)) ;;
      return_ (Result_zero, Some err)
  | inl stratCfg =>
  let stratCfg :=
    if String.eqb (Region stratCfg) "" then with_Region stratCfg (DefaultRegion E)
    else stratCfg in
  (* create the credentials to be used by the aws resource providers *)
  creds <- external (Call_ReconcileProviderCredentials (Namespace (r_ObjectMeta redisCr)))
                    (ReconcileProviderCredentials E (Namespace (r_ObjectMeta redisCr))) ;;
  match creds with
  | inr err =>
      let errMsg := "failed to reconcile elasticache credentials" in
      '(instance, updateErr) <- call (UpdateSnapshotPhase instance PhaseFailed errMsg) ;;
      when (not_nil updateErr) (return_ (Result_zero, updateErr)) ;;
      return_ (Result_zero, Wrap (Some err) errMsg)
  | inl providerCreds =>
  (* setup aws elasticache cluster sdk session *)
  let cacheSvc := createCacheService stratCfg providerCreds in
  (* generate snapshot name *)
  built <- external (Call_BuildTimestampedInfraNameFromObjectCreation
                       (s_ObjectMeta instance) (DefaultAwsIdentifierLength E))
                    (BuildTimestampedInfraNameFromObjectCreation E
                       (s_ObjectMeta instance) (DefaultAwsIdentifierLength E)) ;;
  match built with
  | inr err =>
      let errMsg := "failed to generate snapshot name" in
      '(instance, updateErr) <- call (UpdateSnapshotPhase instance PhaseFailed errMsg) ;;
      when (not_nil updateErr) (return_ (Result_zero, updateErr)) ;;
      return_ (Result_zero, Wrap (Some err) errMsg)
  | inl snapshotName =>
  (* generate cluster name *)
  built <- external (Call_BuildInfraNameFromObject
                       (r_ObjectMeta redisCr) (DefaultAwsIdentifierLength E))
                    (BuildInfraNameFromObject E
                       (r_ObjectMeta redisCr) (DefaultAwsIdentifierLength E)) ;;
  match built with
  | inr err =>
      let errMsg := "failed to get cluster name" in
      '(instance, updateErr) <- call (UpdateSnapshotPhase instance PhaseFailed errMsg) ;;
      when (not_nil updateErr) (return_ (Result_zero, updateErr)) ;;
      return_ (Result_zero, Wrap (Some err) "failed to get cluster name")
  | inl clusterName =>
  (* check snapshot exists *)
  let input := {| ds_SnapshotName := Some snapshotName |} in
  '(listOutput, err) <- external (Call_DescribeSnapshots cacheSvc input)
                                 (DescribeSnapshots E cacheSvc input) ;;
  listed <- deref listOutput ;;
  foundSnapshot <- find_snapshot (Snapshots listed) snapshotName ;;
  (* get replication group *)
  let input := {| drg_ReplicationGroupId := Some clusterName |} in
  '(cacheOutput, err) <- external (Call_DescribeReplicationGroups cacheSvc input)
                                  (DescribeReplicationGroups E cacheSvc input) ;;
  (* ensure replication group is available *)
  described <- deref cacheOutput ;;
  rg0 <- index (ReplicationGroups described) 0 ;;
  rg <- deref rg0 ;;
  status <- deref (Status rg) ;;
  when (negb (String.eqb (pointee status) "available")) (
    let errMsg := "current replication group status is "
                  ++ Sprintf_s_string_pointer (Status rg) in
    '(instance, updateErr) <- call (UpdateSnapshotPhase instance PhaseFailed errMsg) ;;
    when (not_nil updateErr) (return_ (Result_zero, updateErr)) ;;
    return_ (requeue_after_60s, Wrap err "failed to get cluster name")) ;;
  (* find primary cache node *)
  ng0 <- index (NodeGroups rg) 0 ;;
  ng <- deref ng0 ;;
  cacheName <- find_primary (NodeGroupMembers ng) ;;
  (* create snapshot of primary cache node *)
  when (is_nil foundSnapshot) (
    let input := {| cs_CacheClusterId := Some cacheName;
                    cs_SnapshotName := Some snapshotName |} in
    err <- external (Call_CreateSnapshot cacheSvc input) (CreateSnapshot E cacheSvc input) ;;
    match err with
    | Some e =>
        let errMsg := "error creating elasticache snapshot " ++ Error e in
        return_ (Result_zero, Wrap err errMsg)
    | None => ret tt
    end ;;
    '(instance, updateErr) <-
      call (UpdateSnapshotPhase instance PhaseInProgress "snapshot creation in progress") ;;
    when (not_nil updateErr) (return_ (Result_zero, updateErr)) ;;
    return_ (requeue_after_60s, None)) ;;
  (* if snapshot status complete update status *)
  snapshot <- deref foundSnapshot ;;
  snapshotStatus <- deref (SnapshotStatus snapshot) ;;
  instance <- (if String.eqb snapshotStatus "available" then
                 (* update complete snapshot phase *)
                 '(instance, updateErr) <-
                   call (UpdateSnapshotPhase instance PhaseComplete "snapshot created") ;;
                 when (not_nil updateErr) (return_ (Result_zero, err)) ;;
                 ret instance
               else ret instance) ;;
  let msg := "current snapshot status :  " ++ snapshotStatus in
  '(instance, updateErr) <- call (UpdateSnapshotPhase instance PhaseInProgress msg) ;;
  when (not_nil updateErr) (return_ (Result_zero, updateErr)) ;;
  return_ (requeue_after_60s, None)
  end end end end end.

End Snapshot.

(* ===================================================================== *)
(** * Reading traces                                                       *)
(* ===================================================================== *)

Definition is_create (ev : Event) : bool :=
  match ev with Call_CreateReplicationGroup _ _ => true | _ => false end.

Definition is_poll_event (ev : Event) : bool :=
  match ev with
  | Call_DescribeReplicationGroups _ _ | Wait _ => true
  | _ => false
  end.

Definition is_status_update (ev : Event) : bool :=
  match ev with Call_Client_Status_Update _ => true | _ => false end.

(** The calls to the AWS control plane. *)
Definition is_control_plane_call (ev : Event) : bool :=
  match ev with
  | Call_DescribeReplicationGroups _ _ | Call_CreateReplicationGroup _ _
  | Call_DeleteReplicationGroup _ _ | Call_DescribeSnapshots _ _
  | Call_CreateSnapshot _ _ => true
  | _ => false
  end.

(** The time a trace spent waiting. *)
Fixpoint waited (t : list Event) : Duration :=
  match t with
  | [] => 0
  | Wait d :: rest => d + waited rest
  | _ :: rest => waited rest
  end.

(** The statuses persisted by a trace, oldest first. *)
Fixpoint persisted_statuses (t : list Event) : list (StatusPhase * string) :=
  match t with
  | [] => []
  | Call_Client_Status_Update inst :: rest =>
      (s_Status_Phase inst, s_Status_Message inst) :: persisted_statuses rest
  | _ :: rest => persisted_statuses rest
  end.

(** The describe-all call of getReplicationGroups, and the trace of [n]
    further rounds of the poll: wait five seconds, describe again. *)
Definition describe_all : DescribeReplicationGroupsInput :=
  {| drg_ReplicationGroupId := None |}.

Fixpoint retries (svc : CacheService) (n : nat) : list Event :=
  match n with
  | O => []
  | S n' => Wait (Second * 5) :: Call_DescribeReplicationGroups svc describe_all
            :: retries svc n'
  end.

(** The trace of the poll up to its describe call number [n + 1]: every call
    after the first follows a wait of five seconds, but for call 62, which
    follows call 61 at once. *)
Definition attempts (svc : CacheService) (n : nat) : list Event :=
  (Call_DescribeReplicationGroups svc describe_all :: retries svc (Nat.min n 60))
  ++ repeat (Call_DescribeReplicationGroups svc describe_all) (n - 60).

(** [s] occurs in [t]. *)
Fixpoint contains (s t : string) : bool :=
  String.prefix s t
  || match t with
     | EmptyString => false
     | String _ t' => contains s t'
     end.

(** What the listing says about one id. *)
Definition listed_id (c : option ReplicationGroup) : option string :=
  match c with
  | Some g => ReplicationGroupId g
  | None => None
  end.

(** The listing is well formed: every entry is a group with an id, and the id
    is the identity key, so no two entries share one. *)
Definition well_formed_listing (rgs : list (option ReplicationGroup)) : Prop :=
  Forall (fun c => listed_id c <> None) rgs /\ NoDup (map listed_id rgs).

(** The search ran over the whole listing and no group has the id. *)
Definition none_matches (rgs : list (option ReplicationGroup))
    (id : option string) : Prop :=
  Forall (fun c => exists cid rid,
            listed_id c = Some cid /\ id = Some rid /\ cid <> rid) rgs.

(** A group that is ready to be used: it has a first node group with a
    primary endpoint made of an address and a port. *)
Definition primary_endpoint_of (g : ReplicationGroup) (address : string)
    (port : Z) : Prop :=
  exists ng rest,
    NodeGroups g = Some ng :: rest /\
    PrimaryEndpoint ng = Some {| Address := Some address; Port := Some port |}.

(** The character [c] occurs in [t]. *)
Fixpoint occurs (c : ascii) (t : string) : bool :=
  match t with
  | EmptyString => false
  | String d t' => Ascii.eqb c d || occurs c t'
  end.

(** The status string of a listed group. *)
Definition status_is (g : ReplicationGroup) (s : string) : Prop :=
  exists a, Status g = Some (at_addr a s).

(** Every listed snapshot is there and has a name. *)
Definition well_formed_snapshots (l : list (option Snapshot)) : Prop :=
  Forall (fun c => exists s name, c = Some s /\ SnapshotName s = Some name) l.

(** Every member of the node group is there and has a role and an id. *)
Definition well_formed_members (l : list (option NodeGroupMember)) : Prop :=
  Forall (fun i => exists m role id,
            i = Some m /\ CurrentRole m = Some role /\ CacheClusterId m = Some id) l.

Section Vocabulary.
Context {W : Type} (E : Externals W).

(** The world after [n] describe-all calls in a row that each returned an
    error, if that is what the next [n] calls do. *)
Fixpoint failed_describes (svc : CacheService) (n : nat) (w : W) : option W :=
  match n with
  | O => Some w
  | S n' =>
      match DescribeReplicationGroups E svc describe_all w with
      | ((_, Some _), w') => failed_describes svc n' w'
      | ((_, None), _) => None
      end
  end.

(** The number of failed describe-all calls after which the poll of
    getReplicationGroups gives up: the immediate one, the 59 that follow the
    ticks before the deadline, the one that follows the closing of the
    channel, and one more when the tick on the deadline is delivered.  The
    scheduler decides at the deadline, that is after 60 failed calls. *)
Definition poll_runs (svc : CacheService) (w : W) : nat :=
  match failed_describes svc 60 w with
  | Some w60 => if DeadlineTickDelivered E w60 then 62%nat else 61%nat
  | None => 61%nat
  end.

(** The object with the provider's finalizer added, and with it removed. *)
Definition marked (r : Redis) : Redis :=
  with_ObjectMeta r (AddFinalizer (r_ObjectMeta r) (DefaultFinalizer E)).

Definition unmarked (r : Redis) : Redis :=
  with_ObjectMeta r (RemoveFinalizer (r_ObjectMeta r) (DefaultFinalizer E)).

(** The listing of this pass succeeded and no listed group has the id. *)
Definition confirmed_absent (svc : CacheService) (id : option string) (w : W)
  : Prop :=
  exists rgs w1 t1,
    run (getReplicationGroups E svc) w = (Done (rgs, None), w1, t1)
    /\ none_matches rgs id.

(** The client that Reconcile builds from the strategy and the credentials. *)
Definition session_for (stratCfg : StrategyConfig) (creds : AWSCredentials)
  : CacheService :=
  createCacheService
    (if String.eqb (Region stratCfg) "" then with_Region stratCfg (DefaultRegion E)
     else stratCfg)
    creds.

(** The pass gets as far as the describe calls: the request is fetched and not
    complete, the cluster object is fetched and has the AWS strategy, and the
    strategy, the credentials and the two names are resolved.  [w6] is the
    world in which DescribeSnapshots is then called. *)
Definition setup_succeeds (request : Request) (w : W) (instance : RedisSnapshot)
    (redisCr : Redis) (stratCfg : StrategyConfig) (creds : AWSCredentials)
    (snapshotName clusterName : string) (w6 : W) : Prop :=
  exists w1 w2 w3 w4 w5,
    Client_Get_RedisSnapshot E (req_NamespacedName request) w = (inl instance, w1)
    /\ s_Status_Phase instance <> PhaseComplete
    /\ Client_Get_Redis E {| nn_Namespace := Namespace (s_ObjectMeta instance);
                             nn_Name := s_Spec_ResourceName instance |} w1
       = (inl redisCr, w2)
    /\ r_Status_Strategy redisCr = AWSDeploymentStrategy E
    /\ ReadStorageStrategy E (RedisResourceType E) (r_Spec_Tier redisCr) w2
       = (inl stratCfg, w3)
    /\ ReconcileProviderCredentials E (Namespace (r_ObjectMeta redisCr)) w3
       = (inl creds, w4)
    /\ BuildTimestampedInfraNameFromObjectCreation E (s_ObjectMeta instance)
         (DefaultAwsIdentifierLength E) w4
       = (inl snapshotName, w5)
    /\ BuildInfraNameFromObject E (r_ObjectMeta redisCr)
         (DefaultAwsIdentifierLength E) w5
       = (inl clusterName, w6).

(** The calls of that part of the pass. *)
Definition setup_calls (request : Request) (instance : RedisSnapshot)
    (redisCr : Redis) : list Event :=
  [Call_Client_Get_RedisSnapshot (req_NamespacedName request);
   Call_Client_Get_Redis {| nn_Namespace := Namespace (s_ObjectMeta instance);
                            nn_Name := s_Spec_ResourceName instance |};
   Call_ReadStorageStrategy (RedisResourceType E) (r_Spec_Tier redisCr);
   Call_ReconcileProviderCredentials (Namespace (r_ObjectMeta redisCr));
   Call_BuildTimestampedInfraNameFromObjectCreation
     (s_ObjectMeta instance) (DefaultAwsIdentifierLength E);
   Call_BuildInfraNameFromObject
     (r_ObjectMeta redisCr) (DefaultAwsIdentifierLength E)].

End Vocabulary.

(* ===================================================================== *)
(** * More vocabulary: requests and calls                                  *)
(* ===================================================================== *)

Definition is_client_update (ev : Event) : bool :=
  match ev with Call_Client_Update _ => true | _ => false end.

Definition is_create_snapshot (ev : Event) : bool :=
  match ev with Call_CreateSnapshot _ _ => true | _ => false end.

(** The calls that only read: fetches from the object store, resolution of
    the strategy, the credentials and the names, and the describe calls. *)
Definition is_read_only (ev : Event) : bool :=
  match ev with
  | Call_Client_Get_RedisSnapshot _ | Call_Client_Get_Redis _
  | Call_ReadStorageStrategy _ _ | Call_ReconcileProviderCredentials _
  | Call_BuildTimestampedInfraNameFromObjectCreation _ _
  | Call_BuildInfraNameFromObject _ _
  | Call_DescribeReplicationGroups _ _ | Call_DescribeSnapshots _ _ => true
  | _ => false
  end.

(** The request that createRedisCluster sends when it creates the group
    (lines 132 to 142 of provider_redis.go). *)
Definition create_request (redisConfig : CreateReplicationGroupInput)
  : CreateReplicationGroupInput :=
  {| AutomaticFailoverEnabled := Some true;
     Engine := Some "redis";
     crg_ReplicationGroupId := crg_ReplicationGroupId redisConfig;
     CacheNodeType := or_default (CacheNodeType redisConfig) defaultCacheNodeType;
     EngineVersion := or_default (EngineVersion redisConfig) defaultEngineVersion;
     ReplicationGroupDescription :=
       or_default (ReplicationGroupDescription redisConfig) defaultDescription;
     NumCacheClusters :=
       or_default (NumCacheClusters redisConfig) defaultNumCacheClusters;
     SnapshotRetentionLimit :=
       or_default (SnapshotRetentionLimit redisConfig) defaultSnapshotRetention |}.

(** The request that deleteRedisCluster sends (lines 202 to 205). *)
Definition delete_request (redisConfig : CreateReplicationGroupInput)
  : DeleteReplicationGroupInput :=
  {| del_ReplicationGroupId := crg_ReplicationGroupId redisConfig;
     RetainPrimaryCluster := Some false |}.

(** The configuration with which CreateRedis and DeleteRedis go on: the
    replication group id falls back on the name of the object. *)
Definition resolved_config (r : Redis) (redisConfig : CreateReplicationGroupInput)
  : CreateReplicationGroupInput :=
  if is_nil (crg_ReplicationGroupId redisConfig)
  then with_ReplicationGroupId redisConfig (Some (Name (r_ObjectMeta r)))
  else redisConfig.

(** All five fields that verifyRedisConfig looks after are set. *)
Definition fully_configured (c : CreateReplicationGroupInput) : Prop :=
  CacheNodeType c <> None /\ ReplicationGroupDescription c <> None
  /\ EngineVersion c <> None /\ NumCacheClusters c <> None
  /\ SnapshotRetentionLimit c <> None.

(** A member of a node group that is there, has a role, and is not the
    primary. *)
Definition not_primary (i : option NodeGroupMember) : Prop :=
  exists m role, i = Some m /\ CurrentRole m = Some role /\ role <> "primary".

(** A callee's result seen from [CreateRedis] and [DeleteRedis]: the result
    is paired or passed on, the calls come after [before]. *)
Definition after_calls {W A B : Type} (before : list Event) (f : A -> B)
    (x : outcome A * W * list Event) : outcome B * W * list Event :=
  match x with
  | (Done a, w, t) => (Done (f a), w, (before ++ t)%list)
  | (Panic p, w, t) => (Panic p, w, (before ++ t)%list)
  end.

(** The error a failure path of Reconcile returns: the error of the status
    update when that failed, else the error that caused the path. *)
Definition first_error (updateErr cause : option error) : option error :=
  match updateErr with
  | Some _ => updateErr
  | None => cause
  end.

(** A listed snapshot that is there, has a name, and the name is not [name]. *)
Definition other_snapshot (name : string) (c : option Snapshot) : Prop :=
  exists s n, c = Some s /\ SnapshotName s = Some n /\ n <> name.

(** [snap] is the first listed snapshot with the name. *)
Definition first_named (snapshots : list (option Snapshot)) (name : string)
    (snap : Snapshot) : Prop :=
  exists before after,
    snapshots = (before ++ Some snap :: after)%list
    /\ Forall (other_snapshot name) before
    /\ SnapshotName snap = Some name.

(** The cache cluster a snapshot is taken from: the id of the first member
    with the role "primary", or the empty string when no member has it. *)
Definition snapshot_source (members : list (option NodeGroupMember))
    (cacheName : string) : Prop :=
  (exists before m after,
     members = (before ++ Some m :: after)%list
     /\ Forall not_primary before
     /\ CurrentRole m = Some "primary"
     /\ CacheClusterId m = Some cacheName)
  \/ (Forall not_primary members /\ cacheName = "").

(** The calls Reconcile can make. *)
Definition is_reconcile_call (ev : Event) : bool :=
  is_read_only ev || is_create_snapshot ev || is_status_update ev.


(* ===================================================================== *)
(** * A scripted world, to run the code on concrete inputs                 *)
(* ===================================================================== *)

Module Fake.

(** What each collaborator answers.  The first [describe_failures] calls of
    DescribeReplicationGroups fail; this is the only part that changes. *)
Record World : Type := {
  update_answer : option error;
  status_update_answer : option error;
  snapshot_object : RedisSnapshot + error;
  redis_object : Redis + error;
  strategy : StrategyConfig + error;
  credentials : AWSCredentials + error;
  snapshot_name : string + error;
  cluster_name : string + error;
  describe_failures : nat;
  describe_answer : option DescribeReplicationGroupsOutput * option error;
  create_answer : option error;
  delete_answer : option error;
  snapshots_answer : option DescribeSnapshotsOutput * option error;
  create_snapshot_answer : option error
}.

Definition one_failure_less (w : World) : World :=
  {| update_answer := update_answer w;
     status_update_answer := status_update_answer w;
     snapshot_object := snapshot_object w;
     redis_object := redis_object w;
     strategy := strategy w;
     credentials := credentials w;
     snapshot_name := snapshot_name w;
     cluster_name := cluster_name w;
     describe_failures := pred (describe_failures w);
     describe_answer := describe_answer w;
     create_answer := create_answer w;
     delete_answer := delete_answer w;
     snapshots_answer := snapshots_answer w;
     create_snapshot_answer := create_snapshot_answer w |}.

Definition no_config : CreateReplicationGroupInput :=
  {| AutomaticFailoverEnabled := None; Engine := None;
     crg_ReplicationGroupId := None; CacheNodeType := None;
     EngineVersion := None; ReplicationGroupDescription := None;
     NumCacheClusters := None; SnapshotRetentionLimit := None |}.

(** The collaborators over the scripted world; the scheduler answers
    [deadline_tick] every time. *)
Definition scheduled (deadline_tick : bool) : Externals World :=
  {| AWSDeploymentStrategy := "aws";
     RedisResourceType := "redis";
     DefaultRegion := "eu-west-1";
     DefaultFinalizer := "finalizers.aws.cloud-resources-operator.integreatly.org";
     DefaultAwsIdentifierLength := 40;
     ErrCodeReplicationGroupNotFoundFault := "ReplicationGroupNotFoundFault";
     Client_Update := fun _ w => (update_answer w, w);
     Client_Get_RedisSnapshot := fun _ w => (snapshot_object w, w);
     Client_Get_Redis := fun _ w => (redis_object w, w);
     Client_Status_Update := fun _ w => (status_update_answer w, w);
     IsNotFound := fun e => String.eqb (Error e) "not found";
     DeadlineTickDelivered := fun _ => deadline_tick;
     ReadStorageStrategy := fun _ _ w => (strategy w, w);
     ReconcileProviderCredentials := fun _ w => (credentials w, w);
     Unmarshal := fun _ => inl no_config;
     BuildTimestampedInfraNameFromObjectCreation := fun _ _ w => (snapshot_name w, w);
     BuildInfraNameFromObject := fun _ _ w => (cluster_name w, w);
     DescribeReplicationGroups := fun _ _ w =>
       match describe_failures w with
       | O => (describe_answer w, w)
       | S _ => ((None, Some (errorString "InvalidClientTokenId")),
                 one_failure_less w)
       end;
     CreateReplicationGroup := fun _ _ w => (create_answer w, w);
     DeleteReplicationGroup := fun _ _ w => (delete_answer w, w);
     DescribeSnapshots := fun _ _ w => (snapshots_answer w, w);
     CreateSnapshot := fun _ _ w => (create_snapshot_answer w, w) |}.

(** The scheduler that delivers the tick on the deadline, and the one that
    closes the channel first. *)
Definition externals : Externals World := scheduled true.

Definition externals_closing_first : Externals World := scheduled false.

Definition meta (name : string) : ObjectMeta :=
  {| Name := name; Namespace := "ns"; DeletionTimestamp := None;
     Finalizers := [] |}.

Definition redis (name : string) : Redis :=
  {| r_ObjectMeta := meta name; r_Spec_Tier := "development";
     r_Status_Strategy := "aws" |}.

Definition request_for (name : string) (phase : StatusPhase) : RedisSnapshot :=
  {| s_ObjectMeta := meta "snap"; s_Spec_ResourceName := name;
     s_Status_Phase := phase; s_Status_Message := "" |}.

Definition member (id role : string) : option NodeGroupMember :=
  Some {| CacheClusterId := Some id; CurrentRole := Some role |}.

(** A replication group with one node group of two members; its status
    string lives at [address]. *)
Definition group (id status : string) (address : N) : ReplicationGroup :=
  {| ReplicationGroupId := Some id;
     Status := Some (at_addr address status);
     NodeGroups :=
       [Some {| PrimaryEndpoint := Some {| Address := Some "10.0.0.5";
                                           Port := Some 6379 |};
                NodeGroupMembers := [member (id ++ "-001") "primary";
                                     member (id ++ "-002") "replica"] |}] |}.

Definition listing (gs : list ReplicationGroup)
  : option DescribeReplicationGroupsOutput * option error :=
  (Some {| ReplicationGroups := map Some gs |}, None).

Definition snapshots (l : list (string * string))
  : option DescribeSnapshotsOutput * option error :=
  (Some {| Snapshots :=
             map (fun s => Some {| SnapshotName := Some (fst s);
                                   SnapshotStatus := Some (snd s) |}) l |},
   None).

(** A world from the answers that the runs below vary. *)
Definition script (update status_update : option error)
    (snapshot : RedisSnapshot + error) (cr : Redis + error) (failures : nat)
    (described : option DescribeReplicationGroupsOutput * option error)
    (deleted : option error)
    (snaps : option DescribeSnapshotsOutput * option error) : World :=
  {| update_answer := update;
     status_update_answer := status_update;
     snapshot_object := snapshot;
     redis_object := cr;
     strategy := inl {| Region := ""; RawStrategy := "{}" |};
     credentials := inl {| AccessKeyID := "AKIA"; SecretAccessKey := "secret" |};
     snapshot_name := inl "snap-bar-20240101";
     cluster_name := inl "bar";
     describe_failures := failures;
     describe_answer := described;
     create_answer := None;
     delete_answer := deleted;
     snapshots_answer := snaps;
     create_snapshot_answer := None |}.

(** A world in which everything answers, for the cluster [bar] and the
    snapshot name [snap-bar-20240101]. *)
Definition world (gs : list ReplicationGroup) (snaps : list (string * string))
  : World :=
  script None None (inl (request_for "bar" PhasePending)) (inl (redis "bar"))
         0 (listing gs) None (snapshots snaps).

Definition service : CacheService :=
  {| svc_Region := "eu-west-1"; svc_AccessKeyID := "AKIA";
     svc_SecretAccessKey := "secret" |}.

Definition config (id : string) : CreateReplicationGroupInput :=
  with_ReplicationGroupId no_config (Some id).

Definition the_request : Request :=
  {| req_NamespacedName := {| nn_Namespace := "ns"; nn_Name := "snap" |} |}.


(** The same world with one answer changed. *)
Definition with_status_update_answer (v : option error) (w : World) : World :=
  {| update_answer := update_answer w;
     status_update_answer := v;
     snapshot_object := snapshot_object w;
     redis_object := redis_object w;
     strategy := strategy w;
     credentials := credentials w;
     snapshot_name := snapshot_name w;
     cluster_name := cluster_name w;
     describe_failures := describe_failures w;
     describe_answer := describe_answer w;
     create_answer := create_answer w;
     delete_answer := delete_answer w;
     snapshots_answer := snapshots_answer w;
     create_snapshot_answer := create_snapshot_answer w |}.

Definition with_snapshot_object (v : RedisSnapshot + error) (w : World) : World :=
  {| update_answer := update_answer w;
     status_update_answer := status_update_answer w;
     snapshot_object := v;
     redis_object := redis_object w;
     strategy := strategy w;
     credentials := credentials w;
     snapshot_name := snapshot_name w;
     cluster_name := cluster_name w;
     describe_failures := describe_failures w;
     describe_answer := describe_answer w;
     create_answer := create_answer w;
     delete_answer := delete_answer w;
     snapshots_answer := snapshots_answer w;
     create_snapshot_answer := create_snapshot_answer w |}.

Definition with_redis_object (v : Redis + error) (w : World) : World :=
  {| update_answer := update_answer w;
     status_update_answer := status_update_answer w;
     snapshot_object := snapshot_object w;
     redis_object := v;
     strategy := strategy w;
     credentials := credentials w;
     snapshot_name := snapshot_name w;
     cluster_name := cluster_name w;
     describe_failures := describe_failures w;
     describe_answer := describe_answer w;
     create_answer := create_answer w;
     delete_answer := delete_answer w;
     snapshots_answer := snapshots_answer w;
     create_snapshot_answer := create_snapshot_answer w |}.

Definition with_strategy (v : StrategyConfig + error) (w : World) : World :=
  {| update_answer := update_answer w;
     status_update_answer := status_update_answer w;
     snapshot_object := snapshot_object w;
     redis_object := redis_object w;
     strategy := v;
     credentials := credentials w;
     snapshot_name := snapshot_name w;
     cluster_name := cluster_name w;
     describe_failures := describe_failures w;
     describe_answer := describe_answer w;
     create_answer := create_answer w;
     delete_answer := delete_answer w;
     snapshots_answer := snapshots_answer w;
     create_snapshot_answer := create_snapshot_answer w |}.

Definition with_credentials (v : AWSCredentials + error) (w : World) : World :=
  {| update_answer := update_answer w;
     status_update_answer := status_update_answer w;
     snapshot_object := snapshot_object w;
     redis_object := redis_object w;
     strategy := strategy w;
     credentials := v;
     snapshot_name := snapshot_name w;
     cluster_name := cluster_name w;
     describe_failures := describe_failures w;
     describe_answer := describe_answer w;
     create_answer := create_answer w;
     delete_answer := delete_answer w;
     snapshots_answer := snapshots_answer w;
     create_snapshot_answer := create_snapshot_answer w |}.

(** The strategy and the credentials of these worlds; the session built from
    them is [service]. *)
Definition the_strategy : StrategyConfig := {| Region := ""; RawStrategy := "{}" |}.

Definition the_credentials : AWSCredentials :=
  {| AccessKeyID := "AKIA"; SecretAccessKey := "secret" |}.


End Fake.

Unset Implicit Arguments.

(* ===================================================================== *)
(** * The listing primitive                                                *)
(* ===================================================================== *)

Section ListingFacts.
Context {W : Type} (E : Externals W).
Variable svc : CacheService.

Let describe_call : Event := Call_DescribeReplicationGroups svc describe_all.

(** One run of the condition, by what the describe call answers. *)
Lemma describe_condition_error rgs w out e w' :
  DescribeReplicationGroups E svc describe_all w = ((out, Some e), w') ->
  describe_condition E svc rgs w = (Return (rgs, false, None), w', [describe_call]).
Proof.
  intros H. unfold describe_condition, bind, external.
  fold describe_all. rewrite H. reflexivity.
Qed.

Lemma describe_condition_success rgs w out w' :
  DescribeReplicationGroups E svc describe_all w = ((Some out, None), w') ->
  describe_condition E svc rgs w =
    (Return (ReplicationGroups out, true, None), w', [describe_call]).
Proof.
  intros H. unfold describe_condition, bind, external.
  fold describe_all. rewrite H. reflexivity.
Qed.

Lemma describe_condition_no_output rgs w w' :
  DescribeReplicationGroups E svc describe_all w = ((None, None), w') ->
  describe_condition E svc rgs w = (Panicked nil_dereference, w', [describe_call]).
Proof.
  intros H. unfold describe_condition, bind, external.
  fold describe_all. rewrite H. reflexivity.
Qed.

(** One turn of the loop of WaitFor, by what the describe call answers. *)
Lemma poll_run_error (R : Type) rgs w out e w' :
  DescribeReplicationGroups E svc describe_all w = ((out, Some e), w') ->
  poll_run (R := R) (describe_condition E svc) rgs w =
    (Next (rgs, None), w', [describe_call]).
Proof.
  intros H. unfold poll_run, bind, call.
  rewrite (describe_condition_error rgs w _ _ _ H). reflexivity.
Qed.

Lemma poll_run_success (R : Type) rgs w out w' :
  DescribeReplicationGroups E svc describe_all w = ((Some out, None), w') ->
  poll_run (R := R) (describe_condition E svc) rgs w =
    (Next (ReplicationGroups out, Some None), w', [describe_call]).
Proof.
  intros H. unfold poll_run, bind, call.
  rewrite (describe_condition_success rgs w _ _ H). reflexivity.
Qed.

Lemma poll_run_no_output (R : Type) rgs w w' :
  DescribeReplicationGroups E svc describe_all w = ((None, None), w') ->
  poll_run (R := R) (describe_condition E svc) rgs w =
    (Panicked nil_dereference, w', [describe_call]).
Proof.
  intros H. unfold poll_run, bind, call.
  rewrite (describe_condition_no_output rgs w _ H). reflexivity.
Qed.

(** The turns that the ticks drive: [n] failures and then a success, with a
    tick left for it. *)
Lemma poll_ticks_success (R : Type) n :
  forall ticks rgs w w_n out w',
    failed_describes E svc n w = Some w_n ->
    DescribeReplicationGroups E svc describe_all w_n = ((Some out, None), w') ->
    (n < ticks)%nat ->
    poll_ticks (R := R) ticks (Second * 5) (describe_condition E svc) rgs w =
      (Next (ReplicationGroups out, Some None), w', retries svc (S n)).
Proof.
  induction n as [|n IH]; intros ticks rgs w w_n out w' Hf Hok Hlt;
    destruct ticks as [|ticks]; try lia; simpl in Hf.
  - injection Hf as <-.
    cbn [poll_ticks]. unfold bind, external.
    rewrite (poll_run_success _ rgs w _ _ Hok). reflexivity.
  - destruct (DescribeReplicationGroups E svc describe_all w)
      as [[o [e|]] w1] eqn:Hd; try discriminate.
    cbn [poll_ticks]. unfold bind, external.
    rewrite (poll_run_error _ rgs w _ _ _ Hd).
    rewrite (IH ticks rgs w1 w_n out w' Hf Hok) by lia. reflexivity.
Qed.

(** The turns that the ticks drive, when every one of them fails. *)
Lemma poll_ticks_exhausted (R : Type) ticks :
  forall rgs w w_n,
    failed_describes E svc ticks w = Some w_n ->
    poll_ticks (R := R) ticks (Second * 5) (describe_condition E svc) rgs w =
      (Next (rgs, None), w_n, retries svc ticks).
Proof.
  induction ticks as [|ticks IH]; intros rgs w w_n Hf; simpl in Hf.
  - injection Hf as <-. reflexivity.
  - destruct (DescribeReplicationGroups E svc describe_all w)
      as [[o [e|]] w1] eqn:Hd; try discriminate.
    cbn [poll_ticks]. unfold bind, external.
    rewrite (poll_run_error _ rgs w _ _ _ Hd).
    rewrite (IH rgs w1 w_n Hf). reflexivity.
Qed.

(** The poller of getReplicationGroups: 60 ticks, the last one on the
    deadline. *)
Lemma poll_bound : Z.to_nat (Minute * 5 / (Second * 5)) = 60%nat.
Proof. reflexivity. Qed.

Lemma poll_on_deadline : (Minute * 5 mod (Second * 5) =? 0) = true.
Proof. reflexivity. Qed.

Lemma waited_retries n : waited (retries svc n) = Second * 5 * Z.of_nat n.
Proof.
  induction n as [|n IH].
  - reflexivity.
  - cbn [retries waited]. rewrite IH. lia.
Qed.

Lemma waited_app t u : waited (t ++ u) = waited t + waited u.
Proof.
  induction t as [|ev t IH].
  - reflexivity.
  - destruct ev; cbn [app waited]; rewrite IH; lia.
Qed.

Lemma waited_describes n : waited (repeat describe_call n) = 0.
Proof. induction n as [|n IH]; [reflexivity | exact IH]. Qed.

Lemma waited_attempts n :
  waited (attempts svc n) = Second * 5 * Z.of_nat (Nat.min n 60).
Proof.
  unfold attempts. rewrite waited_app. fold describe_call.
  rewrite waited_describes. unfold describe_call. cbn [waited].
  rewrite waited_retries. lia.
Qed.

Lemma retries_snoc n :
  (retries svc n ++ [Wait (Second * 5); describe_call])%list = retries svc (S n).
Proof.
  induction n as [|n IH].
  - reflexivity.
  - cbn [retries app] in *. rewrite IH. reflexivity.
Qed.

Lemma attempts_early n :
  (n <= 60)%nat -> attempts svc n = describe_call :: retries svc n.
Proof.
  intros H. unfold attempts.
  replace (n - 60)%nat with 0%nat by lia.
  replace (Nat.min n 60) with n by lia.
  cbn [repeat]. rewrite app_nil_r. reflexivity.
Qed.

(** A run of failures splits at any point. *)
Lemma failed_describes_split a :
  forall b w w',
    failed_describes E svc (a + b) w = Some w' ->
    exists w_a, failed_describes E svc a w = Some w_a
                /\ failed_describes E svc b w_a = Some w'.
Proof.
  induction a as [|a IH]; intros b w w' H.
  - exists w. split; [reflexivity | exact H].
  - cbn [Nat.add failed_describes] in *.
    destruct (DescribeReplicationGroups E svc describe_all w)
      as [[o [e|]] w1]; try discriminate.
    exact (IH b w1 w' H).
Qed.


Lemma attempts_poll_events n : forallb is_poll_event (attempts svc n) = true.
Proof.
  unfold attempts. rewrite forallb_app. apply andb_true_intro. split.
  - cbn [forallb is_poll_event andb].
    induction (Nat.min n 60) as [|m IH]; [reflexivity | exact IH].
  - induction (n - 60)%nat as [|m IH]; [reflexivity | exact IH].
Qed.

Lemma described_attempts n :
  length (filter is_control_plane_call (attempts svc n)) = S n.
Proof.
  unfold attempts. rewrite filter_app, length_app.
  assert (H1 : forall m,
             length (filter is_control_plane_call (retries svc m)) = m).
  { induction m as [|m IH]; [reflexivity|].
    cbn [retries filter is_control_plane_call length]. rewrite IH. reflexivity. }
  assert (H2 : forall m,
             length (filter is_control_plane_call (repeat describe_call m)) = m).
  { induction m as [|m IH]; [reflexivity|].
    unfold describe_call in *.
    cbn [repeat filter is_control_plane_call length]. rewrite IH. reflexivity. }
  fold describe_call. rewrite H2. unfold describe_call.
  cbn [filter is_control_plane_call length]. rewrite H1. lia.
Qed.

(** getReplicationGroups when the describe call succeeds after [n] failures,
    [n] at most 60: the successful call is the first one, one that follows a
    tick before the deadline, or the first one at the deadline. *)
Lemma getReplicationGroups_success n w w_n out w' :
  failed_describes E svc n w = Some w_n ->
  DescribeReplicationGroups E svc describe_all w_n = ((Some out, None), w') ->
  (n <= 60)%nat ->
  run (getReplicationGroups E svc) w =
    (Done (ReplicationGroups out, None), w', describe_call :: retries svc n).
Proof.
  intros Hf Hok Hle.
  unfold run, getReplicationGroups, PollImmediate.
  rewrite poll_bound, poll_on_deadline. cbn [pred andb].
  destruct n as [|n]; simpl in Hf.
  - injection Hf as <-.
    unfold bind, call. rewrite (describe_condition_success [] w _ _ Hok). reflexivity.
  - destruct (DescribeReplicationGroups E svc describe_all w)
      as [[o [e|]] w1] eqn:Hd; try discriminate.
    unfold bind, call. rewrite (describe_condition_error [] w _ _ _ Hd).
    cbn [when not_nil is_nil negb ret].
    destruct (Nat.eq_dec n 59) as [->|Hn].
    + rewrite (poll_ticks_exhausted _ 59%nat [] w1 w_n Hf).
      unfold external, ask.
      destruct (DeadlineTickDelivered E w_n); cbv beta iota delta [ret];
        rewrite (poll_run_success _ [] w_n _ _ Hok); reflexivity.
    + rewrite (poll_ticks_success _ n 59%nat [] w1 w_n out w' Hf Hok) by lia.
      cbn. repeat rewrite app_nil_r. reflexivity.
Qed.

(** getReplicationGroups when 61 describe calls fail and the channel is
    closed before the tick on the deadline is delivered. *)
Lemma getReplicationGroups_closing_first w w60 w61 :
  failed_describes E svc 60 w = Some w60 ->
  DeadlineTickDelivered E w60 = false ->
  failed_describes E svc 1 w60 = Some w61 ->
  run (getReplicationGroups E svc) w =
    (Done ([], Some ErrWaitTimeout), w61, describe_call :: retries svc 60).
Proof.
  intros Hf Hrace Hlast.
  unfold run, getReplicationGroups, PollImmediate.
  rewrite poll_bound, poll_on_deadline. cbn [pred andb].
  destruct (failed_describes_split 1 59 w w60 Hf) as [w0 [H1 H59]].
  cbn [failed_describes] in H1, Hlast.
  destruct (DescribeReplicationGroups E svc describe_all w)
    as [[o [e|]] w1] eqn:Hd; try discriminate.
  injection H1 as ->.
  destruct (DescribeReplicationGroups E svc describe_all w60)
    as [[o' [e'|]] w1] eqn:Hd'; try discriminate.
  injection Hlast as ->.
  unfold bind, call. rewrite (describe_condition_error [] w _ _ _ Hd).
  cbn [when not_nil is_nil negb ret].
  rewrite (poll_ticks_exhausted _ 59%nat [] w0 w60 H59).
  unfold external, ask. rewrite Hrace. cbv beta iota delta [ret].
  rewrite (poll_run_error _ [] w60 _ _ _ Hd'). reflexivity.
Qed.

(** getReplicationGroups when 61 describe calls fail, the tick on the
    deadline is delivered, and the call that follows the closing of the
    channel succeeds. *)
Lemma getReplicationGroups_last_success w w60 w61 out w' :
  failed_describes E svc 60 w = Some w60 ->
  DeadlineTickDelivered E w60 = true ->
  failed_describes E svc 1 w60 = Some w61 ->
  DescribeReplicationGroups E svc describe_all w61 = ((Some out, None), w') ->
  run (getReplicationGroups E svc) w =
    (Done (ReplicationGroups out, None), w', attempts svc 61).
Proof.
  intros Hf Hrace Hlast Hok.
  unfold run, getReplicationGroups, PollImmediate.
  rewrite poll_bound, poll_on_deadline. cbn [pred andb].
  destruct (failed_describes_split 1 59 w w60 Hf) as [w0 [H1 H59]].
  cbn [failed_describes] in H1, Hlast.
  destruct (DescribeReplicationGroups E svc describe_all w)
    as [[o [e|]] w1] eqn:Hd; try discriminate.
  injection H1 as ->.
  destruct (DescribeReplicationGroups E svc describe_all w60)
    as [[o' [e'|]] w1] eqn:Hd'; try discriminate.
  injection Hlast as ->.
  unfold bind, call. rewrite (describe_condition_error [] w _ _ _ Hd).
  cbn [when not_nil is_nil negb ret].
  rewrite (poll_ticks_exhausted _ 59%nat [] w0 w60 H59).
  unfold external, ask. rewrite Hrace. cbv beta iota delta [ret].
  rewrite (poll_run_error _ [] w60 _ _ _ Hd'). cbv beta iota delta [ret].
  rewrite (poll_run_success _ [] w61 _ _ Hok). reflexivity.
Qed.

(** getReplicationGroups when 62 describe calls fail and the tick on the
    deadline is delivered. *)
Lemma getReplicationGroups_timeout w w60 w62 :
  failed_describes E svc 60 w = Some w60 ->
  DeadlineTickDelivered E w60 = true ->
  failed_describes E svc 2 w60 = Some w62 ->
  run (getReplicationGroups E svc) w =
    (Done ([], Some ErrWaitTimeout), w62, attempts svc 61).
Proof.
  intros Hf Hrace Hlast.
  unfold run, getReplicationGroups, PollImmediate.
  rewrite poll_bound, poll_on_deadline. cbn [pred andb].
  destruct (failed_describes_split 1 59 w w60 Hf) as [w0 [H1 H59]].
  cbn [failed_describes] in H1, Hlast.
  destruct (DescribeReplicationGroups E svc describe_all w)
    as [[o [e|]] w1] eqn:Hd; try discriminate.
  injection H1 as ->.
  destruct (DescribeReplicationGroups E svc describe_all w60)
    as [[o' [e'|]] w61] eqn:Hd'; try discriminate.
  destruct (DescribeReplicationGroups E svc describe_all w61)
    as [[o'' [e''|]] w1] eqn:Hd''; try discriminate.
  injection Hlast as ->.
  unfold bind, call. rewrite (describe_condition_error [] w _ _ _ Hd).
  cbn [when not_nil is_nil negb ret].
  rewrite (poll_ticks_exhausted _ 59%nat [] w0 w60 H59).
  unfold external, ask. rewrite Hrace. cbv beta iota delta [ret].
  rewrite (poll_run_error _ [] w60 _ _ _ Hd'). cbv beta iota delta [ret].
  rewrite (poll_run_error _ [] w61 _ _ _ Hd''). reflexivity.
Qed.

(** Whatever the world does, the turns that the ticks drive end early, with
    the groups or with a panic, or they are used up. *)
Lemma poll_ticks_outcomes (R : Type) ticks :
  forall rgs w,
    let round := poll_ticks (R := R) ticks (Second * 5)
                   (describe_condition E svc) rgs w in
    (exists n, (n < ticks)%nat /\ snd round = retries svc (S n)
               /\ ((exists out, fst (fst round) = Next (out, Some None))
                   \/ fst (fst round) = Panicked nil_dereference))
    \/ (fst (fst round) = Next (rgs, None)
        /\ snd round = retries svc ticks).
Proof.
  induction ticks as [|ticks IH]; intros rgs w round.
  - right. split; reflexivity.
  - subst round. cbn [poll_ticks]. unfold bind, external.
    destruct (DescribeReplicationGroups E svc describe_all w)
      as [[o [e|]] w1] eqn:Hd.
    + rewrite (poll_run_error _ rgs w _ _ _ Hd).
      specialize (IH rgs w1). cbv zeta in IH.
      destruct (poll_ticks ticks (Second * 5) (describe_condition E svc) rgs w1)
        as [[s w2] t2].
      cbn [fst snd app] in *.
      destruct IH as [(n & Hn & Ht & Hs)|(Hs & Ht)].
      * left. exists (S n). split; [lia|]. split; [rewrite Ht; reflexivity|].
        exact Hs.
      * right. split; [exact Hs|]. rewrite Ht. reflexivity.
    + destruct o as [out|].
      * rewrite (poll_run_success _ rgs w _ _ Hd).
        left. exists 0%nat. split; [lia|]. split; [reflexivity|].
        left. exists (ReplicationGroups out). reflexivity.
      * rewrite (poll_run_no_output _ rgs w _ Hd).
        left. exists 0%nat. split; [lia|]. split; [reflexivity|].
        right. reflexivity.
Qed.

(** Whatever the world does, getReplicationGroups stops at one of its 62
    describe calls, and the only error it returns is the timeout, at the
    deadline and with no groups. *)
Lemma getReplicationGroups_shape w :
  let pass := run (getReplicationGroups E svc) w in
  exists n, (n <= 61)%nat /\ snd pass = attempts svc n
            /\ (forall rgs e,
                  fst (fst pass) = Done (rgs, Some e) ->
                  rgs = [] /\ e = ErrWaitTimeout /\ (60 <= n)%nat).
Proof.
  intros pass. subst pass.
  unfold run, getReplicationGroups, PollImmediate.
  rewrite poll_bound, poll_on_deadline. cbn [pred andb].
  unfold bind, call.
  destruct (DescribeReplicationGroups E svc describe_all w)
    as [[o [e|]] w1] eqn:Hd.
  - rewrite (describe_condition_error [] w _ _ _ Hd).
    cbn [when not_nil is_nil negb ret].
    pose proof (poll_ticks_outcomes (list (option ReplicationGroup) * option error)
                  59%nat [] w1) as Hp. cbv zeta in Hp.
    destruct (poll_ticks 59 (Second * 5) (describe_condition E svc) [] w1)
      as [[s w2] t2].
    cbn [fst snd] in Hp.
    destruct Hp as [(n & Hn & Ht & [[out Hs]|Hs])|(Hs & Ht)]; subst s t2.
    + exists (S n). split; [lia|].
      rewrite (attempts_early (S n)) by lia.
      cbn. repeat rewrite app_nil_r.
      split; [reflexivity|]. intros rgs e' H. discriminate.
    + exists (S n). split; [lia|].
      rewrite (attempts_early (S n)) by lia.
      cbn. repeat rewrite app_nil_r.
      split; [reflexivity|]. intros rgs e' H. discriminate.
    + unfold external, ask.
      destruct (DeadlineTickDelivered E w2); cbv beta iota delta [ret].
      * destruct (DescribeReplicationGroups E svc describe_all w2)
          as [[o2 [e2|]] w3] eqn:Hd2.
        -- rewrite (poll_run_error _ [] w2 _ _ _ Hd2). cbv beta iota delta [ret].
           destruct (DescribeReplicationGroups E svc describe_all w3)
             as [[o3 [e3|]] w4] eqn:Hd3.
           ++ rewrite (poll_run_error _ [] w3 _ _ _ Hd3).
              exists 61%nat. split; [lia|]. split; [reflexivity|].
              intros rgs e' H. inversion H. repeat split. lia.
           ++ destruct o3 as [out|].
              ** rewrite (poll_run_success _ [] w3 _ _ Hd3).
                 exists 61%nat. split; [lia|]. split; [reflexivity|].
                 intros rgs e' H. discriminate.
              ** rewrite (poll_run_no_output _ [] w3 _ Hd3).
                 exists 61%nat. split; [lia|]. split; [reflexivity|].
                 intros rgs e' H. discriminate.
        -- destruct o2 as [out|].
           ++ rewrite (poll_run_success _ [] w2 _ _ Hd2).
              exists 60%nat. split; [lia|]. split; [reflexivity|].
              intros rgs e' H. discriminate.
           ++ rewrite (poll_run_no_output _ [] w2 _ Hd2).
              exists 60%nat. split; [lia|]. split; [reflexivity|].
              intros rgs e' H. discriminate.
      * destruct (DescribeReplicationGroups E svc describe_all w2)
          as [[o2 [e2|]] w3] eqn:Hd2.
        -- rewrite (poll_run_error _ [] w2 _ _ _ Hd2).
           exists 60%nat. split; [lia|]. split; [reflexivity|].
           intros rgs e' H. inversion H. repeat split. lia.
        -- destruct o2 as [out|].
           ++ rewrite (poll_run_success _ [] w2 _ _ Hd2).
              exists 60%nat. split; [lia|]. split; [reflexivity|].
              intros rgs e' H. discriminate.
           ++ rewrite (poll_run_no_output _ [] w2 _ Hd2).
              exists 60%nat. split; [lia|]. split; [reflexivity|].
              intros rgs e' H. discriminate.
  - destruct o as [out|].
    + rewrite (describe_condition_success [] w _ _ Hd).
      exists 0%nat. split; [lia|]. cbn. split; [reflexivity|].
      intros rgs e' H. discriminate.
    + rewrite (describe_condition_no_output [] w _ Hd).
      exists 0%nat. split; [lia|]. cbn. split; [reflexivity|].
      intros rgs e' H. discriminate.
Qed.

(** Whatever the world does, the listing primitive only describes and
    waits. *)
Lemma getReplicationGroups_trace w :
  forallb is_poll_event (snd (run (getReplicationGroups E svc) w)) = true.
Proof.
  destruct (getReplicationGroups_shape w) as (n & _ & Ht & _).
  rewrite Ht. apply attempts_poll_events.
Qed.

End ListingFacts.

(* ===================================================================== *)
(** * Running function bodies                                              *)
(* ===================================================================== *)

Section MonadFacts.
Context {W R A B : Type}.

Lemma bind_ret (a : A) (k : A -> M W R B) w : bind (ret a) k w = k a w.
Proof. unfold bind, ret. destruct (k a w) as [[s w2] t2]. reflexivity. Qed.

Lemma bind_next (m : M W R A) (k : A -> M W R B) w a w1 t1 :
  m w = (Next a, w1, t1) ->
  bind m k w = (fst (fst (k a w1)), snd (fst (k a w1)), (t1 ++ snd (k a w1))%list).
Proof.
  intros H. unfold bind. rewrite H. destruct (k a w1) as [[s w2] t2]. reflexivity.
Qed.

Lemma bind_return (m : M W R A) (k : A -> M W R B) w r w1 t1 :
  m w = (Return r, w1, t1) -> bind m k w = (Return r, w1, t1).
Proof. intros H. unfold bind. rewrite H. reflexivity. Qed.

Lemma bind_panicked (m : M W R A) (k : A -> M W R B) w p w1 t1 :
  m w = (Panicked p, w1, t1) -> bind m k w = (Panicked p, w1, t1).
Proof. intros H. unfold bind. rewrite H. reflexivity. Qed.

Lemma call_run (f : M W B B) w b w1 t1 :
  run f w = (Done b, w1, t1) -> call (R := R) f w = (Next b, w1, t1).
Proof.
  unfold run, call. destruct (f w) as [[[x|x|p] w2] t2]; intros H;
    inversion H; reflexivity.
Qed.

Lemma call_run_panic (f : M W B B) w p w1 t1 :
  run f w = (Panic p, w1, t1) -> call (R := R) f w = (Panicked p, w1, t1).
Proof.
  unfold run, call. destruct (f w) as [[[x|x|q] w2] t2]; intros H;
    inversion H; reflexivity.
Qed.

End MonadFacts.

Section RunFacts.
Context {W R A : Type}.

Lemma run_bind_next (m : M W R A) (k : A -> M W R R) w a w1 t1 :
  m w = (Next a, w1, t1) ->
  run (bind m k) w =
    (fst (fst (run (k a) w1)), snd (fst (run (k a) w1)),
     (t1 ++ snd (run (k a) w1))%list).
Proof.
  intros H. unfold run, bind. rewrite H.
  destruct (k a w1) as [[[x|x|p] w2] t2]; reflexivity.
Qed.

Lemma run_bind_return (m : M W R A) (k : A -> M W R R) w r w1 t1 :
  m w = (Return r, w1, t1) -> run (bind m k) w = (Done r, w1, t1).
Proof. intros H. unfold run, bind. rewrite H. reflexivity. Qed.

Lemma run_bind_panicked (m : M W R A) (k : A -> M W R R) w p w1 t1 :
  m w = (Panicked p, w1, t1) -> run (bind m k) w = (Panic p, w1, t1).
Proof. intros H. unfold run, bind. rewrite H. reflexivity. Qed.

End RunFacts.

Lemma poll_events_no_create t :
  forallb is_poll_event t = true -> existsb is_create t = false.
Proof.
  induction t as [|ev t IH]; simpl; intros H.
  - reflexivity.
  - apply andb_true_iff in H as [Hev Ht].
    rewrite (IH Ht). destruct ev; simpl in *; congruence.
Qed.

Lemma poll_events_no_client_update t r :
  forallb is_poll_event t = true -> ~ In (Call_Client_Update r) t.
Proof.
  induction t as [|ev t IH]; simpl; intros H.
  - tauto.
  - apply andb_true_iff in H as [Hev Ht].
    intros [Heq|Hin].
    + subst ev. discriminate.
    + exact (IH Ht Hin).
Qed.

(* ===================================================================== *)
(** * The search for the replication group                                 *)
(* ===================================================================== *)

Section SearchFacts.
Context {W R : Type}.

Lemma find_cons_other g cid rid rest w :
  ReplicationGroupId g = Some cid -> cid <> rid ->
  @find_replication_group W R (Some g :: rest) (Some rid) w
  = @find_replication_group W R rest (Some rid) w.
Proof.
  intros Hid Hne. cbn [find_replication_group deref].
  rewrite bind_ret, Hid. cbn [deref]. rewrite !bind_ret.
  apply String.eqb_neq in Hne. rewrite Hne. reflexivity.
Qed.

Lemma find_cons_same g id rest w :
  ReplicationGroupId g = Some id ->
  @find_replication_group W R (Some g :: rest) (Some id) w = (Next (Some g), w, []).
Proof.
  intros Hid. cbn [find_replication_group deref].
  rewrite bind_ret, Hid. cbn [deref]. rewrite !bind_ret.
  rewrite String.eqb_refl. reflexivity.
Qed.

(** In a well-formed listing the search finds the group that has the id. *)
Lemma find_replication_group_found rgs :
  forall g id w,
    well_formed_listing rgs ->
    In (Some g) rgs -> ReplicationGroupId g = Some id ->
    @find_replication_group W R rgs (Some id) w = (Next (Some g), w, []).
Proof.
  induction rgs as [|c rest IH]; intros g id w [Hall Hnd] Hin Hid.
  - destruct Hin.
  - inversion Hall as [|? ? Hc Hrest]; subst.
    inversion Hnd as [|? ? Hnotin Hnd']; subst.
    destruct Hin as [Heq|Hin].
    + subst c. apply find_cons_same. exact Hid.
    + destruct c as [g'|]; [|exfalso; apply Hc; reflexivity].
      simpl in Hc, Hnotin.
      destruct (ReplicationGroupId g') as [cid|] eqn:Hid'; [|congruence].
      destruct (String.eqb_spec cid id) as [->|Hne].
      * exfalso. apply Hnotin. rewrite <- Hid.
        change (ReplicationGroupId g) with (listed_id (Some g)).
        apply in_map. exact Hin.
      * rewrite (find_cons_other g' _ _ rest w Hid' Hne).
        apply IH; [split|..]; assumption.
Qed.

(** When no entry has the id the search ends without a group. *)
Lemma find_replication_group_none rgs :
  forall id w,
    none_matches rgs id ->
    @find_replication_group W R rgs id w = (Next None, w, []).
Proof.
  induction rgs as [|c rest IH]; intros id w H.
  - reflexivity.
  - inversion H as [|? ? (cid & rid & Hc & Hid & Hne) Hrest]; subst.
    destruct c as [g|]; [|discriminate].
    simpl in Hc. rewrite (find_cons_other g _ _ rest w Hc Hne).
    apply IH. exact Hrest.
Qed.

(** The three ways the search can end. It never touches the world. *)
Lemma find_replication_group_cases rgs :
  forall id w,
    (none_matches rgs id /\ @find_replication_group W R rgs id w = (Next None, w, []))
    \/ (~ none_matches rgs id /\
        ((exists g, @find_replication_group W R rgs id w = (Next (Some g), w, []))
         \/ @find_replication_group W R rgs id w = (Panicked nil_dereference, w, []))).
Proof.
  induction rgs as [|c rest IH]; intros id w.
  - left. split; [constructor | reflexivity].
  - destruct c as [g|].
    2:{ right. split.
        - intros H. inversion H as [|? ? (cid & rid & Hc & _) _]. discriminate.
        - right. reflexivity. }
    destruct (ReplicationGroupId g) as [cid|] eqn:Hcid.
    2:{ right. split.
        - intros H. inversion H as [|? ? (cid & rid & Hc & _) _].
          simpl in Hc. congruence.
        - right. cbn [find_replication_group deref].
          rewrite bind_ret, Hcid. reflexivity. }
    destruct id as [rid|].
    2:{ right. split.
        - intros H. inversion H as [|? ? (c' & r' & _ & Hr & _) _]. discriminate.
        - right. cbn [find_replication_group deref].
          rewrite bind_ret, Hcid. reflexivity. }
    destruct (String.eqb_spec cid rid) as [->|Hne].
    + right. split.
      * intros H. inversion H as [|? ? (c' & r' & Hc & Hr & Hn) _].
        simpl in Hc. congruence.
      * left. exists g. apply find_cons_same. exact Hcid.
    + rewrite (find_cons_other g _ _ rest w Hcid Hne).
      destruct (IH (Some rid) w) as [[Hnone Hf]|[Hsome Hf]].
      * left. split; [|exact Hf].
        constructor; [|exact Hnone]. exists cid, rid. auto.
      * right. split; [|exact Hf].
        intros H. inversion H; subst. auto.
Qed.

End SearchFacts.

(* ===================================================================== *)
(** * The cluster provisioner                                              *)
(* ===================================================================== *)

Ltac go :=
  cbn [when not_nil is_nil negb ret return_ deref index nth_error throw
       fst snd pointee app andb as_awserr Wrap].

Section ProviderFacts.
Context {W : Type} (E : Externals W).

(** C2. Idempotent creation: when the listing shows a replication group with
    the resolved id and status "available", createRedisCluster returns the
    primary endpoint of that group (address and port) and no error, and the
    calls it made contain no CreateReplicationGroup; a second invocation that
    lists the same groups returns the same endpoint, and the two invocations
    together still made no create call. *)
Theorem createRedisCluster_idempotent
    svc redisConfig id g address port w rgs w1 t :
  crg_ReplicationGroupId redisConfig = Some id ->
  run (getReplicationGroups E svc) w = (Done (rgs, None), w1, t) ->
  well_formed_listing rgs ->
  In (Some g) rgs ->
  ReplicationGroupId g = Some id ->
  status_is g "available" ->
  primary_endpoint_of g address port ->
  let endpoint :=
    Some {| DeploymentDetails := Some {| URI := address; rdd_Port := port |} |} in
  run (createRedisCluster E svc redisConfig) w = (Done (endpoint, None), w1, t)
  /\ existsb is_create t = false
  /\ forall w2 t2,
       run (getReplicationGroups E svc) w1 = (Done (rgs, None), w2, t2) ->
       run (createRedisCluster E svc redisConfig) w1 = (Done (endpoint, None), w2, t2)
       /\ existsb is_create (t ++ t2) = false.
Proof.
  intros Hcfg Hlist Hwf Hin Hid [a Hst] (ng & rest & Hng & Hep) endpoint.
  assert (Hrun : forall u u' tr,
             run (getReplicationGroups E svc) u = (Done (rgs, None), u', tr) ->
             run (createRedisCluster E svc redisConfig) u
             = (Done (endpoint, None), u', tr)).
  { intros u u' tr Hl.
    unfold run, createRedisCluster, bind.
    rewrite (call_run _ _ _ _ _ Hl). go.
    rewrite Hcfg, (find_replication_group_found _ _ _ u' Hwf Hin Hid). go.
    rewrite Hst. go. cbn [String.eqb Ascii.eqb Bool.eqb].
    rewrite Hng. go. rewrite Hep. cbn. rewrite ?app_nil_r. reflexivity. }
  assert (Hquiet : forall u u' tr,
             run (getReplicationGroups E svc) u = (Done (rgs, None), u', tr) ->
             forallb is_poll_event tr = true).
  { intros u u' tr Hl.
    pose proof (getReplicationGroups_trace E svc u) as H.
    rewrite Hl in H. exact H. }
  split; [exact (Hrun _ _ _ Hlist)|].
  split; [apply poll_events_no_create; exact (Hquiet _ _ _ Hlist)|].
  intros w2 t2 Hlist2.
  split; [exact (Hrun _ _ _ Hlist2)|].
  apply poll_events_no_create. rewrite forallb_app.
  rewrite (Hquiet _ _ _ Hlist), (Hquiet _ _ _ Hlist2). reflexivity.
Qed.

(** C3. No duplicate create: when the listing shows a replication group with
    the resolved id whose status is not "available", createRedisCluster
    returns no result and no error, and made no CreateReplicationGroup
    call. *)
Theorem createRedisCluster_no_duplicate_create
    svc redisConfig id g status w rgs w1 t :
  crg_ReplicationGroupId redisConfig = Some id ->
  run (getReplicationGroups E svc) w = (Done (rgs, None), w1, t) ->
  well_formed_listing rgs ->
  In (Some g) rgs ->
  ReplicationGroupId g = Some id ->
  status_is g status ->
  status <> "available" ->
  run (createRedisCluster E svc redisConfig) w = (Done (None, None), w1, t)
  /\ existsb is_create t = false.
Proof.
  intros Hcfg Hlist Hwf Hin Hid [a Hst] Hne.
  split.
  - unfold run, createRedisCluster, bind.
    rewrite (call_run _ _ _ _ _ Hlist). go.
    rewrite Hcfg, (find_replication_group_found _ _ _ w1 Hwf Hin Hid). go.
    rewrite Hst. go.
    apply String.eqb_neq in Hne. rewrite Hne. go.
    rewrite ?app_nil_r. reflexivity.
  - apply poll_events_no_create.
    pose proof (getReplicationGroups_trace E svc w) as H.
    rewrite Hlist in H. exact H.
Qed.

End ProviderFacts.

Lemma createRedisCluster_idempotent_witness :
  let w := Fake.world [Fake.group "foo" "creating" 16;
                       Fake.group "bar" "available" 32] [] in
  let endpoint :=
    Some {| DeploymentDetails := Some {| URI := "10.0.0.5"; rdd_Port := 6379 |} |} in
  let t := [Call_DescribeReplicationGroups Fake.service describe_all] in
  run (createRedisCluster Fake.externals Fake.service (Fake.config "bar")) w
  = (Done (endpoint, None), w, t)
  /\ existsb is_create t = false
  /\ forall w2 t2,
       run (getReplicationGroups Fake.externals Fake.service) w
       = (Done ([Some (Fake.group "foo" "creating" 16);
                 Some (Fake.group "bar" "available" 32)], None), w2, t2) ->
       run (createRedisCluster Fake.externals Fake.service (Fake.config "bar")) w
       = (Done (endpoint, None), w2, t2)
       /\ existsb is_create (t ++ t2) = false.
Proof.
  intros w endpoint t.
  apply (createRedisCluster_idempotent Fake.externals Fake.service
           (Fake.config "bar") "bar" (Fake.group "bar" "available" 32)
           "10.0.0.5" 6379 w
           [Some (Fake.group "foo" "creating" 16);
            Some (Fake.group "bar" "available" 32)] w t).
  - reflexivity.
  - reflexivity.
  - split.
    + repeat constructor; discriminate.
    + repeat constructor; simpl; intuition discriminate.
  - simpl. auto.
  - reflexivity.
  - exists 32%N. reflexivity.
  - eexists. eexists. split; reflexivity.
Defined.

Lemma createRedisCluster_no_duplicate_create_witness :
  let w := Fake.world [Fake.group "foo" "creating" 16] [] in
  let t := [Call_DescribeReplicationGroups Fake.service describe_all] in
  run (createRedisCluster Fake.externals Fake.service (Fake.config "foo")) w
  = (Done (None, None), w, t)
  /\ existsb is_create t = false.
Proof.
  intros w t.
  apply (createRedisCluster_no_duplicate_create Fake.externals Fake.service
           (Fake.config "foo") "foo" (Fake.group "foo" "creating" 16)
           "creating" w [Some (Fake.group "foo" "creating" 16)] w t).
  - reflexivity.
  - reflexivity.
  - split.
    + repeat constructor; discriminate.
    + repeat constructor; simpl; intuition discriminate.
  - simpl. auto.
  - reflexivity.
  - exists 16%N. reflexivity.
  - discriminate.
Defined.

(** A trace made of the listing's calls and of calls that are not updates
    holds no update. *)
Ltac no_update Hq :=
  let x := fresh "x" in
  let Hin := fresh "Hin" in
  intros x Hin; rewrite ?app_nil_r in Hin;
  try (apply in_app_or in Hin; destruct Hin as [Hin|Hin];
       [|simpl in Hin; intuition discriminate]);
  exact (poll_events_no_client_update _ x Hq Hin).

Section FinalizerFacts.
Context {W : Type} (E : Externals W).

Lemma AddFinalizer_has om f : has_finalizer (AddFinalizer om f) f = true.
Proof.
  unfold AddFinalizer. destruct (has_finalizer om f) eqn:H; [exact H|].
  unfold has_finalizer. cbn [Finalizers]. rewrite existsb_app. simpl.
  rewrite String.eqb_refl. apply orb_true_iff. right. reflexivity.
Qed.

Lemma RemoveFinalizer_has_not om f : has_finalizer (RemoveFinalizer om f) f = false.
Proof.
  unfold has_finalizer, RemoveFinalizer. cbn [Finalizers].
  induction (Finalizers om) as [|x l IH]; simpl.
  - reflexivity.
  - destruct (String.eqb f x) eqn:Hx; simpl.
    + exact IH.
    + rewrite Hx. exact IH.
Qed.

(** The finalizer block that opens CreateRedis, for an object without
    deletion timestamp. *)
Lemma CreateRedis_marks_first r w :
  DeletionTimestamp (r_ObjectMeta r) = None ->
  exists rest,
    snd (run (CreateRedis E r) w) = Call_Client_Update (marked E r) :: rest
    /\ (fst (Client_Update E (marked E r) w) <> None -> rest = []).
Proof.
  intros Hd. unfold CreateRedis. rewrite Hd. fold (marked E r).
  destruct (Client_Update E (marked E r) w) as [[e|] w1] eqn:Hu.
  - rewrite run_bind_return
      with (r := (marked E r, (None, Wrap (Some e) "failed to add finalizer to instance")))
           (w1 := w1) (t1 := [Call_Client_Update (marked E r)]).
    + exists []. split; [reflexivity|]. reflexivity.
    + unfold bind, external. rewrite Hu. reflexivity.
  - rewrite run_bind_next
      with (a := marked E r) (w1 := w1) (t1 := [Call_Client_Update (marked E r)]).
    + eexists. split; [reflexivity|]. simpl. congruence.
    + unfold bind, external. rewrite Hu. reflexivity.
Qed.

(** Whatever path CreateRedis takes, the object it leaves is the one the
    finalizer block produced: nothing after that block writes to it. *)
Lemma CreateRedis_returns_object r w r1 res :
  fst (fst (run (CreateRedis E r) w)) = Done (r1, res) ->
  r1 = match DeletionTimestamp (r_ObjectMeta r) with
       | None => marked E r
       | Some _ => r
       end.
Proof.
  unfold run, CreateRedis, getRedisConfig, bind, external, call.
  fold (marked E r).
  destruct (DeletionTimestamp (r_ObjectMeta r)).
  - go.
    destruct (ReadStorageStrategy E (RedisResourceType E) (r_Spec_Tier r) w)
      as [[cfg|e] w1]; go; [|intros H; inversion H; reflexivity].
    destruct (Unmarshal E _) as [rc|e]; go; [|intros H; inversion H; reflexivity].
    destruct (ReconcileProviderCredentials E _ w1) as [[creds|e] w2]; go;
      [|intros H; inversion H; reflexivity].
    destruct (createRedisCluster E _ _ w2) as [[[x|x|p] w3] t3]; go;
      intros H; inversion H; reflexivity.
  - destruct (Client_Update E (marked E r) w) as [[e|] w0]; go;
      [intros H; inversion H; reflexivity|].
    destruct (ReadStorageStrategy E (RedisResourceType E) _ w0)
      as [[cfg|e] w1]; go; [|intros H; inversion H; reflexivity].
    destruct (Unmarshal E _) as [rc|e]; go; [|intros H; inversion H; reflexivity].
    destruct (ReconcileProviderCredentials E _ w1) as [[creds|e] w2]; go;
      [|intros H; inversion H; reflexivity].
    destruct (createRedisCluster E _ _ w2) as [[[x|x|p] w3] t3]; go;
      intros H; inversion H; reflexivity.
Qed.

Lemma CreateRedis_keeps_finalizer r w r1 res :
  fst (fst (run (CreateRedis E r) w)) = Done (r1, res) ->
  has_finalizer (r_ObjectMeta r) (DefaultFinalizer E) = true ->
  has_finalizer (r_ObjectMeta r1) (DefaultFinalizer E) = true.
Proof.
  intros H Hf. apply CreateRedis_returns_object in H. subst r1.
  destruct (DeletionTimestamp (r_ObjectMeta r)); [exact Hf|].
  apply AddFinalizer_has.
Qed.

(** deleteRedisCluster, when the group is confirmed absent. *)
Lemma deleteRedisCluster_absent svc redisConfig r w rgs w1 t answer w2 :
  run (getReplicationGroups E svc) w = (Done (rgs, None), w1, t) ->
  none_matches rgs (crg_ReplicationGroupId redisConfig) ->
  Client_Update E (unmarked E r) w1 = (answer, w2) ->
  run (deleteRedisCluster E svc redisConfig r) w =
    (Done (unmarked E r,
           Wrap answer "failed to update instance as part of finalizer reconcile"),
     w2, (t ++ [Call_Client_Update (unmarked E r)])%list).
Proof.
  intros Hl Hnone Hu.
  unfold run, deleteRedisCluster, bind.
  rewrite (call_run _ _ _ _ _ Hl). go.
  rewrite (find_replication_group_none _ _ w1 Hnone). go.
  fold (unmarked E r). unfold external. rewrite Hu.
  destruct answer; cbn; reflexivity.
Qed.

(** deleteRedisCluster, in every other case: no update is sent and the object
    is left as it was. *)
Lemma deleteRedisCluster_not_absent svc redisConfig r w :
  ~ confirmed_absent E svc (crg_ReplicationGroupId redisConfig) w ->
  (forall x, ~ In (Call_Client_Update x)
               (snd (run (deleteRedisCluster E svc redisConfig r) w)))
  /\ (forall r1 err,
        fst (fst (run (deleteRedisCluster E svc redisConfig r) w)) = Done (r1, err) ->
        r1 = r).
Proof.
  intros Hna.
  pose proof (getReplicationGroups_trace E svc w) as Hq.
  destruct (run (getReplicationGroups E svc) w) as [[[[rgs [e|]]|p] w1] t1] eqn:Hl;
    cbn [snd] in Hq.
  - (* the listing returned an error *)
    unfold run, deleteRedisCluster, bind.
    rewrite (call_run _ _ _ _ _ Hl). go. split.
    + no_update Hq.
    + intros r1 err H. inversion H. reflexivity.
  - (* the listing returned groups *)
    destruct (find_replication_group_cases (R := Redis * option error)
                rgs (crg_ReplicationGroupId redisConfig) w1)
      as [[Hnone _]|[_ [[g Hf]|Hf]]].
    + exfalso. apply Hna. exists rgs, w1, t1. split; [exact Hl|exact Hnone].
    + unfold run, deleteRedisCluster, bind, external.
      rewrite (call_run _ _ _ _ _ Hl). go. rewrite Hf. go.
      destruct (Status g) as [status|]; go.
      2:{ split; [no_update Hq | intros r1 err H; discriminate]. }
      destruct (String.eqb (pointee status) "available"); go.
      2:{ split; [no_update Hq | intros r1 err H; inversion H; reflexivity]. }
      destruct (DeleteReplicationGroup E svc _ w1)
        as [[[text|code message|cause msg]|] w2];
        go; try destruct (crg_ReplicationGroupId redisConfig); go;
        try destruct (negb (String.eqb code (ErrCodeReplicationGroupNotFoundFault E)));
        go;
        (split; [no_update Hq | intros r1 err H; inversion H; reflexivity]).
    + unfold run, deleteRedisCluster, bind, external.
      rewrite (call_run _ _ _ _ _ Hl). go. rewrite Hf. go.
      split; [no_update Hq | intros r1 err H; discriminate].
  - (* the listing panicked *)
    unfold run, deleteRedisCluster, bind.
    rewrite (call_run_panic _ _ _ _ _ Hl).
    split; [no_update Hq | intros r1 err H; discriminate].
Qed.

Lemma confirmed_absent_dec svc id w :
  confirmed_absent E svc id w \/ ~ confirmed_absent E svc id w.
Proof.
  unfold confirmed_absent.
  destruct (run (getReplicationGroups E svc) w) as [[[[rgs [e|]]|p] w1] t1] eqn:Hl.
  - right. intros (rgs' & w' & t' & H & _). discriminate.
  - destruct (find_replication_group_cases (W := W) (R := unit) rgs id w1)
      as [[Hnone _]|[Hsome _]].
    + left. exists rgs, w1, t1. auto.
    + right. intros (rgs' & w' & t' & H & Hn). inversion H; subst. auto.
  - right. intros (rgs' & w' & t' & H & _). discriminate.
Qed.

(** C1. Finalizer protocol.  For an object [r] without deletion timestamp,
    the first call of CreateRedis is the update that persists [r] with the
    finalizer added, so it comes before any create attempt, and when that
    update fails nothing follows it.  deleteRedisCluster sends the update that
    removes the finalizer from [d] if and only if the listing of the same
    pass succeeded and none of the listed groups has the resolved id; it
    sends no other update.  No other path clears the marker: in every other
    case deleteRedisCluster leaves [d] as it was, and CreateRedis never
    returns an object that lost the finalizer. *)
Theorem finalizer_protocol r d svc redisConfig w :
  DeletionTimestamp (r_ObjectMeta r) = None ->
  let deletion := run (deleteRedisCluster E svc redisConfig d) w in
  let absent := confirmed_absent E svc (crg_ReplicationGroupId redisConfig) w in
  (* CreateRedis adds and persists the marker first *)
  has_finalizer (r_ObjectMeta (marked E r)) (DefaultFinalizer E) = true
  /\ (exists rest,
        snd (run (CreateRedis E r) w) = Call_Client_Update (marked E r) :: rest
        /\ (fst (Client_Update E (marked E r) w) <> None -> rest = []))
  (* deleteRedisCluster removes it exactly when the group is confirmed absent *)
  /\ has_finalizer (r_ObjectMeta (unmarked E d)) (DefaultFinalizer E) = false
  /\ (absent <-> In (Call_Client_Update (unmarked E d)) (snd deletion))
  /\ (forall x, In (Call_Client_Update x) (snd deletion) -> x = unmarked E d)
  (* no other path clears it *)
  /\ (forall d1 err, fst (fst deletion) = Done (d1, err) ->
        (absent /\ d1 = unmarked E d) \/ (~ absent /\ d1 = d))
  /\ (forall x w0 x1 res,
        fst (fst (run (CreateRedis E x) w0)) = Done (x1, res) ->
        has_finalizer (r_ObjectMeta x) (DefaultFinalizer E) = true ->
        has_finalizer (r_ObjectMeta x1) (DefaultFinalizer E) = true).
Proof.
  intros Hd deletion absent.
  split; [apply AddFinalizer_has|].
  split; [apply CreateRedis_marks_first; exact Hd|].
  split; [apply RemoveFinalizer_has_not|].
  assert (Hcases :
            (absent /\ exists t answer w2,
                deletion
                = (Done (unmarked E d,
                         Wrap answer
                           "failed to update instance as part of finalizer reconcile"),
                   w2, (t ++ [Call_Client_Update (unmarked E d)])%list)
                /\ forallb is_poll_event t = true)
            \/ (~ absent
                /\ (forall x, ~ In (Call_Client_Update x) (snd deletion))
                /\ (forall d1 err, fst (fst deletion) = Done (d1, err) -> d1 = d))).
  { destruct (confirmed_absent_dec svc (crg_ReplicationGroupId redisConfig) w)
      as [Ha|Hna].
    - left. split; [exact Ha|].
      destruct Ha as (rgs & w1 & t1 & Hl & Hnone).
      destruct (Client_Update E (unmarked E d) w1) as [answer w2] eqn:Hu.
      exists t1, answer, w2. split.
      + exact (deleteRedisCluster_absent svc redisConfig d w rgs w1 t1 answer w2
                 Hl Hnone Hu).
      + pose proof (getReplicationGroups_trace E svc w) as Hq.
        rewrite Hl in Hq. exact Hq.
    - right. split; [exact Hna|].
      exact (deleteRedisCluster_not_absent svc redisConfig d w Hna). }
  split; [|split; [|split]].
  - split.
    + intros Ha. destruct Hcases as [(_ & t & answer & w2 & Heq & _)|(Hna & _)];
        [|contradiction].
      rewrite Heq. cbn [snd]. apply in_or_app. right. left. reflexivity.
    + intros Hin. destruct Hcases as [(Ha & _)|(_ & Hno & _)]; [exact Ha|].
      exfalso. exact (Hno _ Hin).
  - intros x Hin. destruct Hcases as [(_ & t & answer & w2 & Heq & Hq)|(_ & Hno & _)].
    + rewrite Heq in Hin. cbn [snd] in Hin.
      apply in_app_or in Hin. destruct Hin as [Hin|Hin].
      * exfalso. exact (poll_events_no_client_update _ x Hq Hin).
      * simpl in Hin. destruct Hin as [Hin|[]]. inversion Hin. reflexivity.
    + exfalso. exact (Hno _ Hin).
  - intros d1 err Hret.
    destruct Hcases as [(Ha & t & answer & w2 & Heq & _)|(Hna & _ & Hsame)].
    + left. split; [exact Ha|]. rewrite Heq in Hret. inversion Hret. reflexivity.
    + right. split; [exact Hna|]. exact (Hsame _ _ Hret).
  - intros x w0 x1 res. apply CreateRedis_keeps_finalizer.
Qed.

(** C6, as the code has it.  When the listing shows no group with the id,
    deleteRedisCluster removes the finalizer, sends the update, and returns
    what the update returned: success when the update succeeded, the wrapped
    failure otherwise.  When the listing shows the group as "available", the
    delete call is made, and its answer decides the result: no error, or an
    AWS error whose code is the replication-group-not-found code (whatever
    its message), is success; an AWS error with another code (whatever its
    message) and an error that is not an AWS error are returned, wrapped. *)
Theorem deleteRedisCluster_not_found_is_success svc redisConfig r w rgs w1 t :
  run (getReplicationGroups E svc) w = (Done (rgs, None), w1, t) ->
  (none_matches rgs (crg_ReplicationGroupId redisConfig) ->
   forall answer w2,
     Client_Update E (unmarked E r) w1 = (answer, w2) ->
     run (deleteRedisCluster E svc redisConfig r) w =
       (Done (unmarked E r,
              Wrap answer "failed to update instance as part of finalizer reconcile"),
        w2, (t ++ [Call_Client_Update (unmarked E r)])%list))
  /\
  (forall id g,
     crg_ReplicationGroupId redisConfig = Some id ->
     well_formed_listing rgs ->
     In (Some g) rgs ->
     ReplicationGroupId g = Some id ->
     status_is g "available" ->
     let input := {| del_ReplicationGroupId := Some id;
                     RetainPrimaryCluster := Some false |} in
     forall answer w2,
       DeleteReplicationGroup E svc input w1 = (answer, w2) ->
       exists err,
         run (deleteRedisCluster E svc redisConfig r) w =
           (Done (r, err), w2, (t ++ [Call_DeleteReplicationGroup svc input])%list)
         /\ (answer = None -> err = None)
         /\ (forall message,
               answer = Some (awserr_Error (ErrCodeReplicationGroupNotFoundFault E)
                                           message) ->
               err = None)
         /\ (forall code message,
               answer = Some (awserr_Error code message) ->
               code <> ErrCodeReplicationGroupNotFoundFault E ->
               err = Wrap answer ("failed to delete elasticache cluster " ++ id
                                  ++ ", aws error")
               /\ err <> None)
         /\ (forall e,
               answer = Some e ->
               (forall code message, e <> awserr_Error code message) ->
               err = Wrap answer ("failed to delete elasticache cluster " ++ id)
               /\ err <> None)).
Proof.
  intros Hl. split.
  - intros Hnone answer w2 Hu.
    exact (deleteRedisCluster_absent svc redisConfig r w rgs w1 t answer w2
             Hl Hnone Hu).
  - intros id g Hcfg Hwf Hin Hid [a Hst] input answer w2 Hdel.
    assert (Hrun : exists err,
               run (deleteRedisCluster E svc redisConfig r) w =
                 (Done (r, err), w2,
                  (t ++ [Call_DeleteReplicationGroup svc input])%list)
               /\ err = match answer with
                        | None => None
                        | Some (awserr_Error code message) =>
                            if String.eqb code (ErrCodeReplicationGroupNotFoundFault E)
                            then None
                            else Wrap answer ("failed to delete elasticache cluster "
                                              ++ id ++ ", aws error")
                        | Some _ =>
                            Wrap answer ("failed to delete elasticache cluster " ++ id)
                        end).
    { unfold run, deleteRedisCluster, bind, external.
      rewrite (call_run _ _ _ _ _ Hl). go.
      rewrite Hcfg, (find_replication_group_found _ _ _ w1 Hwf Hin Hid). go.
      rewrite Hst. go. cbn [String.eqb Ascii.eqb Bool.eqb]. go.
      subst input. rewrite Hdel.
      destruct answer as [[text|code message|cause msg]|]; go.
      - eexists. split; reflexivity.
      - destruct (String.eqb code (ErrCodeReplicationGroupNotFoundFault E));
          go; eexists; split; reflexivity.
      - eexists. split; reflexivity.
      - eexists. split; reflexivity. }
    destruct Hrun as (err & Hrun & Herr).
    exists err. split; [exact Hrun|]. subst err.
    split; [|split; [|split]].
    + intros ->. reflexivity.
    + intros message ->. rewrite String.eqb_refl. reflexivity.
    + intros code message -> Hne.
      apply String.eqb_neq in Hne. rewrite Hne. split; [reflexivity|discriminate].
    + intros e -> Hnot.
      destruct e as [text|code message|cause msg];
        [split; [reflexivity|discriminate]| |split; [reflexivity|discriminate]].
      exfalso. exact (Hnot code message eq_refl).
Qed.

End FinalizerFacts.

Lemma finalizer_protocol_witness :
  let r := Fake.redis "foo" in
  let d := marked Fake.externals (Fake.redis "foo") in
  let w := Fake.world [Fake.group "bar" "available" 32] [] in
  DeletionTimestamp (r_ObjectMeta r) = None
  /\ (exists rest,
        snd (run (CreateRedis Fake.externals r) w)
        = Call_Client_Update (marked Fake.externals r) :: rest
        /\ (fst (Client_Update Fake.externals (marked Fake.externals r) w) <> None ->
            rest = []))
  /\ (confirmed_absent Fake.externals Fake.service (Some "foo") w
      <-> In (Call_Client_Update (unmarked Fake.externals d))
             (snd (run (deleteRedisCluster Fake.externals Fake.service
                          (Fake.config "foo") d) w))).
Proof.
  intros r d w.
  pose proof (finalizer_protocol Fake.externals r d Fake.service
                (Fake.config "foo") w eq_refl) as H.
  split; [reflexivity|].
  split; [exact (proj1 (proj2 H))|].
  exact (proj1 (proj2 (proj2 (proj2 H)))).
Defined.

(** C6 does not hold as it is stated: the group is absent from the listing,
    the update that persists the removal of the finalizer is refused, and
    deleteRedisCluster returns that failure. *)
Lemma deleteRedisCluster_absent_not_always_success :
  let w := Fake.script (Some (errorString "conflict")) None
             (inl (Fake.request_for "foo" PhasePending)) (inl (Fake.redis "foo"))
             0 (Fake.listing []) None (Fake.snapshots []) in
  run (getReplicationGroups Fake.externals Fake.service) w
  = (Done ([], None), w, [Call_DescribeReplicationGroups Fake.service describe_all])
  /\ none_matches [] (Some "foo")
  /\ fst (fst (run (deleteRedisCluster Fake.externals Fake.service
                      (Fake.config "foo") (Fake.redis "foo")) w))
     = Done (Fake.redis "foo",
             Some (withMessage (errorString "conflict")
                     "failed to update instance as part of finalizer reconcile")).
Proof.
  intros w. split; [reflexivity|]. split; [constructor|reflexivity].
Qed.

Lemma deleteRedisCluster_not_found_is_success_witness :
  let w := Fake.script None None
             (inl (Fake.request_for "foo" PhasePending)) (inl (Fake.redis "foo"))
             0 (Fake.listing [Fake.group "foo" "available" 32])
             (Some (awserr_Error "ReplicationGroupNotFoundFault" "gone"))
             (Fake.snapshots []) in
  let input := {| del_ReplicationGroupId := Some "foo";
                  RetainPrimaryCluster := Some false |} in
  exists err,
    run (deleteRedisCluster Fake.externals Fake.service (Fake.config "foo")
           (Fake.redis "foo")) w
    = (Done (Fake.redis "foo", err), w,
       [Call_DescribeReplicationGroups Fake.service describe_all;
        Call_DeleteReplicationGroup Fake.service input])
    /\ err = None.
Proof.
  intros w input.
  destruct (deleteRedisCluster_not_found_is_success Fake.externals Fake.service
              (Fake.config "foo") (Fake.redis "foo") w
              [Some (Fake.group "foo" "available" 32)] w
              [Call_DescribeReplicationGroups Fake.service describe_all]
              eq_refl) as [_ H].
  assert (Hwf : well_formed_listing [Some (Fake.group "foo" "available" 32)]).
  { split.
    - repeat constructor; discriminate.
    - repeat constructor; simpl; intuition discriminate. }
  destruct (H "foo" (Fake.group "foo" "available" 32) eq_refl Hwf
              (or_introl eq_refl) eq_refl (ex_intro _ 32%N eq_refl)
              (Some (awserr_Error "ReplicationGroupNotFoundFault" "gone")) w
              eq_refl) as (err & Hrun & _ & Hnf & _).
  exists err. split; [exact Hrun|].
  exact (Hnf "gone" eq_refl).
Defined.

Section PollFacts.
Context {W : Type} (E : Externals W).

(** C9. getReplicationGroups describes all groups at once and then again
    after every wait of five seconds, until five minutes have been waited:
    that makes 61 calls, and wait.PollImmediate makes one more at the
    deadline when the scheduler delivers the last tick before the channel is
    closed ([poll_runs] is 61 or 62).  A describe call that returns an
    error, whatever the error, only leads to the next call.  The groups of
    the first call that succeeds are returned, whichever of these calls it
    is, and no more than five minutes have been waited for it.  When every
    one of these calls fails, the result is the timeout error and no groups,
    after five minutes of waiting. *)
Theorem getReplicationGroups_bounded_poll svc w n w_n :
  failed_describes E svc n w = Some w_n ->
  let pass := run (getReplicationGroups E svc) w in
  (61 <= poll_runs E svc w <= 62)%nat
  /\ (forall out w',
        (n < poll_runs E svc w)%nat ->
        DescribeReplicationGroups E svc describe_all w_n = ((Some out, None), w') ->
        pass = (Done (ReplicationGroups out, None), w', attempts svc n)
        /\ waited (attempts svc n) = Second * 5 * Z.of_nat (Nat.min n 60)
        /\ waited (attempts svc n) <= Minute * 5)
  /\ (n = poll_runs E svc w ->
      pass = (Done ([], Some ErrWaitTimeout), w_n, attempts svc (n - 1))
      /\ waited (attempts svc (n - 1)) = Minute * 5).
Proof.
  intros Hf pass.
  assert (Hruns : (61 <= poll_runs E svc w <= 62)%nat).
  { unfold poll_runs.
    destruct (failed_describes E svc 60 w) as [w60|];
      [destruct (DeadlineTickDelivered E w60)|]; lia. }
  split; [exact Hruns|]. split.
  - intros out w' Hlt Hok.
    pose proof (waited_attempts svc n) as Hw.
    split; [|split; [exact Hw | rewrite Hw; unfold Minute, Second; lia]].
    destruct (le_lt_dec n 60) as [Hle|Hgt].
    + rewrite (attempts_early svc n Hle).
      exact (getReplicationGroups_success E svc n w w_n out w' Hf Hok Hle).
    + assert (Hn : n = 61%nat) by lia. subst n.
      destruct (failed_describes_split E svc 60 1 w w_n Hf) as [w60 [H60 H1]].
      unfold poll_runs in Hlt. rewrite H60 in Hlt.
      destruct (DeadlineTickDelivered E w60) eqn:Hrace; [|lia].
      exact (getReplicationGroups_last_success E svc w w60 w_n out w'
               H60 Hrace H1 Hok).
  - intros Hn.
    assert (Hsplit : exists w60, failed_describes E svc 60 w = Some w60
                       /\ failed_describes E svc (n - 60) w60 = Some w_n).
    { apply failed_describes_split.
      replace (60 + (n - 60))%nat with n by lia. exact Hf. }
    destruct Hsplit as [w60 [H60 Hrest]].
    unfold poll_runs in Hn. rewrite H60 in Hn.
    destruct (DeadlineTickDelivered E w60) eqn:Hrace; subst n.
    + split; [exact (getReplicationGroups_timeout E svc w w60 w_n H60 Hrace Hrest)|].
      rewrite waited_attempts. reflexivity.
    + split; [exact (getReplicationGroups_closing_first E svc w w60 w_n
                       H60 Hrace Hrest)|].
      rewrite waited_attempts. reflexivity.
Qed.

End PollFacts.

Lemma getReplicationGroups_bounded_poll_witness :
  let w := Fake.script None None
             (inl (Fake.request_for "foo" PhasePending)) (inl (Fake.redis "foo"))
             2 (Fake.listing [Fake.group "foo" "creating" 16]) None
             (Fake.snapshots []) in
  let w' := Fake.script None None
              (inl (Fake.request_for "foo" PhasePending)) (inl (Fake.redis "foo"))
              0 (Fake.listing [Fake.group "foo" "creating" 16]) None
              (Fake.snapshots []) in
  let describe := Call_DescribeReplicationGroups Fake.service describe_all in
  failed_describes Fake.externals Fake.service 2 w = Some w'
  /\ run (getReplicationGroups Fake.externals Fake.service) w
     = (Done ([Some (Fake.group "foo" "creating" 16)], None), w',
        [describe; Wait (Second * 5); describe; Wait (Second * 5); describe]).
Proof.
  intros w w' describe.
  split; [reflexivity|].
  refine (proj1 (proj1 (proj2 (getReplicationGroups_bounded_poll Fake.externals
                                 Fake.service w 2 w' eq_refl))
                   {| ReplicationGroups := [Some (Fake.group "foo" "creating" 16)] |}
                   w' _ eq_refl)).
  change (2 < 61)%nat. lia.
Defined.

(** The timeout, run: a control plane that keeps refusing the credentials.
    When the tick on the deadline is delivered, the poll gives up after 62
    describe calls. *)
Example getReplicationGroups_gives_up :
  let w := Fake.script None None
             (inl (Fake.request_for "foo" PhasePending)) (inl (Fake.redis "foo"))
             100 (Fake.listing []) None (Fake.snapshots []) in
  fst (fst (run (getReplicationGroups Fake.externals Fake.service) w))
  = Done ([], Some ErrWaitTimeout)
  /\ waited (snd (run (getReplicationGroups Fake.externals Fake.service) w))
     = Minute * 5
  /\ length (filter is_control_plane_call
               (snd (run (getReplicationGroups Fake.externals Fake.service) w)))
     = 62%nat.
Proof. vm_compute. repeat split. Qed.

(** When the channel is closed first, it gives up after 61. *)
Example getReplicationGroups_gives_up_closing_first :
  let w := Fake.script None None
             (inl (Fake.request_for "foo" PhasePending)) (inl (Fake.redis "foo"))
             100 (Fake.listing []) None (Fake.snapshots []) in
  let pass :=
    run (getReplicationGroups Fake.externals_closing_first Fake.service) w in
  fst (fst pass) = Done ([], Some ErrWaitTimeout)
  /\ waited (snd pass) = Minute * 5
  /\ length (filter is_control_plane_call (snd pass)) = 61%nat.
Proof. vm_compute. repeat split. Qed.

(** A control plane that answers from its call 62 on: the groups are
    returned when the tick on the deadline is delivered, and the poll times
    out when the channel is closed first. *)
Example getReplicationGroups_last_call :
  let w := Fake.script None None
             (inl (Fake.request_for "foo" PhasePending)) (inl (Fake.redis "foo"))
             61 (Fake.listing [Fake.group "foo" "creating" 16]) None
             (Fake.snapshots []) in
  fst (fst (run (getReplicationGroups Fake.externals Fake.service) w))
  = Done ([Some (Fake.group "foo" "creating" 16)], None)
  /\ fst (fst (run (getReplicationGroups Fake.externals_closing_first
                      Fake.service) w))
     = Done ([], Some ErrWaitTimeout).
Proof. vm_compute. split; reflexivity. Qed.

(* ===================================================================== *)
(** * What Sprintf prints for a pointer                                    *)
(* ===================================================================== *)

Lemma occurs_append c s t : occurs c (s ++ t) = occurs c s || occurs c t.
Proof.
  induction s as [|d s IH]; simpl.
  - reflexivity.
  - rewrite IH. apply orb_assoc.
Qed.

(** A string that lacks the first character of [s] does not contain [s]. *)
Lemma contains_first_char c s t :
  occurs c t = false -> contains (String c s) t = false.
Proof.
  induction t as [|d t IH]; simpl; intros H.
  - reflexivity.
  - apply orb_false_iff in H as [Hcd Ht].
    rewrite (IH Ht).
    destruct (ascii_dec c d) as [->|_].
    + rewrite Ascii.eqb_refl in Hcd. discriminate.
    + reflexivity.
Qed.

Lemma hex_digit_is_not_m n : Ascii.eqb "m" (hex_digit n) = false.
Proof.
  unfold hex_digit.
  repeat match goal with
         | |- context [match ?x with _ => _ end] => destruct x
         end; reflexivity.
Qed.

Lemma hex_digits_no_m fuel :
  forall n acc, occurs "m" acc = false -> occurs "m" (hex_digits fuel n acc) = false.
Proof.
  induction fuel as [|fuel IH]; intros n acc Hacc; simpl.
  - exact Hacc.
  - assert (H : occurs "m" (String (hex_digit (n mod 16)) acc) = false).
    { cbn [occurs]. rewrite hex_digit_is_not_m, Hacc. reflexivity. }
    destruct (n / 16 =? 0)%N; [exact H|]. apply IH. exact H.
Qed.

(** Whatever the address, the message built from the status pointer does not
    contain the word "modifying": it holds the address, not the status. *)
Lemma status_pointer_message_has_no_status address status :
  contains "modifying"
    ("current replication group status is "
     ++ Sprintf_s_string_pointer (Some (at_addr address status))) = false.
Proof.
  apply contains_first_char.
  unfold Sprintf_s_string_pointer. cbn [addr].
  rewrite !occurs_append. unfold hex.
  rewrite hex_digits_no_m by reflexivity. reflexivity.
Qed.

(* ===================================================================== *)
(** * The snapshot reconciler                                              *)
(* ===================================================================== *)

Section SnapshotFacts.
Context {W : Type} (E : Externals W).

Lemma StatusPhase_eqb_neq a b : a <> b -> StatusPhase_eqb a b = false.
Proof. destruct a, b; simpl; congruence. Qed.

(** The search for the snapshot never touches the world; on a well-formed
    listing it ends without panic. *)
Lemma find_snapshot_total (R : Type) l :
  forall name (w : W),
    well_formed_snapshots l ->
    exists found, find_snapshot (R := R) l name w = (Next found, w, []).
Proof.
  induction l as [|c rest IH]; intros name w Hwf.
  - exists None. reflexivity.
  - inversion Hwf as [|? ? (s & n & -> & Hn) Hrest]; subst.
    cbn [find_snapshot deref]. rewrite bind_ret, Hn. cbn [deref].
    rewrite bind_ret.
    destruct (String.eqb n name).
    + exists (Some s). reflexivity.
    + apply IH. exact Hrest.
Qed.

Lemma find_primary_total (R : Type) l :
  forall (w : W),
    well_formed_members l ->
    exists cacheName, find_primary (R := R) l w = (Next cacheName, w, []).
Proof.
  induction l as [|i rest IH]; intros w Hwf.
  - exists "". reflexivity.
  - inversion Hwf as [|? ? (m & role & id & -> & Hrole & Hid) Hrest]; subst.
    cbn [find_primary deref]. rewrite bind_ret, Hrole. cbn [deref].
    rewrite bind_ret.
    destruct (String.eqb role "primary").
    + exists id. rewrite Hid. reflexivity.
    + apply IH. exact Hrest.
Qed.

End SnapshotFacts.

(** Runs Reconcile up to its call of DescribeSnapshots, from the facts that
    [setup_succeeds] packs. *)
Ltac reach_describe_calls Hsetup :=
  let w1 := fresh "w1" in let w2 := fresh "w2" in let w3 := fresh "w3" in
  let w4 := fresh "w4" in let w5 := fresh "w5" in
  let Hget := fresh "Hget" in let Hphase := fresh "Hphase" in
  let Hcr := fresh "Hcr" in let Hstrat := fresh "Hstrat" in
  let Hcfg := fresh "Hcfg" in let Hcreds := fresh "Hcreds" in
  let Hsnap := fresh "Hsnap" in let Hclu := fresh "Hclu" in
  destruct Hsetup as (w1 & w2 & w3 & w4 & w5 & Hget & Hphase & Hcr & Hstrat
                      & Hcfg & Hcreds & Hsnap & Hclu);
  unfold run, Reconcile, UpdateSnapshotPhase, bind, external, call;
  rewrite Hget; go;
  rewrite (StatusPhase_eqb_neq _ _ Hphase); go;
  rewrite Hcr; go;
  rewrite Hstrat, String.eqb_refl; go;
  rewrite Hcfg; go;
  rewrite Hcreds; go;
  rewrite Hsnap; go;
  rewrite Hclu; go.

Section SnapshotTheorems.
Context {W : Type} (E : Externals W).

(** C5. Monotone completion: when the request that the pass fetches has phase
    Complete, Reconcile returns at once with the empty result (no requeue) and
    no error; the only call it made is the fetch of the request, so it made
    no call to the control plane and persisted no status: the phase stays as
    it was. *)
Theorem Reconcile_complete_is_terminal request w instance w1 :
  Client_Get_RedisSnapshot E (req_NamespacedName request) w = (inl instance, w1) ->
  s_Status_Phase instance = PhaseComplete ->
  let pass := run (Reconcile E request) w in
  pass = (Done ({| Requeue := false; RequeueAfter := 0 |}, None), w1,
          [Call_Client_Get_RedisSnapshot (req_NamespacedName request)])
  /\ filter is_control_plane_call (snd pass) = []
  /\ persisted_statuses (snd pass) = [].
Proof.
  intros Hget Hphase pass.
  assert (Hpass : pass = (Done (Result_zero, None), w1,
                          [Call_Client_Get_RedisSnapshot (req_NamespacedName request)])).
  { unfold pass, run, Reconcile, bind, external. rewrite Hget.
    unfold when. rewrite Hphase. reflexivity. }
  rewrite Hpass. repeat split.
Qed.

(** C10, as the code has it.  Once the pass has reached the describe calls,
    it reads their outputs without testing the errors they return.  When
    DescribeSnapshots returns no output, whatever the error, the pass panics
    on a nil dereference.  When it returns an output, the pass goes on to
    DescribeReplicationGroups, and panics on a nil dereference when that call
    returns no output and on an index out of range when it returns an output
    without groups, whatever the errors.  In each case the calls of the pass
    end there: no status is persisted, so the request is not moved to
    Failed. *)
Theorem Reconcile_describe_unguarded
    request w instance redisCr stratCfg creds snapshotName clusterName w6 :
  setup_succeeds E request w instance redisCr stratCfg creds
                 snapshotName clusterName w6 ->
  let svc := session_for E stratCfg creds in
  let snapshots_input := {| ds_SnapshotName := Some snapshotName |} in
  let group_input := {| drg_ReplicationGroupId := Some clusterName |} in
  let setup := setup_calls E request instance redisCr in
  let pass := run (Reconcile E request) w in
  (forall err w7,
     DescribeSnapshots E svc snapshots_input w6 = ((None, err), w7) ->
     pass = (Panic nil_dereference, w7,
             (setup ++ [Call_DescribeSnapshots svc snapshots_input])%list)
     /\ persisted_statuses (snd pass) = [])
  /\
  (forall listed err w7,
     DescribeSnapshots E svc snapshots_input w6 = ((Some listed, err), w7) ->
     well_formed_snapshots (Snapshots listed) ->
     (forall err' w8,
        DescribeReplicationGroups E svc group_input w7 = ((None, err'), w8) ->
        pass = (Panic nil_dereference, w8,
                (setup ++ [Call_DescribeSnapshots svc snapshots_input;
                           Call_DescribeReplicationGroups svc group_input])%list)
        /\ persisted_statuses (snd pass) = [])
     /\ (forall err' w8,
           DescribeReplicationGroups E svc group_input w7
           = ((Some {| ReplicationGroups := [] |}, err'), w8) ->
           pass = (Panic (index_out_of_range 0 0), w8,
                   (setup ++ [Call_DescribeSnapshots svc snapshots_input;
                              Call_DescribeReplicationGroups svc group_input])%list)
           /\ persisted_statuses (snd pass) = [])).
Proof.
  intros Hsetup svc snapshots_input group_input setup pass.
  split.
  - intros err w7 Hds.
    assert (Hpass : pass = (Panic nil_dereference, w7,
                            (setup ++ [Call_DescribeSnapshots svc snapshots_input])%list)).
    { unfold pass. reach_describe_calls Hsetup.
      fold (session_for E stratCfg creds). fold svc. fold snapshots_input.
      rewrite Hds. reflexivity. }
    rewrite Hpass. split; reflexivity.
  - intros listed err w7 Hds Hwf.
    destruct (find_snapshot_total (Result * option error) (Snapshots listed)
                snapshotName w7 Hwf) as [found Hfound].
    split.
    + intros err' w8 Hdrg.
      assert (Hpass : pass = (Panic nil_dereference, w8,
                (setup ++ [Call_DescribeSnapshots svc snapshots_input;
                           Call_DescribeReplicationGroups svc group_input])%list)).
      { unfold pass. reach_describe_calls Hsetup.
        fold (session_for E stratCfg creds). fold svc. fold snapshots_input.
        rewrite Hds. go. rewrite Hfound. go. fold group_input.
        rewrite Hdrg. reflexivity. }
      rewrite Hpass. split; reflexivity.
    + intros err' w8 Hdrg.
      assert (Hpass : pass = (Panic (index_out_of_range 0 0), w8,
                (setup ++ [Call_DescribeSnapshots svc snapshots_input;
                           Call_DescribeReplicationGroups svc group_input])%list)).
      { unfold pass. reach_describe_calls Hsetup.
        fold (session_for E stratCfg creds). fold svc. fold snapshots_input.
        rewrite Hds. go. rewrite Hfound. go. fold group_input.
        rewrite Hdrg. reflexivity. }
      rewrite Hpass. split; reflexivity.
Qed.

(** The pass when the fetch of the cluster object fails and both status
    updates are accepted: the code does not return after the first update, so
    the strategy check runs on the empty object. *)
Lemma Reconcile_cluster_lookup_failure request w instance w1 e w2 w3 w4 :
  Client_Get_RedisSnapshot E (req_NamespacedName request) w = (inl instance, w1) ->
  s_Status_Phase instance <> PhaseComplete ->
  let key := {| nn_Namespace := Namespace (s_ObjectMeta instance);
                nn_Name := s_Spec_ResourceName instance |} in
  Client_Get_Redis E key w1 = (inr e, w2) ->
  AWSDeploymentStrategy E <> "" ->
  let first := with_Status instance PhaseFailed
                 ("failed to get redis cr : " ++ Error e) in
  let second := with_Status first PhaseFailed "none supported deployment strategy" in
  Client_Status_Update E first w2 = (None, w3) ->
  Client_Status_Update E second w3 = (None, w4) ->
  run (Reconcile E request) w =
    (Done (Result_zero, Some (errorString "none supported deployment strategy")),
     w4,
     [Call_Client_Get_RedisSnapshot (req_NamespacedName request);
      Call_Client_Get_Redis key;
      Call_Client_Status_Update first;
      Call_Client_Status_Update second]).
Proof.
  intros Hget Hphase key Hcr Haws first second Hu1 Hu2.
  unfold run, Reconcile, UpdateSnapshotPhase, bind, external, call.
  rewrite Hget. go.
  rewrite (StatusPhase_eqb_neq _ _ Hphase). go.
  fold key. rewrite Hcr. go. fold first. rewrite Hu1. go.
  cbn [empty_Redis r_Status_Strategy].
  assert (Hne : String.eqb "" (AWSDeploymentStrategy E) = false).
  { apply String.eqb_neq. congruence. }
  rewrite Hne. go. fold second. rewrite Hu2. reflexivity.
Qed.

(** The pass when the replication group is not available and the status
    update is accepted. *)
Lemma Reconcile_group_not_available
    request w instance redisCr stratCfg creds snapshotName clusterName w6
    listed err w7 described err' w8 rg rest address status w9 :
  setup_succeeds E request w instance redisCr stratCfg creds
                 snapshotName clusterName w6 ->
  let svc := session_for E stratCfg creds in
  let snapshots_input := {| ds_SnapshotName := Some snapshotName |} in
  let group_input := {| drg_ReplicationGroupId := Some clusterName |} in
  DescribeSnapshots E svc snapshots_input w6 = ((Some listed, err), w7) ->
  well_formed_snapshots (Snapshots listed) ->
  DescribeReplicationGroups E svc group_input w7 = ((Some described, err'), w8) ->
  ReplicationGroups described = Some rg :: rest ->
  Status rg = Some (at_addr address status) ->
  status <> "available" ->
  let failed := with_Status instance PhaseFailed
                  ("current replication group status is "
                   ++ Sprintf_s_string_pointer (Some (at_addr address status))) in
  Client_Status_Update E failed w8 = (None, w9) ->
  run (Reconcile E request) w =
    (Done (requeue_after_60s, Wrap err' "failed to get cluster name"), w9,
     (setup_calls E request instance redisCr
      ++ [Call_DescribeSnapshots svc snapshots_input;
          Call_DescribeReplicationGroups svc group_input;
          Call_Client_Status_Update failed])%list).
Proof.
  intros Hsetup svc snapshots_input group_input Hds Hwf Hdrg Hrgs Hst Hne
         failed Hu.
  destruct (find_snapshot_total (Result * option error) (Snapshots listed)
              snapshotName w7 Hwf) as [found Hfound].
  reach_describe_calls Hsetup.
  fold (session_for E stratCfg creds). fold svc. fold snapshots_input.
  rewrite Hds. go. rewrite Hfound. go. fold group_input.
  rewrite Hdrg. go. rewrite Hrgs. go. rewrite Hst. go.
  apply String.eqb_neq in Hne. rewrite Hne. go.
  fold failed. rewrite Hu. reflexivity.
Qed.

(** The pass when the snapshot is listed first and is available, the
    replication group is available, and both status updates are accepted:
    the code does not return after it has set Complete. *)
Lemma Reconcile_snapshot_available
    request w instance redisCr stratCfg creds snapshotName clusterName w6
    listed err w7 snap others described err' w8 rg rest address ng groups
    w9 w10 :
  setup_succeeds E request w instance redisCr stratCfg creds
                 snapshotName clusterName w6 ->
  let svc := session_for E stratCfg creds in
  let snapshots_input := {| ds_SnapshotName := Some snapshotName |} in
  let group_input := {| drg_ReplicationGroupId := Some clusterName |} in
  DescribeSnapshots E svc snapshots_input w6 = ((Some listed, err), w7) ->
  Snapshots listed = Some snap :: others ->
  SnapshotName snap = Some snapshotName ->
  SnapshotStatus snap = Some "available" ->
  DescribeReplicationGroups E svc group_input w7 = ((Some described, err'), w8) ->
  ReplicationGroups described = Some rg :: rest ->
  Status rg = Some (at_addr address "available") ->
  NodeGroups rg = Some ng :: groups ->
  well_formed_members (NodeGroupMembers ng) ->
  let complete := with_Status instance PhaseComplete "snapshot created" in
  let in_progress := with_Status complete PhaseInProgress
                       "current snapshot status :  available" in
  Client_Status_Update E complete w8 = (None, w9) ->
  Client_Status_Update E in_progress w9 = (None, w10) ->
  run (Reconcile E request) w =
    (Done (requeue_after_60s, None), w10,
     (setup_calls E request instance redisCr
      ++ [Call_DescribeSnapshots svc snapshots_input;
          Call_DescribeReplicationGroups svc group_input;
          Call_Client_Status_Update complete;
          Call_Client_Status_Update in_progress])%list).
Proof.
  intros Hsetup svc snapshots_input group_input Hds Hsnaps Hname Hstatus Hdrg
         Hrgs Hst Hng Hmembers complete in_progress Hu1 Hu2.
  destruct (find_primary_total (Result * option error) (NodeGroupMembers ng)
              w8 Hmembers) as [cacheName Hprimary].
  reach_describe_calls Hsetup.
  fold (session_for E stratCfg creds). fold svc. fold snapshots_input.
  rewrite Hds. go. rewrite Hsnaps.
  cbn [find_snapshot deref]. rewrite bind_ret, Hname. cbn [deref].
  rewrite bind_ret, String.eqb_refl. go. fold group_input.
  rewrite Hdrg. go. rewrite Hrgs. go. rewrite Hst. go.
  cbn [String.eqb Ascii.eqb Bool.eqb]. go.
  rewrite Hng. go. rewrite Hprimary. go. rewrite Hstatus. go.
  cbn [String.eqb Ascii.eqb Bool.eqb]. go.
  fold complete. rewrite Hu1. go. cbn [append]. fold in_progress.
  rewrite Hu2. reflexivity.
Qed.

End SnapshotTheorems.

Lemma Reconcile_complete_is_terminal_witness :
  let w := Fake.script None None
             (inl (Fake.request_for "bar" PhaseComplete)) (inl (Fake.redis "bar"))
             0 (Fake.listing [Fake.group "bar" "available" 32]) None
             (Fake.snapshots [("snap-bar-20240101", "available")]) in
  let pass := run (Reconcile Fake.externals Fake.the_request) w in
  pass = (Done ({| Requeue := false; RequeueAfter := 0 |}, None), w,
          [Call_Client_Get_RedisSnapshot (req_NamespacedName Fake.the_request)])
  /\ filter is_control_plane_call (snd pass) = []
  /\ persisted_statuses (snd pass) = [].
Proof.
  intros w pass.
  apply (Reconcile_complete_is_terminal Fake.externals Fake.the_request w
           (Fake.request_for "bar" PhaseComplete) w).
  - reflexivity.
  - reflexivity.
Defined.

(** C4 is not what the code does.  The request is Pending, the snapshot
    [snap-bar-20240101] exists with status "available" and the replication
    group is available.  The pass persists Complete with "snapshot created",
    does not return, persists InProgress with the current status over it, and
    asks for a requeue after 60 seconds. *)
Theorem Reconcile_available_snapshot_is_overwritten :
  let w := Fake.world [Fake.group "bar" "available" 32]
                      [("snap-bar-20240101", "available")] in
  let pass := run (Reconcile Fake.externals Fake.the_request) w in
  fst (fst pass) = Done ({| Requeue := true; RequeueAfter := Second * 60 |}, None)
  /\ persisted_statuses (snd pass)
     = [(PhaseComplete, "snapshot created");
        (PhaseInProgress, "current snapshot status :  available")].
Proof. split; reflexivity. Qed.

(** C7 is not what the code does.  The fetch of the cluster object fails with
    "not found".  The pass persists Failed with the retrieval error, does not
    return, runs the strategy check on the empty object, persists Failed
    again with the message of that check, and returns its error.  It resolves
    no credentials and makes no call to the control plane. *)
Theorem Reconcile_cluster_lookup_failure_goes_on :
  let w := Fake.script None None
             (inl (Fake.request_for "bar" PhasePending))
             (inr (errorString "not found"))
             0 (Fake.listing []) None (Fake.snapshots []) in
  let pass := run (Reconcile Fake.externals Fake.the_request) w in
  fst (fst pass)
  = Done ({| Requeue := false; RequeueAfter := 0 |},
          Some (errorString "none supported deployment strategy"))
  /\ persisted_statuses (snd pass)
     = [(PhaseFailed, "failed to get redis cr : not found");
        (PhaseFailed, "none supported deployment strategy")]
  /\ snd pass
     = [Call_Client_Get_RedisSnapshot {| nn_Namespace := "ns"; nn_Name := "snap" |};
        Call_Client_Get_Redis {| nn_Namespace := "ns"; nn_Name := "bar" |};
        Call_Client_Status_Update
          (with_Status (Fake.request_for "bar" PhasePending) PhaseFailed
             "failed to get redis cr : not found");
        Call_Client_Status_Update
          (with_Status (Fake.request_for "bar" PhasePending) PhaseFailed
             "none supported deployment strategy")].
Proof. repeat split. Qed.

(** C8 is not what the code does.  The replication group has status
    "modifying", held at any address.  The pass persists Failed and asks for
    a requeue after 60 seconds, but the message is built from the pointer to
    the status, not from the status: it shows the address and does not
    contain "modifying". *)
Theorem Reconcile_unavailable_group_message address :
  let w := Fake.world [Fake.group "bar" "modifying" address] [] in
  let pass := run (Reconcile Fake.externals Fake.the_request) w in
  let message := "current replication group status is %!s(*string=0x"
                 ++ hex address ++ ")" in
  fst (fst pass) = Done ({| Requeue := true; RequeueAfter := Second * 60 |}, None)
  /\ persisted_statuses (snd pass) = [(PhaseFailed, message)]
  /\ contains "modifying" message = false.
Proof.
  split; [reflexivity|]. split; [reflexivity|].
  exact (status_pointer_message_has_no_status address "modifying").
Qed.

Example Reconcile_unavailable_group_message_at_c000010250 :
  persisted_statuses
    (snd (run (Reconcile Fake.externals Fake.the_request)
              (Fake.world [Fake.group "bar" "modifying" 824633786960] [])))
  = [(PhaseFailed,
      "current replication group status is %!s(*string=0xc000010250)")].
Proof. reflexivity. Qed.

(** C10 does not hold as it is stated: DescribeSnapshots returns an error,
    together with an output that lists no snapshot, and the pass is defined.
    It goes on as if no snapshot existed: it creates one, persists InProgress
    and asks for a requeue. *)
Lemma Reconcile_failed_describe_is_not_always_a_panic :
  let w := Fake.script None None
             (inl (Fake.request_for "bar" PhasePending)) (inl (Fake.redis "bar"))
             0 (Fake.listing [Fake.group "bar" "available" 32]) None
             (Some {| Snapshots := [] |}, Some (errorString "Throttling")) in
  let pass := run (Reconcile Fake.externals Fake.the_request) w in
  fst (DescribeSnapshots Fake.externals Fake.service
         {| ds_SnapshotName := Some "snap-bar-20240101" |} w)
  = (Some {| Snapshots := [] |}, Some (errorString "Throttling"))
  /\ fst (fst pass) = Done ({| Requeue := true; RequeueAfter := Second * 60 |}, None)
  /\ persisted_statuses (snd pass)
     = [(PhaseInProgress, "snapshot creation in progress")]
  /\ filter is_control_plane_call (snd pass)
     = [Call_DescribeSnapshots Fake.service
          {| ds_SnapshotName := Some "snap-bar-20240101" |};
        Call_DescribeReplicationGroups Fake.service
          {| drg_ReplicationGroupId := Some "bar" |};
        Call_CreateSnapshot Fake.service
          {| cs_CacheClusterId := Some "bar-001";
             cs_SnapshotName := Some "snap-bar-20240101" |}].
Proof. repeat split. Qed.

Lemma Reconcile_describe_unguarded_witness :
  let w := Fake.world [] [] in
  let instance := Fake.request_for "bar" PhasePending in
  let pass := run (Reconcile Fake.externals Fake.the_request) w in
  setup_succeeds Fake.externals Fake.the_request w instance (Fake.redis "bar")
    {| Region := ""; RawStrategy := "{}" |}
    {| AccessKeyID := "AKIA"; SecretAccessKey := "secret" |}
    "snap-bar-20240101" "bar" w
  /\ pass = (Panic (index_out_of_range 0 0), w,
             (setup_calls Fake.externals Fake.the_request instance (Fake.redis "bar")
              ++ [Call_DescribeSnapshots Fake.service
                    {| ds_SnapshotName := Some "snap-bar-20240101" |};
                  Call_DescribeReplicationGroups Fake.service
                    {| drg_ReplicationGroupId := Some "bar" |}])%list)
  /\ persisted_statuses (snd pass) = [].
Proof.
  intros w instance pass.
  assert (Hsetup : setup_succeeds Fake.externals Fake.the_request w instance
                     (Fake.redis "bar") {| Region := ""; RawStrategy := "{}" |}
                     {| AccessKeyID := "AKIA"; SecretAccessKey := "secret" |}
                     "snap-bar-20240101" "bar" w).
  { exists w, w, w, w, w. repeat split; discriminate. }
  split; [exact Hsetup|].
  refine (proj2 (proj2 (Reconcile_describe_unguarded Fake.externals
                          Fake.the_request w instance (Fake.redis "bar") _ _ _ _ w
                          Hsetup)
                   {| Snapshots := [] |} None w eq_refl _)
            None w eq_refl).
  constructor.
Defined.

(* ===================================================================== *)
(** * Further properties of the provider                                   *)
(* ===================================================================== *)

(** X1. verifyRedisConfig sets the five fields it looks after, keeps every
    value that was configured, leaves the id, the engine and the failover
    flag alone, changes nothing in a configuration that was complete, and
    applying it twice is applying it once. *)
Theorem verifyRedisConfig_defaults_only_unset c :
  fully_configured (verifyRedisConfig c)
  /\ (forall v, CacheNodeType c = Some v ->
                CacheNodeType (verifyRedisConfig c) = Some v)
  /\ (forall v, ReplicationGroupDescription c = Some v ->
                ReplicationGroupDescription (verifyRedisConfig c) = Some v)
  /\ (forall v, EngineVersion c = Some v ->
                EngineVersion (verifyRedisConfig c) = Some v)
  /\ (forall v, NumCacheClusters c = Some v ->
                NumCacheClusters (verifyRedisConfig c) = Some v)
  /\ (forall v, SnapshotRetentionLimit c = Some v ->
                SnapshotRetentionLimit (verifyRedisConfig c) = Some v)
  /\ crg_ReplicationGroupId (verifyRedisConfig c) = crg_ReplicationGroupId c
  /\ Engine (verifyRedisConfig c) = Engine c
  /\ AutomaticFailoverEnabled (verifyRedisConfig c) = AutomaticFailoverEnabled c
  /\ (fully_configured c -> verifyRedisConfig c = c)
  /\ verifyRedisConfig (verifyRedisConfig c) = verifyRedisConfig c.
Proof.
  destruct c as [failover engine id node version description clusters retention].
  unfold fully_configured, verifyRedisConfig. cbn.
  repeat split.
  - destruct node; discriminate.
  - destruct description; discriminate.
  - destruct version; discriminate.
  - destruct clusters; discriminate.
  - destruct retention; discriminate.
  - intros v ->. reflexivity.
  - intros v ->. reflexivity.
  - intros v ->. reflexivity.
  - intros v ->. reflexivity.
  - intros v ->. reflexivity.
  - intros (Hn & Hd & Hv & Hc & Hr).
    destruct node, description, version, clusters, retention;
      try contradiction; reflexivity.
  - destruct node, description, version, clusters, retention; reflexivity.
Qed.

Section MoreListingFacts.
Context {W : Type} (E : Externals W).
Variable svc : CacheService.

(** X2. Whatever the control plane answers, getReplicationGroups makes at
    most 62 describe calls: every call after the first follows a wait of five
    seconds, but for call 62, which follows call 61 at once.  So it waits
    five minutes at most; the only error it ever returns is the timeout,
    after exactly five minutes of waiting and with no groups: the errors of
    the describe calls themselves never reach the caller. *)
Theorem getReplicationGroups_outcomes w :
  let pass := run (getReplicationGroups E svc) w in
  (exists n, (n <= 61)%nat /\ snd pass = attempts svc n)
  /\ (length (filter is_control_plane_call (snd pass)) <= 62)%nat
  /\ waited (snd pass) <= Minute * 5
  /\ (forall rgs e,
        fst (fst pass) = Done (rgs, Some e) ->
        rgs = [] /\ e = ErrWaitTimeout /\ waited (snd pass) = Minute * 5).
Proof.
  intros pass.
  destruct (getReplicationGroups_shape E svc w) as (n & Hn & Ht & Herr).
  fold pass in Ht, Herr.
  assert (Hw : waited (snd pass) = Second * 5 * Z.of_nat (Nat.min n 60)).
  { rewrite Ht. apply waited_attempts. }
  split; [exists n; auto|].
  split; [rewrite Ht, described_attempts; lia|].
  split; [rewrite Hw; unfold Minute, Second; lia|].
  intros rgs e H. destruct (Herr rgs e H) as (-> & -> & Hge).
  split; [reflexivity|]. split; [reflexivity|]. rewrite Hw.
  replace (Nat.min n 60) with 60%nat by lia. reflexivity.
Qed.

End MoreListingFacts.

(** Closes a goal that splits a trace into the listing's calls and a tail. *)
Ltac calls_split Hq :=
  split; [cbn; repeat rewrite app_nil_r; reflexivity
         |split; [exact Hq | auto]].

Section MoreProviderFacts.
Context {W : Type} (E : Externals W).

(** createRedisCluster, when the listing shows no group with the id. *)
Lemma createRedisCluster_absent svc redisConfig w rgs w1 t answer w2 :
  run (getReplicationGroups E svc) w = (Done (rgs, None), w1, t) ->
  none_matches rgs (crg_ReplicationGroupId redisConfig) ->
  CreateReplicationGroup E svc (create_request redisConfig) w1 = (answer, w2) ->
  run (createRedisCluster E svc redisConfig) w
  = (Done (None, answer), w2,
     (t ++ [Call_CreateReplicationGroup svc (create_request redisConfig)])%list).
Proof.
  intros Hl Hnone Hc.
  unfold run, createRedisCluster, bind.
  rewrite (call_run _ _ _ _ _ Hl). go.
  rewrite (find_replication_group_none _ _ w1 Hnone). go.
  unfold external.
  change {| AutomaticFailoverEnabled := Some true;
            Engine := Some "redis";
            crg_ReplicationGroupId :=
              crg_ReplicationGroupId (verifyRedisConfig redisConfig);
            CacheNodeType := CacheNodeType (verifyRedisConfig redisConfig);
            EngineVersion := EngineVersion (verifyRedisConfig redisConfig);
            ReplicationGroupDescription :=
              ReplicationGroupDescription (verifyRedisConfig redisConfig);
            NumCacheClusters := NumCacheClusters (verifyRedisConfig redisConfig);
            SnapshotRetentionLimit :=
              SnapshotRetentionLimit (verifyRedisConfig redisConfig) |}
    with (create_request redisConfig).
  rewrite Hc. destruct answer; reflexivity.
Qed.

(** X3. Create path: when the listing shows no group with the id,
    createRedisCluster sends one CreateReplicationGroup for that id, with
    automatic failover on, the engine "redis", the configured values and the
    defaults for the unset ones; it returns no cluster, and as error what the
    create call returned. *)
Theorem createRedisCluster_creates_when_absent
    svc redisConfig w rgs w1 t answer w2 :
  run (getReplicationGroups E svc) w = (Done (rgs, None), w1, t) ->
  none_matches rgs (crg_ReplicationGroupId redisConfig) ->
  CreateReplicationGroup E svc (create_request redisConfig) w1 = (answer, w2) ->
  run (createRedisCluster E svc redisConfig) w
  = (Done (None, answer), w2,
     (t ++ [Call_CreateReplicationGroup svc (create_request redisConfig)])%list)
  /\ AutomaticFailoverEnabled (create_request redisConfig) = Some true
  /\ Engine (create_request redisConfig) = Some "redis"
  /\ crg_ReplicationGroupId (create_request redisConfig)
     = crg_ReplicationGroupId redisConfig
  /\ fully_configured (create_request redisConfig).
Proof.
  intros Hl Hnone Hc. split.
  - exact (createRedisCluster_absent svc redisConfig w rgs w1 t answer w2
             Hl Hnone Hc).
  - repeat split;
      unfold create_request; cbn;
      match goal with
      | |- or_default ?x _ <> None => destruct x; discriminate
      end.
Qed.

(** X4. When the listing times out, neither function goes further:
    createRedisCluster and deleteRedisCluster return the listing's error,
    their calls are the listing's calls, and deleteRedisCluster leaves the
    object as it was. *)
Theorem listing_failure_ends_the_pass svc redisConfig r w rgs e w1 t :
  run (getReplicationGroups E svc) w = (Done (rgs, Some e), w1, t) ->
  run (createRedisCluster E svc redisConfig) w = (Done (None, Some e), w1, t)
  /\ run (deleteRedisCluster E svc redisConfig r) w = (Done (r, Some e), w1, t)
  /\ forallb is_poll_event t = true.
Proof.
  intros Hl. split; [|split].
  - unfold run, createRedisCluster, bind.
    rewrite (call_run _ _ _ _ _ Hl). go. rewrite app_nil_r. reflexivity.
  - unfold run, deleteRedisCluster, bind.
    rewrite (call_run _ _ _ _ _ Hl). go. rewrite app_nil_r. reflexivity.
  - pose proof (getReplicationGroups_trace E svc w) as H.
    rewrite Hl in H. exact H.
Qed.

(** The shape of the calls of createRedisCluster. *)
Lemma createRedisCluster_call_shape svc redisConfig w :
  exists t tail,
    snd (run (createRedisCluster E svc redisConfig) w) = (t ++ tail)%list
    /\ forallb is_poll_event t = true
    /\ (tail = []
        \/ tail = [Call_CreateReplicationGroup svc (create_request redisConfig)]).
Proof.
  pose proof (getReplicationGroups_trace E svc w) as Hq.
  destruct (run (getReplicationGroups E svc) w) as [[[[rgs [e|]]|p] w1] t1] eqn:Hl;
    cbn [snd] in Hq; exists t1.
  - exists []. unfold run, createRedisCluster, bind.
    rewrite (call_run _ _ _ _ _ Hl). go. calls_split Hq.
  - destruct (find_replication_group_cases
                (R := option RedisCluster * option error)
                rgs (crg_ReplicationGroupId redisConfig) w1)
      as [[Hnone _]|[_ [[g Hf]|Hf]]].
    + destruct (CreateReplicationGroup E svc (create_request redisConfig) w1)
        as [answer w2] eqn:Hc.
      rewrite (createRedisCluster_absent svc redisConfig w rgs w1 t1
                 answer w2 Hl Hnone Hc).
      exists [Call_CreateReplicationGroup svc (create_request redisConfig)].
      calls_split Hq.
    + exists []. unfold run, createRedisCluster, bind, external.
      rewrite (call_run _ _ _ _ _ Hl). go. rewrite Hf. go.
      destruct (Status g) as [status|]; go; [|calls_split Hq].
      destruct (String.eqb (pointee status) "available"); go; [|calls_split Hq].
      destruct (NodeGroups g) as [|[ng|] groups]; go; try (calls_split Hq; fail).
      destruct (PrimaryEndpoint ng) as [[[address|] [port|]]|]; calls_split Hq.
    + exists []. unfold run, createRedisCluster, bind, external.
      rewrite (call_run _ _ _ _ _ Hl). go. rewrite Hf. go. calls_split Hq.
  - exists []. unfold run, createRedisCluster, bind.
    rewrite (call_run_panic _ _ _ _ _ Hl). calls_split Hq.
Qed.

(** X5. Whatever the world answers, the calls of createRedisCluster are the
    calls of the listing followed by nothing or by one CreateReplicationGroup
    with the request of the create path: a pass creates at most once, never
    deletes, and never writes to the object store. *)
Theorem createRedisCluster_calls svc redisConfig w :
  exists t tail,
    snd (run (createRedisCluster E svc redisConfig) w) = (t ++ tail)%list
    /\ forallb is_poll_event t = true
    /\ (tail = []
        \/ tail = [Call_CreateReplicationGroup svc (create_request redisConfig)]).
Proof. exact (createRedisCluster_call_shape svc redisConfig w). Qed.

(** X6. While the group is listed with a status other than "available",
    deleteRedisCluster does nothing: no delete call, no update, the object
    and its finalizer are left as they were, and it returns no error. *)
Theorem deleteRedisCluster_waits_for_available
    svc redisConfig r id g status w rgs w1 t :
  crg_ReplicationGroupId redisConfig = Some id ->
  run (getReplicationGroups E svc) w = (Done (rgs, None), w1, t) ->
  well_formed_listing rgs ->
  In (Some g) rgs ->
  ReplicationGroupId g = Some id ->
  status_is g status ->
  status <> "available" ->
  run (deleteRedisCluster E svc redisConfig r) w = (Done (r, None), w1, t)
  /\ forallb is_poll_event t = true.
Proof.
  intros Hcfg Hl Hwf Hin Hid [a Hst] Hne. split.
  - unfold run, deleteRedisCluster, bind.
    rewrite (call_run _ _ _ _ _ Hl). go.
    rewrite Hcfg, (find_replication_group_found _ _ _ w1 Hwf Hin Hid). go.
    rewrite Hst. go. apply String.eqb_neq in Hne. rewrite Hne. go.
    rewrite ?app_nil_r. reflexivity.
  - pose proof (getReplicationGroups_trace E svc w) as H.
    rewrite Hl in H. exact H.
Qed.

(** X7. Whatever the world answers, the calls of deleteRedisCluster are the
    calls of the listing followed by nothing, or by the one update that
    removes the finalizer, or by one DeleteReplicationGroup for the
    configured id with RetainPrimaryCluster false: a pass never does both,
    and never creates. *)
Theorem deleteRedisCluster_calls svc redisConfig r w :
  exists t tail,
    snd (run (deleteRedisCluster E svc redisConfig r) w) = (t ++ tail)%list
    /\ forallb is_poll_event t = true
    /\ (tail = []
        \/ tail = [Call_Client_Update (unmarked E r)]
        \/ tail = [Call_DeleteReplicationGroup svc (delete_request redisConfig)]).
Proof.
  pose proof (getReplicationGroups_trace E svc w) as Hq.
  destruct (run (getReplicationGroups E svc) w) as [[[[rgs [e|]]|p] w1] t1] eqn:Hl;
    cbn [snd] in Hq; exists t1.
  - exists []. unfold run, deleteRedisCluster, bind.
    rewrite (call_run _ _ _ _ _ Hl). go. calls_split Hq.
  - destruct (find_replication_group_cases (R := Redis * option error)
                rgs (crg_ReplicationGroupId redisConfig) w1)
      as [[Hnone _]|[_ [[g Hf]|Hf]]].
    + destruct (Client_Update E (unmarked E r) w1) as [answer w2] eqn:Hu.
      rewrite (deleteRedisCluster_absent E svc redisConfig r w rgs w1 t1 answer w2
                 Hl Hnone Hu).
      exists [Call_Client_Update (unmarked E r)]. calls_split Hq.
    + unfold run, deleteRedisCluster, bind, external.
      rewrite (call_run _ _ _ _ _ Hl). go. rewrite Hf. go.
      destruct (Status g) as [status|]; go; [|exists []; calls_split Hq].
      destruct (String.eqb (pointee status) "available"); go; [|exists []; calls_split Hq].
      fold (delete_request redisConfig).
      exists [Call_DeleteReplicationGroup svc (delete_request redisConfig)].
      destruct (DeleteReplicationGroup E svc (delete_request redisConfig) w1)
        as [[[text|code message|cause msg]|] w2];
        go; try destruct (crg_ReplicationGroupId redisConfig); go;
        try destruct (negb (String.eqb code (ErrCodeReplicationGroupNotFoundFault E)));
        go; calls_split Hq.
    + exists []. unfold run, deleteRedisCluster, bind, external.
      rewrite (call_run _ _ _ _ _ Hl). go. rewrite Hf. go. calls_split Hq.
  - exists []. unfold run, deleteRedisCluster, bind.
    rewrite (call_run_panic _ _ _ _ _ Hl). calls_split Hq.
Qed.

End MoreProviderFacts.

Section ProviderEntryPoints.
Context {W : Type} (E : Externals W).

(** X8. The provider supports exactly the deployment strategy it is named
    after. *)
Theorem SupportsStrategy_iff_GetName d :
  SupportsStrategy E d = true <-> d = GetName E.
Proof. unfold SupportsStrategy, GetName. apply String.eqb_eq. Qed.

Lemma AddFinalizer_Name om f : Name (AddFinalizer om f) = Name om.
Proof. unfold AddFinalizer. destruct (has_finalizer om f); reflexivity. Qed.

Lemma AddFinalizer_Namespace om f : Namespace (AddFinalizer om f) = Namespace om.
Proof. unfold AddFinalizer. destruct (has_finalizer om f); reflexivity. Qed.

Lemma resolved_RawStrategy (stratCfg : StrategyConfig) region :
  RawStrategy (if String.eqb (Region stratCfg) "" then with_Region stratCfg region
               else stratCfg)
  = RawStrategy stratCfg.
Proof. destruct (String.eqb (Region stratCfg) ""); reflexivity. Qed.

(** X9. getRedisConfig makes one call, the read of the strategy, and returns
    all or nothing: either the decoded configuration with the strategy and no
    error, or a wrapped error and neither of the two.  The strategy it returns
    has the raw strategy that was read and the region that was read, or the
    default region when none was read. *)
Theorem getRedisConfig_all_or_nothing r w :
  let pass := run (getRedisConfig E r) w in
  let read := ReadStorageStrategy E (RedisResourceType E) (r_Spec_Tier r) w in
  snd pass = [Call_ReadStorageStrategy (RedisResourceType E) (r_Spec_Tier r)]
  /\ snd (fst pass) = snd read
  /\ ((exists raw redisConfig stratCfg,
         fst read = inl raw
         /\ Unmarshal E (RawStrategy raw) = inl redisConfig
         /\ fst (fst pass) = Done (Some redisConfig, Some stratCfg, None)
         /\ RawStrategy stratCfg = RawStrategy raw
         /\ (Region raw <> "" -> stratCfg = raw)
         /\ (Region raw = "" -> Region stratCfg = DefaultRegion E))
      \/ (exists e msg,
            fst (fst pass) = Done (None, None, Some (withMessage e msg)))).
Proof.
  intros pass read. subst pass read.
  unfold run, getRedisConfig, bind, external.
  destruct (ReadStorageStrategy E (RedisResourceType E) (r_Spec_Tier r) w)
    as [[raw|e] w1]; cbn [fst snd].
  - rewrite resolved_RawStrategy.
    destruct (Unmarshal E (RawStrategy raw)) as [redisConfig|e] eqn:Hu.
    + split; [reflexivity|]. split; [reflexivity|].
      left. exists raw, redisConfig. eexists.
      split; [reflexivity|]. split; [exact Hu|].
      split; [reflexivity|].
      split; [apply resolved_RawStrategy|].
      split.
      * intros Hne. apply String.eqb_neq in Hne. rewrite Hne. reflexivity.
      * intros Heq. rewrite Heq. reflexivity.
    + split; [reflexivity|]. split; [reflexivity|].
      right. eexists. eexists. reflexivity.
  - split; [reflexivity|]. split; [reflexivity|].
    right. eexists. eexists. reflexivity.
Qed.

(** X10. CreateRedis is createRedisCluster behind three steps.  For an object
    without deletion timestamp, once the finalizer is persisted, the strategy
    read and decoded and the credentials issued, CreateRedis returns what
    createRedisCluster returns, run on a client for the resolved region and
    these credentials, with the replication group id of the configuration or,
    when it has none, the name of the object; the object it leaves carries the
    finalizer. *)
Theorem CreateRedis_composition r w w0 stratCfg w1 redisConfig creds w2 :
  DeletionTimestamp (r_ObjectMeta r) = None ->
  Client_Update E (marked E r) w = (None, w0) ->
  ReadStorageStrategy E (RedisResourceType E) (r_Spec_Tier r) w0
  = (inl stratCfg, w1) ->
  Unmarshal E (RawStrategy stratCfg) = inl redisConfig ->
  ReconcileProviderCredentials E (Namespace (r_ObjectMeta r)) w1 = (inl creds, w2) ->
  run (CreateRedis E r) w
  = after_calls
      [Call_Client_Update (marked E r);
       Call_ReadStorageStrategy (RedisResourceType E) (r_Spec_Tier r);
       Call_ReconcileProviderCredentials (Namespace (r_ObjectMeta r))]
      (fun res => (marked E r, res))
      (run (createRedisCluster E (session_for E stratCfg creds)
              (resolved_config r redisConfig)) w2).
Proof.
  intros Hd Hu Hread Hdecode Hcreds.
  unfold marked in *.
  unfold run, CreateRedis, getRedisConfig, bind, external, call.
  rewrite Hd, Hu. go.
  cbn [with_ObjectMeta r_Spec_Tier r_ObjectMeta].
  rewrite Hread. rewrite resolved_RawStrategy, Hdecode. go.
  rewrite AddFinalizer_Namespace, AddFinalizer_Name, Hcreds. go.
  unfold after_calls, run, session_for, resolved_config.
  destruct (createRedisCluster E _ _ w2) as [[[x|x|p] w3] t3];
    cbn; rewrite ?app_nil_r; reflexivity.
Qed.

(** The same steps for an object that has a deletion timestamp: no update is
    sent and the object is left as it was. *)
Lemma CreateRedis_composition_deleting r ts w stratCfg w1 redisConfig creds w2 :
  DeletionTimestamp (r_ObjectMeta r) = Some ts ->
  ReadStorageStrategy E (RedisResourceType E) (r_Spec_Tier r) w
  = (inl stratCfg, w1) ->
  Unmarshal E (RawStrategy stratCfg) = inl redisConfig ->
  ReconcileProviderCredentials E (Namespace (r_ObjectMeta r)) w1 = (inl creds, w2) ->
  run (CreateRedis E r) w
  = after_calls
      [Call_ReadStorageStrategy (RedisResourceType E) (r_Spec_Tier r);
       Call_ReconcileProviderCredentials (Namespace (r_ObjectMeta r))]
      (fun res => (r, res))
      (run (createRedisCluster E (session_for E stratCfg creds)
              (resolved_config r redisConfig)) w2).
Proof.
  intros Hd Hread Hdecode Hcreds.
  unfold run, CreateRedis, getRedisConfig, bind, external, call.
  rewrite Hd. go.
  rewrite Hread. rewrite resolved_RawStrategy, Hdecode. go.
  rewrite Hcreds. go.
  unfold after_calls, run, session_for, resolved_config.
  destruct (createRedisCluster E _ _ w2) as [[[x|x|p] w3] t3];
    cbn; rewrite ?app_nil_r; reflexivity.
Qed.

(** CreateRedis on an object that has a deletion timestamp sends no update. *)
Lemma CreateRedis_deleting_no_update r ts w :
  DeletionTimestamp (r_ObjectMeta r) = Some ts ->
  forall x, ~ In (Call_Client_Update x) (snd (run (CreateRedis E r) w)).
Proof.
  intros Hd x.
  destruct (ReadStorageStrategy E (RedisResourceType E) (r_Spec_Tier r) w)
    as [[stratCfg|e] w1] eqn:Hread.
  2:{ unfold run, CreateRedis, getRedisConfig, bind, external, call.
      rewrite Hd. go. rewrite Hread. cbn. intuition discriminate. }
  destruct (Unmarshal E (RawStrategy stratCfg)) as [redisConfig|e] eqn:Hdecode.
  2:{ unfold run, CreateRedis, getRedisConfig, bind, external, call.
      rewrite Hd. go. rewrite Hread, resolved_RawStrategy, Hdecode.
      cbn. intuition discriminate. }
  destruct (ReconcileProviderCredentials E (Namespace (r_ObjectMeta r)) w1)
    as [[creds|e] w2] eqn:Hcreds.
  2:{ unfold run, CreateRedis, getRedisConfig, bind, external, call.
      rewrite Hd. go. rewrite Hread, resolved_RawStrategy, Hdecode. go.
      rewrite Hcreds. cbn. intuition discriminate. }
  rewrite (CreateRedis_composition_deleting r ts w stratCfg w1 redisConfig creds w2
             Hd Hread Hdecode Hcreds).
  destruct (createRedisCluster_call_shape E (session_for E stratCfg creds)
              (resolved_config r redisConfig) w2) as (t & tail & Ht & Hq & Htail).
  destruct (run (createRedisCluster E (session_for E stratCfg creds)
                   (resolved_config r redisConfig)) w2) as [[[res|p] w3] t3];
    cbn [snd after_calls] in *; subst t3;
    (intros Hin; cbn in Hin;
     destruct Hin as [Hin|[Hin|Hin]]; try discriminate;
     apply in_app_or in Hin; destruct Hin as [Hin|Hin];
     [ exact (poll_events_no_client_update _ x Hq Hin)
     | destruct Htail as [->| ->]; cbn in Hin; intuition discriminate ]).
Qed.

Lemma no_client_update_filter t :
  (forall x, ~ In (Call_Client_Update x) t) -> filter is_client_update t = [].
Proof.
  induction t as [|ev t IH]; intros H.
  - reflexivity.
  - assert (Ht : filter is_client_update t = []).
    { apply IH. intros x Hin. apply (H x). right. exact Hin. }
    destruct ev; cbn; try exact Ht.
    exfalso. apply (H r). left. reflexivity.
Qed.

(** X11. CreateRedis never adds the finalizer to an object that is being
    deleted: when the object has a deletion timestamp, no update of the object
    is sent, whatever the world answers. *)
Theorem CreateRedis_deleting_sends_no_update r ts w :
  DeletionTimestamp (r_ObjectMeta r) = Some ts ->
  filter is_client_update (snd (run (CreateRedis E r) w)) = [].
Proof.
  intros Hd. apply no_client_update_filter.
  exact (CreateRedis_deleting_no_update r ts w Hd).
Qed.

(** X12. The ways CreateRedis gives up before it reaches the control plane,
    for an object without deletion timestamp whose finalizer update went
    through: a strategy that cannot be read, a raw strategy that cannot be
    decoded, credentials that are refused.  Each returns no cluster and the
    wrapped error, and the calls stop there: nothing is described or
    created. *)
Theorem CreateRedis_setup_failure r w w0 :
  DeletionTimestamp (r_ObjectMeta r) = None ->
  Client_Update E (marked E r) w = (None, w0) ->
  let update := Call_Client_Update (marked E r) in
  let read := Call_ReadStorageStrategy (RedisResourceType E) (r_Spec_Tier r) in
  let issue := Call_ReconcileProviderCredentials (Namespace (r_ObjectMeta r)) in
  let for_instance := "failed to retrieve aws redis cluster config for instance "
                      ++ Name (r_ObjectMeta r) in
  (forall e w1,
     ReadStorageStrategy E (RedisResourceType E) (r_Spec_Tier r) w0 = (inr e, w1) ->
     run (CreateRedis E r) w
     = (Done (marked E r,
              (None, Some (withMessage
                             (withMessage e "failed to read aws strategy config")
                             for_instance))),
        w1, [update; read]))
  /\ (forall stratCfg e w1,
        ReadStorageStrategy E (RedisResourceType E) (r_Spec_Tier r) w0
        = (inl stratCfg, w1) ->
        Unmarshal E (RawStrategy stratCfg) = inr e ->
        run (CreateRedis E r) w
        = (Done (marked E r,
                 (None, Some (withMessage
                                (withMessage e
                                   "failed to unmarshal aws redis cluster configuration")
                                for_instance))),
           w1, [update; read]))
  /\ (forall stratCfg redisConfig e w1 w2,
        ReadStorageStrategy E (RedisResourceType E) (r_Spec_Tier r) w0
        = (inl stratCfg, w1) ->
        Unmarshal E (RawStrategy stratCfg) = inl redisConfig ->
        ReconcileProviderCredentials E (Namespace (r_ObjectMeta r)) w1
        = (inr e, w2) ->
        run (CreateRedis E r) w
        = (Done (marked E r,
                 (None, Some (withMessage e
                                "failed to reconcile s3 put object credentials"))),
           w2, [update; read; issue])).
Proof.
  intros Hd Hu update read issue for_instance.
  subst update read issue for_instance. unfold marked in *.
  split; [|split].
  - intros e w1 Hread.
    unfold run, CreateRedis, getRedisConfig, bind, external, call.
    rewrite Hd, Hu. go. cbn [with_ObjectMeta r_Spec_Tier r_ObjectMeta].
    rewrite Hread. go. rewrite AddFinalizer_Name. reflexivity.
  - intros stratCfg e w1 Hread Hdecode.
    unfold run, CreateRedis, getRedisConfig, bind, external, call.
    rewrite Hd, Hu. go. cbn [with_ObjectMeta r_Spec_Tier r_ObjectMeta].
    rewrite Hread, resolved_RawStrategy, Hdecode. go.
    rewrite AddFinalizer_Name. reflexivity.
  - intros stratCfg redisConfig e w1 w2 Hread Hdecode Hcreds.
    unfold run, CreateRedis, getRedisConfig, bind, external, call.
    rewrite Hd, Hu. go. cbn [with_ObjectMeta r_Spec_Tier r_ObjectMeta].
    rewrite Hread, resolved_RawStrategy, Hdecode. go.
    rewrite AddFinalizer_Namespace, Hcreds. reflexivity.
Qed.

(** X13. DeleteRedis is deleteRedisCluster behind two steps: once the
    strategy is read and decoded and the credentials are issued, it returns
    what deleteRedisCluster returns on a client for the resolved region, with
    the replication group id of the configuration or else the name of the
    object. *)
Theorem DeleteRedis_composition r w stratCfg w1 redisConfig creds w2 :
  ReadStorageStrategy E (RedisResourceType E) (r_Spec_Tier r) w
  = (inl stratCfg, w1) ->
  Unmarshal E (RawStrategy stratCfg) = inl redisConfig ->
  ReconcileProviderCredentials E (Namespace (r_ObjectMeta r)) w1 = (inl creds, w2) ->
  run (DeleteRedis E r) w
  = after_calls
      [Call_ReadStorageStrategy (RedisResourceType E) (r_Spec_Tier r);
       Call_ReconcileProviderCredentials (Namespace (r_ObjectMeta r))]
      (fun res => res)
      (run (deleteRedisCluster E (session_for E stratCfg creds)
              (resolved_config r redisConfig) r) w2).
Proof.
  intros Hread Hdecode Hcreds.
  unfold run, DeleteRedis, getRedisConfig, bind, external, call.
  rewrite Hread. rewrite resolved_RawStrategy, Hdecode. go.
  rewrite Hcreds. go.
  unfold after_calls, run, session_for, resolved_config.
  destruct (deleteRedisCluster E _ _ r w2) as [[[x|x|p] w3] t3];
    cbn; rewrite ?app_nil_r; reflexivity.
Qed.

(** X14. When DeleteRedis cannot resolve the strategy or the credentials it
    returns the wrapped error and leaves the object, finalizer included, as it
    was; the control plane is not called and no update is sent. *)
Theorem DeleteRedis_setup_failure r w :
  let read := Call_ReadStorageStrategy (RedisResourceType E) (r_Spec_Tier r) in
  let issue := Call_ReconcileProviderCredentials (Namespace (r_ObjectMeta r)) in
  let for_instance := "failed to retrieve aws redis config for instance "
                      ++ Name (r_ObjectMeta r) in
  (forall e w1,
     ReadStorageStrategy E (RedisResourceType E) (r_Spec_Tier r) w = (inr e, w1) ->
     run (DeleteRedis E r) w
     = (Done (r, Some (withMessage
                         (withMessage e "failed to read aws strategy config")
                         for_instance)),
        w1, [read]))
  /\ (forall stratCfg e w1,
        ReadStorageStrategy E (RedisResourceType E) (r_Spec_Tier r) w
        = (inl stratCfg, w1) ->
        Unmarshal E (RawStrategy stratCfg) = inr e ->
        run (DeleteRedis E r) w
        = (Done (r, Some (withMessage
                            (withMessage e
                               "failed to unmarshal aws redis cluster configuration")
                            for_instance)),
           w1, [read]))
  /\ (forall stratCfg redisConfig e w1 w2,
        ReadStorageStrategy E (RedisResourceType E) (r_Spec_Tier r) w
        = (inl stratCfg, w1) ->
        Unmarshal E (RawStrategy stratCfg) = inl redisConfig ->
        ReconcileProviderCredentials E (Namespace (r_ObjectMeta r)) w1
        = (inr e, w2) ->
        run (DeleteRedis E r) w
        = (Done (r, Some (withMessage e
                            "failed to reconcile aws provider credentials")),
           w2, [read; issue])).
Proof.
  intros read issue for_instance. subst read issue for_instance.
  split; [|split].
  - intros e w1 Hread.
    unfold run, DeleteRedis, getRedisConfig, bind, external, call.
    rewrite Hread. reflexivity.
  - intros stratCfg e w1 Hread Hdecode.
    unfold run, DeleteRedis, getRedisConfig, bind, external, call.
    rewrite Hread, resolved_RawStrategy, Hdecode. reflexivity.
  - intros stratCfg redisConfig e w1 w2 Hread Hdecode Hcreds.
    unfold run, DeleteRedis, getRedisConfig, bind, external, call.
    rewrite Hread, resolved_RawStrategy, Hdecode. go.
    rewrite Hcreds. reflexivity.
Qed.

End ProviderEntryPoints.

(* ===================================================================== *)
(** * Further properties of the snapshot reconciler                        *)
(* ===================================================================== *)

Section MoreSnapshotFacts.
Context {W : Type} (E : Externals W).

Lemma find_snapshot_none (R : Type) l :
  forall name (w : W),
    Forall (other_snapshot name) l ->
    find_snapshot (R := R) l name w = (Next None, w, []).
Proof.
  induction l as [|c rest IH]; intros name w H.
  - reflexivity.
  - inversion H as [|? ? (s & n & -> & Hn & Hne) Hrest]; subst.
    cbn [find_snapshot deref]. rewrite bind_ret, Hn. cbn [deref].
    rewrite bind_ret. apply String.eqb_neq in Hne. rewrite Hne.
    apply IH. exact Hrest.
Qed.

Lemma find_snapshot_first (R : Type) l name snap (w : W) :
  first_named l name snap ->
  find_snapshot (R := R) l name w = (Next (Some snap), w, []).
Proof.
  intros (before & after & -> & Hbefore & Hname).
  induction before as [|c rest IH].
  - cbn [app find_snapshot deref]. rewrite bind_ret, Hname. cbn [deref].
    rewrite bind_ret, String.eqb_refl. reflexivity.
  - inversion Hbefore as [|? ? (s & n & -> & Hn & Hne) Hrest]; subst.
    cbn [app find_snapshot deref]. rewrite bind_ret, Hn. cbn [deref].
    rewrite bind_ret. apply String.eqb_neq in Hne. rewrite Hne.
    apply IH. exact Hrest.
Qed.

Lemma find_primary_skips (R : Type) before :
  forall rest (w : W),
    Forall not_primary before ->
    find_primary (R := R) (before ++ rest) w = find_primary (R := R) rest w.
Proof.
  induction before as [|i more IH]; intros rest w H.
  - reflexivity.
  - inversion H as [|? ? (m & role & -> & Hrole & Hne) Hmore]; subst.
    cbn [app find_primary deref]. rewrite bind_ret, Hrole. cbn [deref].
    rewrite bind_ret. apply String.eqb_neq in Hne. rewrite Hne.
    apply IH. exact Hmore.
Qed.

(** What the search over the members returns. *)
Lemma find_primary_result (R : Type) members cacheName (w : W) :
  snapshot_source members cacheName ->
  find_primary (R := R) members w = (Next cacheName, w, []).
Proof.
  intros [(before & m & after & -> & Hbefore & Hrole & Hid)|[Hnone ->]].
  - rewrite (find_primary_skips R before _ w Hbefore).
    cbn [find_primary deref]. rewrite bind_ret, Hrole. cbn [deref].
    rewrite bind_ret. cbn [String.eqb Ascii.eqb Bool.eqb]. rewrite Hid.
    reflexivity.
  - rewrite <- (app_nil_r members).
    rewrite (find_primary_skips R members [] w Hnone). reflexivity.
Qed.

(** X15. The node a snapshot is taken from: the search over the members of
    the node group returns the cluster id of the first member whose role is
    "primary", and the empty string when no member has that role. *)
Theorem find_primary_source (R : Type) members cacheName (w : W) :
  snapshot_source members cacheName ->
  find_primary (R := R) members w = (Next cacheName, w, []).
Proof. exact (find_primary_result R members cacheName w). Qed.

(** The two searches make no call, whatever they are given. *)
Lemma find_snapshot_quiet (R : Type) l :
  forall name (w : W),
    exists s, find_snapshot (R := R) l name w = (s, w, [])
              /\ forall r, s <> Return r.
Proof.
  induction l as [|[c|] rest IH]; intros name w.
  - eexists. split; [reflexivity|discriminate].
  - cbn [find_snapshot deref]. rewrite bind_ret.
    destruct (SnapshotName c) as [n|]; cbn [deref].
    + rewrite bind_ret. destruct (String.eqb n name).
      * eexists. split; [reflexivity|discriminate].
      * apply IH.
    + eexists. split; [reflexivity|discriminate].
  - eexists. split; [reflexivity|discriminate].
Qed.

Lemma find_primary_quiet (R : Type) l :
  forall (w : W),
    exists s, find_primary (R := R) l w = (s, w, [])
              /\ forall r, s <> Return r.
Proof.
  induction l as [|[m|] rest IH]; intros w.
  - eexists. split; [reflexivity|discriminate].
  - cbn [find_primary deref]. rewrite bind_ret.
    destruct (CurrentRole m) as [role|]; cbn [deref].
    + rewrite bind_ret. destruct (String.eqb role "primary").
      * destruct (CacheClusterId m); eexists;
          (split; [reflexivity|discriminate]).
      * apply IH.
    + eexists. split; [reflexivity|discriminate].
  - eexists. split; [reflexivity|discriminate].
Qed.

(** X16. When the request cannot be fetched Reconcile stops at once: a
    request that is not found ends the pass without error and without
    requeue, any other failure is returned; nothing else is called and no
    status is persisted. *)
Theorem Reconcile_request_fetch_failure request w e w1 :
  Client_Get_RedisSnapshot E (req_NamespacedName request) w = (inr e, w1) ->
  run (Reconcile E request) w
  = (Done ({| Requeue := false; RequeueAfter := 0 |},
           if IsNotFound E e then None else Some e),
     w1, [Call_Client_Get_RedisSnapshot (req_NamespacedName request)]).
Proof.
  intros Hget. unfold run, Reconcile, bind, external. rewrite Hget.
  destruct (IsNotFound E e); reflexivity.
Qed.

(** X17. A cluster object whose strategy is not the AWS one: the pass
    persists Failed with "none supported deployment strategy" and returns
    that error, or the error of the status update when that failed; it
    resolves nothing and calls no control plane. *)
Theorem Reconcile_unsupported_strategy request w instance w1 redisCr w2 answer w3 :
  Client_Get_RedisSnapshot E (req_NamespacedName request) w = (inl instance, w1) ->
  s_Status_Phase instance <> PhaseComplete ->
  let key := {| nn_Namespace := Namespace (s_ObjectMeta instance);
                nn_Name := s_Spec_ResourceName instance |} in
  Client_Get_Redis E key w1 = (inl redisCr, w2) ->
  r_Status_Strategy redisCr <> AWSDeploymentStrategy E ->
  let failed := with_Status instance PhaseFailed
                  "none supported deployment strategy" in
  Client_Status_Update E failed w2 = (answer, w3) ->
  run (Reconcile E request) w
  = (Done ({| Requeue := false; RequeueAfter := 0 |},
           first_error answer
             (Some (errorString "none supported deployment strategy"))),
     w3,
     [Call_Client_Get_RedisSnapshot (req_NamespacedName request);
      Call_Client_Get_Redis key;
      Call_Client_Status_Update failed]).
Proof.
  intros Hget Hphase key Hcr Hne failed Hu.
  unfold run, Reconcile, UpdateSnapshotPhase, bind, external, call.
  rewrite Hget. go. rewrite (StatusPhase_eqb_neq _ _ Hphase). go.
  fold key. rewrite Hcr. go.
  apply String.eqb_neq in Hne. rewrite Hne. go.
  fold failed. rewrite Hu. destruct answer; reflexivity.
Qed.

(** X18. The ways the pass gives up while it resolves what it needs: the
    strategy cannot be read, the credentials are refused, the snapshot name or
    the cluster name cannot be built.  Each persists Failed with its message
    and returns the error (wrapped, but for the strategy), or the error of the
    status update when that failed; the control plane is not called. *)
Theorem Reconcile_setup_failures request w instance w1 redisCr w2 :
  Client_Get_RedisSnapshot E (req_NamespacedName request) w = (inl instance, w1) ->
  s_Status_Phase instance <> PhaseComplete ->
  let key := {| nn_Namespace := Namespace (s_ObjectMeta instance);
                nn_Name := s_Spec_ResourceName instance |} in
  Client_Get_Redis E key w1 = (inl redisCr, w2) ->
  r_Status_Strategy redisCr = AWSDeploymentStrategy E ->
  let fetch := [Call_Client_Get_RedisSnapshot (req_NamespacedName request);
                Call_Client_Get_Redis key] in
  let read := Call_ReadStorageStrategy (RedisResourceType E) (r_Spec_Tier redisCr) in
  let issue := Call_ReconcileProviderCredentials (Namespace (r_ObjectMeta redisCr)) in
  let name_snapshot := Call_BuildTimestampedInfraNameFromObjectCreation
                         (s_ObjectMeta instance) (DefaultAwsIdentifierLength E) in
  let name_cluster := Call_BuildInfraNameFromObject
                        (r_ObjectMeta redisCr) (DefaultAwsIdentifierLength E) in
  let failed msg := with_Status instance PhaseFailed msg in
  let stop := {| Requeue := false; RequeueAfter := 0 |} in
  (forall e w3 answer w4,
     ReadStorageStrategy E (RedisResourceType E) (r_Spec_Tier redisCr) w2
     = (inr e, w3) ->
     Client_Status_Update E (failed (Error e)) w3 = (answer, w4) ->
     run (Reconcile E request) w
     = (Done (stop, first_error answer (Some e)), w4,
        (fetch ++ [read; Call_Client_Status_Update (failed (Error e))])%list))
  /\
  (forall stratCfg w3,
     ReadStorageStrategy E (RedisResourceType E) (r_Spec_Tier redisCr) w2
     = (inl stratCfg, w3) ->
     (forall e w4 answer w5,
        ReconcileProviderCredentials E (Namespace (r_ObjectMeta redisCr)) w3
        = (inr e, w4) ->
        let msg := "failed to reconcile elasticache credentials" in
        Client_Status_Update E (failed msg) w4 = (answer, w5) ->
        run (Reconcile E request) w
        = (Done (stop, first_error answer (Some (withMessage e msg))), w5,
           (fetch ++ [read; issue; Call_Client_Status_Update (failed msg)])%list))
     /\
     (forall creds w4,
        ReconcileProviderCredentials E (Namespace (r_ObjectMeta redisCr)) w3
        = (inl creds, w4) ->
        (forall e w5 answer w6,
           BuildTimestampedInfraNameFromObjectCreation E (s_ObjectMeta instance)
             (DefaultAwsIdentifierLength E) w4 = (inr e, w5) ->
           let msg := "failed to generate snapshot name" in
           Client_Status_Update E (failed msg) w5 = (answer, w6) ->
           run (Reconcile E request) w
           = (Done (stop, first_error answer (Some (withMessage e msg))), w6,
              (fetch ++ [read; issue; name_snapshot;
                         Call_Client_Status_Update (failed msg)])%list))
        /\
        (forall snapshotName w5 e w6 answer w7,
           BuildTimestampedInfraNameFromObjectCreation E (s_ObjectMeta instance)
             (DefaultAwsIdentifierLength E) w4 = (inl snapshotName, w5) ->
           BuildInfraNameFromObject E (r_ObjectMeta redisCr)
             (DefaultAwsIdentifierLength E) w5 = (inr e, w6) ->
           let msg := "failed to get cluster name" in
           Client_Status_Update E (failed msg) w6 = (answer, w7) ->
           run (Reconcile E request) w
           = (Done (stop, first_error answer (Some (withMessage e msg))), w7,
              (fetch ++ [read; issue; name_snapshot; name_cluster;
                         Call_Client_Status_Update (failed msg)])%list)))).
Proof.
  intros Hget Hphase key Hcr Hstrat fetch read issue name_snapshot name_cluster
         failed stop.
  subst fetch read issue name_snapshot name_cluster failed stop.
  split.
  - intros e w3 answer w4 Hread Hu.
    unfold run, Reconcile, UpdateSnapshotPhase, bind, external, call.
    rewrite Hget. go. rewrite (StatusPhase_eqb_neq _ _ Hphase). go.
    fold key. rewrite Hcr. go. rewrite Hstrat, String.eqb_refl. go.
    rewrite Hread. go. rewrite Hu. destruct answer; reflexivity.
  - intros stratCfg w3 Hread. split.
    + intros e w4 answer w5 Hcreds msg Hu. subst msg.
      unfold run, Reconcile, UpdateSnapshotPhase, bind, external, call.
      rewrite Hget. go. rewrite (StatusPhase_eqb_neq _ _ Hphase). go.
      fold key. rewrite Hcr. go. rewrite Hstrat, String.eqb_refl. go.
      rewrite Hread. go. rewrite Hcreds. go. rewrite Hu.
      destruct answer; reflexivity.
    + intros creds w4 Hcreds. split.
      * intros e w5 answer w6 Hname msg Hu. subst msg.
        unfold run, Reconcile, UpdateSnapshotPhase, bind, external, call.
        rewrite Hget. go. rewrite (StatusPhase_eqb_neq _ _ Hphase). go.
        fold key. rewrite Hcr. go. rewrite Hstrat, String.eqb_refl. go.
        rewrite Hread. go. rewrite Hcreds. go. rewrite Hname. go. rewrite Hu.
        destruct answer; reflexivity.
      * intros snapshotName w5 e w6 answer w7 Hname Hcluster msg Hu. subst msg.
        unfold run, Reconcile, UpdateSnapshotPhase, bind, external, call.
        rewrite Hget. go. rewrite (StatusPhase_eqb_neq _ _ Hphase). go.
        fold key. rewrite Hcr. go. rewrite Hstrat, String.eqb_refl. go.
        rewrite Hread. go. rewrite Hcreds. go. rewrite Hname. go.
        rewrite Hcluster. go. rewrite Hu.
        destruct answer; reflexivity.
Qed.

End MoreSnapshotFacts.

Section SnapshotPaths.
Context {W : Type} (E : Externals W).

(** X19. No snapshot with the name is listed and the replication group is
    available: the pass asks for one snapshot of the source node under the
    computed name.  When the request is accepted it persists InProgress with
    "snapshot creation in progress" and asks to be requeued in 60 seconds (or
    returns the error of the status update); when it is refused the wrapped
    error is returned and no status is persisted. *)
Theorem Reconcile_creates_snapshot
    request w instance redisCr stratCfg creds snapshotName clusterName w6
    listed err w7 described err' w8 rg rest address ng groups cacheName :
  setup_succeeds E request w instance redisCr stratCfg creds
                 snapshotName clusterName w6 ->
  let svc := session_for E stratCfg creds in
  let snapshots_input := {| ds_SnapshotName := Some snapshotName |} in
  let group_input := {| drg_ReplicationGroupId := Some clusterName |} in
  DescribeSnapshots E svc snapshots_input w6 = ((Some listed, err), w7) ->
  Forall (other_snapshot snapshotName) (Snapshots listed) ->
  DescribeReplicationGroups E svc group_input w7 = ((Some described, err'), w8) ->
  ReplicationGroups described = Some rg :: rest ->
  Status rg = Some (at_addr address "available") ->
  NodeGroups rg = Some ng :: groups ->
  snapshot_source (NodeGroupMembers ng) cacheName ->
  let create := {| cs_CacheClusterId := Some cacheName;
                   cs_SnapshotName := Some snapshotName |} in
  let in_progress := with_Status instance PhaseInProgress
                       "snapshot creation in progress" in
  let calls := (setup_calls E request instance redisCr
                ++ [Call_DescribeSnapshots svc snapshots_input;
                    Call_DescribeReplicationGroups svc group_input;
                    Call_CreateSnapshot svc create])%list in
  (forall w9 answer w10,
     CreateSnapshot E svc create w8 = (None, w9) ->
     Client_Status_Update E in_progress w9 = (answer, w10) ->
     run (Reconcile E request) w
     = (Done (match answer with
              | None => {| Requeue := true; RequeueAfter := Second * 60 |}
              | Some _ => {| Requeue := false; RequeueAfter := 0 |}
              end, answer),
        w10, (calls ++ [Call_Client_Status_Update in_progress])%list))
  /\ (forall e w9,
        CreateSnapshot E svc create w8 = (Some e, w9) ->
        run (Reconcile E request) w
        = (Done ({| Requeue := false; RequeueAfter := 0 |},
                 Some (withMessage e
                         ("error creating elasticache snapshot " ++ Error e))),
           w9, calls)).
Proof.
  intros Hsetup svc snapshots_input group_input Hds Hnone Hdrg Hrgs Hst Hng
         Hsource create in_progress calls.
  pose proof (find_snapshot_none (Result * option error) (Snapshots listed)
                snapshotName w7 Hnone) as Hfound.
  pose proof (find_primary_result (Result * option error) (NodeGroupMembers ng)
                cacheName w8 Hsource) as Hprimary.
  split.
  - intros w9 answer w10 Hcreate Hu.
    reach_describe_calls Hsetup.
    fold (session_for E stratCfg creds). fold svc. fold snapshots_input.
    rewrite Hds. go. rewrite Hfound. go. fold group_input.
    rewrite Hdrg. go. rewrite Hrgs. go. rewrite Hst. go.
    cbn [String.eqb Ascii.eqb Bool.eqb]. go.
    rewrite Hng. go. rewrite Hprimary. go. fold create. rewrite Hcreate. go.
    fold in_progress. rewrite Hu. destruct answer; reflexivity.
  - intros e w9 Hcreate.
    reach_describe_calls Hsetup.
    fold (session_for E stratCfg creds). fold svc. fold snapshots_input.
    rewrite Hds. go. rewrite Hfound. go. fold group_input.
    rewrite Hdrg. go. rewrite Hrgs. go. rewrite Hst. go.
    cbn [String.eqb Ascii.eqb Bool.eqb]. go.
    rewrite Hng. go. rewrite Hprimary. go. fold create. rewrite Hcreate.
    reflexivity.
Qed.

(** X20. A snapshot with the name is listed and its status is not
    "available": the pass creates nothing; it persists InProgress with the
    current status of the snapshot and asks to be requeued in 60 seconds (or
    returns the error of the status update). *)
Theorem Reconcile_snapshot_pending
    request w instance redisCr stratCfg creds snapshotName clusterName w6
    listed err w7 snap status described err' w8 rg rest address ng groups
    cacheName answer w9 :
  setup_succeeds E request w instance redisCr stratCfg creds
                 snapshotName clusterName w6 ->
  let svc := session_for E stratCfg creds in
  let snapshots_input := {| ds_SnapshotName := Some snapshotName |} in
  let group_input := {| drg_ReplicationGroupId := Some clusterName |} in
  DescribeSnapshots E svc snapshots_input w6 = ((Some listed, err), w7) ->
  first_named (Snapshots listed) snapshotName snap ->
  SnapshotStatus snap = Some status ->
  status <> "available" ->
  DescribeReplicationGroups E svc group_input w7 = ((Some described, err'), w8) ->
  ReplicationGroups described = Some rg :: rest ->
  Status rg = Some (at_addr address "available") ->
  NodeGroups rg = Some ng :: groups ->
  snapshot_source (NodeGroupMembers ng) cacheName ->
  let in_progress := with_Status instance PhaseInProgress
                       ("current snapshot status :  " ++ status) in
  Client_Status_Update E in_progress w8 = (answer, w9) ->
  let pass := run (Reconcile E request) w in
  pass
  = (Done (match answer with
           | None => {| Requeue := true; RequeueAfter := Second * 60 |}
           | Some _ => {| Requeue := false; RequeueAfter := 0 |}
           end, answer),
     w9,
     (setup_calls E request instance redisCr
      ++ [Call_DescribeSnapshots svc snapshots_input;
          Call_DescribeReplicationGroups svc group_input;
          Call_Client_Status_Update in_progress])%list)
  /\ filter is_create_snapshot (snd pass) = [].
Proof.
  intros Hsetup svc snapshots_input group_input Hds Hfirst Hstatus Hne Hdrg Hrgs
         Hst Hng Hsource in_progress Hu pass.
  pose proof (find_snapshot_first (Result * option error) (Snapshots listed)
                snapshotName snap w7 Hfirst) as Hfound.
  pose proof (find_primary_result (Result * option error) (NodeGroupMembers ng)
                cacheName w8 Hsource) as Hprimary.
  assert (Hpass : pass
    = (Done (match answer with
             | None => {| Requeue := true; RequeueAfter := Second * 60 |}
             | Some _ => {| Requeue := false; RequeueAfter := 0 |}
             end, answer),
       w9,
       (setup_calls E request instance redisCr
        ++ [Call_DescribeSnapshots svc snapshots_input;
            Call_DescribeReplicationGroups svc group_input;
            Call_Client_Status_Update in_progress])%list)).
  { unfold pass. reach_describe_calls Hsetup.
    fold (session_for E stratCfg creds). fold svc. fold snapshots_input.
    rewrite Hds. go. rewrite Hfound. go. fold group_input.
    rewrite Hdrg. go. rewrite Hrgs. go. rewrite Hst. go.
    cbn [String.eqb Ascii.eqb Bool.eqb]. go.
    rewrite Hng. go. rewrite Hprimary. go. rewrite Hstatus. go.
    apply String.eqb_neq in Hne. rewrite Hne. go.
    fold in_progress. rewrite Hu. destruct answer; reflexivity. }
  split; [exact Hpass|]. rewrite Hpass. reflexivity.
Qed.

(** X21. A snapshot with the name is listed as "available" and the status
    update that persists Complete fails: the pass stops, but what it returns
    is the error of DescribeReplicationGroups, not the error of the update;
    when the describe call had succeeded the pass returns no error and asks
    for no requeue. *)
Theorem Reconcile_complete_update_failure
    request w instance redisCr stratCfg creds snapshotName clusterName w6
    listed err w7 snap described err' w8 rg rest address ng groups cacheName
    e w9 :
  setup_succeeds E request w instance redisCr stratCfg creds
                 snapshotName clusterName w6 ->
  let svc := session_for E stratCfg creds in
  let snapshots_input := {| ds_SnapshotName := Some snapshotName |} in
  let group_input := {| drg_ReplicationGroupId := Some clusterName |} in
  DescribeSnapshots E svc snapshots_input w6 = ((Some listed, err), w7) ->
  first_named (Snapshots listed) snapshotName snap ->
  SnapshotStatus snap = Some "available" ->
  DescribeReplicationGroups E svc group_input w7 = ((Some described, err'), w8) ->
  ReplicationGroups described = Some rg :: rest ->
  Status rg = Some (at_addr address "available") ->
  NodeGroups rg = Some ng :: groups ->
  snapshot_source (NodeGroupMembers ng) cacheName ->
  let complete := with_Status instance PhaseComplete "snapshot created" in
  Client_Status_Update E complete w8 = (Some e, w9) ->
  run (Reconcile E request) w
  = (Done ({| Requeue := false; RequeueAfter := 0 |}, err'), w9,
     (setup_calls E request instance redisCr
      ++ [Call_DescribeSnapshots svc snapshots_input;
          Call_DescribeReplicationGroups svc group_input;
          Call_Client_Status_Update complete])%list).
Proof.
  intros Hsetup svc snapshots_input group_input Hds Hfirst Hstatus Hdrg Hrgs
         Hst Hng Hsource complete Hu.
  pose proof (find_snapshot_first (Result * option error) (Snapshots listed)
                snapshotName snap w7 Hfirst) as Hfound.
  pose proof (find_primary_result (Result * option error) (NodeGroupMembers ng)
                cacheName w8 Hsource) as Hprimary.
  reach_describe_calls Hsetup.
  fold (session_for E stratCfg creds). fold svc. fold snapshots_input.
  rewrite Hds. go. rewrite Hfound. go. fold group_input.
  rewrite Hdrg. go. rewrite Hrgs. go. rewrite Hst. go.
  cbn [String.eqb Ascii.eqb Bool.eqb]. go.
  rewrite Hng. go. rewrite Hprimary. go. rewrite Hstatus. go.
  cbn [String.eqb Ascii.eqb Bool.eqb]. go.
  fold complete. rewrite Hu. reflexivity.
Qed.

End SnapshotPaths.

Section SnapshotCalls.
Context {W : Type} (E : Externals W).

(** One more step of a pass of Reconcile whose calls are being listed: the
    next answer of the world, or the next test, is split into its cases. *)
Ltac next_answer :=
  match goal with
  | |- context [Client_Get_RedisSnapshot E ?k ?w] =>
      destruct (Client_Get_RedisSnapshot E k w) as [[?|?] ?]
  | |- context [Client_Get_Redis E ?k ?w] =>
      destruct (Client_Get_Redis E k w) as [[?|?] ?]
  | |- context [Client_Status_Update E ?i ?w] =>
      destruct (Client_Status_Update E i w) as [[?|] ?]
  | |- context [ReadStorageStrategy E ?a ?b ?w] =>
      destruct (ReadStorageStrategy E a b w) as [[?|?] ?]
  | |- context [ReconcileProviderCredentials E ?a ?w] =>
      destruct (ReconcileProviderCredentials E a w) as [[?|?] ?]
  | |- context [BuildTimestampedInfraNameFromObjectCreation E ?a ?b ?w] =>
      destruct (BuildTimestampedInfraNameFromObjectCreation E a b w) as [[?|?] ?]
  | |- context [BuildInfraNameFromObject E ?a ?b ?w] =>
      destruct (BuildInfraNameFromObject E a b w) as [[?|?] ?]
  | |- context [DescribeSnapshots E ?a ?b ?w] =>
      destruct (DescribeSnapshots E a b w) as [[[?|] ?] ?]
  | |- context [DescribeReplicationGroups E ?a ?b ?w] =>
      destruct (DescribeReplicationGroups E a b w) as [[[?|] ?] ?]
  | |- context [CreateSnapshot E ?a ?b ?w] =>
      destruct (CreateSnapshot E a b w) as [[?|] ?]
  | |- context [find_snapshot ?l ?n ?w] =>
      let s := fresh "s" in
      let Hs := fresh "Hs" in
      let Hr := fresh "Hr" in
      destruct (find_snapshot_quiet (W := W) (Result * option error) l n w)
        as (s & Hs & Hr);
      rewrite Hs; clear Hs;
      destruct s as [[?|]|?|?]; [| | exfalso; eapply Hr; reflexivity |]
  | |- context [find_primary ?l ?w] =>
      let s := fresh "s" in
      let Hs := fresh "Hs" in
      let Hr := fresh "Hr" in
      destruct (find_primary_quiet (W := W) (Result * option error) l w)
        as (s & Hs & Hr);
      rewrite Hs; clear Hs;
      destruct s as [?|?|?]; [| exfalso; eapply Hr; reflexivity |]
  | H : String.eqb "" (AWSDeploymentStrategy E) = false
    |- context [String.eqb "" (AWSDeploymentStrategy E)] => rewrite H
  | |- context [IsNotFound E ?e] => destruct (IsNotFound E e)
  | |- context [StatusPhase_eqb ?a ?b] => destruct (StatusPhase_eqb a b)
  | |- context [String.eqb ?a ?b] => destruct (String.eqb a b)
  | |- context [ReplicationGroups ?o] =>
      destruct (ReplicationGroups o) as [|[?|] ?]
  | |- context [NodeGroups ?o] => destruct (NodeGroups o) as [|[?|] ?]
  | |- context [Status ?o] => destruct (Status o) as [?|]
  | |- context [SnapshotStatus ?o] => destruct (SnapshotStatus o) as [?|]
  end.

(** X22. Whatever the world answers, a pass of Reconcile only reads (the two
    objects, the strategy, the credentials, the names, the two describe
    calls), asks for at most one snapshot, and persists at most two statuses:
    it never updates the cluster object, never creates or deletes a
    replication group, and never waits.  (The name of the AWS strategy is not
    the empty string: the empty object that stands for a cluster that could
    not be fetched must fail the strategy check.) *)
Theorem Reconcile_calls request w :
  AWSDeploymentStrategy E <> "" ->
  let t := snd (run (Reconcile E request) w) in
  forallb is_reconcile_call t = true
  /\ (length (filter is_create_snapshot t) <= 1)%nat
  /\ (length (persisted_statuses t) <= 2)%nat.
Proof.
  intros Haws.
  assert (Hne : String.eqb "" (AWSDeploymentStrategy E) = false).
  { apply String.eqb_neq. congruence. }
  clear Haws. cbv zeta.
  unfold run, Reconcile, UpdateSnapshotPhase, bind, external, call.
  repeat (go; cbn [empty_Redis r_Status_Strategy]; next_answer);
    cbn; repeat split; lia.
Qed.

End SnapshotCalls.

(* ===================================================================== *)
(** * The further properties, run                                          *)
(* ===================================================================== *)

Lemma well_formed_one_group g :
  ReplicationGroupId g <> None -> well_formed_listing [Some g].
Proof.
  intros H. split.
  - repeat constructor. exact H.
  - repeat constructor. simpl. tauto.
Qed.

Lemma createRedisCluster_creates_when_absent_witness :
  let w := Fake.world [Fake.group "bar" "available" 32] [] in
  let describe := Call_DescribeReplicationGroups Fake.service describe_all in
  run (createRedisCluster Fake.externals Fake.service (Fake.config "foo")) w
  = (Done (None, None), w,
     [describe;
      Call_CreateReplicationGroup Fake.service (create_request (Fake.config "foo"))])
  /\ create_request (Fake.config "foo")
     = {| AutomaticFailoverEnabled := Some true;
          Engine := Some "redis";
          crg_ReplicationGroupId := Some "foo";
          CacheNodeType := Some "cache.t2.micro";
          EngineVersion := Some "3.2.10";
          ReplicationGroupDescription := Some "A Redis replication group";
          NumCacheClusters := Some 2;
          SnapshotRetentionLimit := Some 30 |}.
Proof.
  intros w describe. split; [|reflexivity].
  refine (proj1 (createRedisCluster_creates_when_absent Fake.externals
                   Fake.service (Fake.config "foo") w
                   [Some (Fake.group "bar" "available" 32)] w [describe] None w
                   eq_refl _ eq_refl)).
  repeat constructor. exists "bar", "foo". repeat split. discriminate.
Defined.

Lemma listing_failure_ends_the_pass_witness :
  let w := Fake.script None None
             (inl (Fake.request_for "foo" PhasePending)) (inl (Fake.redis "foo"))
             100 (Fake.listing []) None (Fake.snapshots []) in
  let listing := run (getReplicationGroups Fake.externals Fake.service) w in
  fst (fst listing) = Done ([], Some ErrWaitTimeout)
  /\ run (createRedisCluster Fake.externals Fake.service (Fake.config "foo")) w
     = (Done (None, Some ErrWaitTimeout), snd (fst listing), snd listing)
  /\ run (deleteRedisCluster Fake.externals Fake.service (Fake.config "foo")
            (Fake.redis "foo")) w
     = (Done (Fake.redis "foo", Some ErrWaitTimeout), snd (fst listing),
        snd listing).
Proof.
  intros w listing.
  assert (H : run (getReplicationGroups Fake.externals Fake.service) w
              = (Done ([], Some ErrWaitTimeout), snd (fst listing), snd listing)).
  { vm_compute. reflexivity. }
  split; [vm_compute; reflexivity|].
  pose proof (listing_failure_ends_the_pass Fake.externals Fake.service
                (Fake.config "foo") (Fake.redis "foo") w [] ErrWaitTimeout
                (snd (fst listing)) (snd listing) H) as (Hc & Hd & _).
  split; [exact Hc|exact Hd].
Defined.

Lemma deleteRedisCluster_waits_for_available_witness :
  let w := Fake.world [Fake.group "foo" "deleting" 16] [] in
  let t := [Call_DescribeReplicationGroups Fake.service describe_all] in
  run (deleteRedisCluster Fake.externals Fake.service (Fake.config "foo")
         (marked Fake.externals (Fake.redis "foo"))) w
  = (Done (marked Fake.externals (Fake.redis "foo"), None), w, t)
  /\ forallb is_poll_event t = true.
Proof.
  intros w t.
  apply (deleteRedisCluster_waits_for_available Fake.externals Fake.service
           (Fake.config "foo") (marked Fake.externals (Fake.redis "foo")) "foo"
           (Fake.group "foo" "deleting" 16) "deleting" w
           [Some (Fake.group "foo" "deleting" 16)] w t).
  - reflexivity.
  - reflexivity.
  - apply well_formed_one_group. discriminate.
  - simpl. auto.
  - reflexivity.
  - exists 16%N. reflexivity.
  - discriminate.
Defined.

Lemma CreateRedis_composition_witness :
  let w := Fake.world [Fake.group "foo" "available" 32] [] in
  let r := Fake.redis "foo" in
  run (CreateRedis Fake.externals r) w
  = after_calls
      [Call_Client_Update (marked Fake.externals r);
       Call_ReadStorageStrategy "redis" "development";
       Call_ReconcileProviderCredentials "ns"]
      (fun res => (marked Fake.externals r, res))
      (run (createRedisCluster Fake.externals Fake.service (Fake.config "foo")) w)
  /\ fst (fst (run (CreateRedis Fake.externals r) w))
     = Done (marked Fake.externals r,
             (Some {| DeploymentDetails :=
                        Some {| URI := "10.0.0.5"; rdd_Port := 6379 |} |}, None)).
Proof.
  intros w r. split; [|reflexivity].
  exact (CreateRedis_composition Fake.externals r w w Fake.the_strategy w
           Fake.no_config Fake.the_credentials w
           eq_refl eq_refl eq_refl eq_refl eq_refl).
Defined.

Lemma CreateRedis_deleting_sends_no_update_witness :
  let r := {| r_ObjectMeta :=
                {| Name := "foo"; Namespace := "ns";
                   DeletionTimestamp := Some 1700000000;
                   Finalizers := [DefaultFinalizer Fake.externals] |};
              r_Spec_Tier := "development"; r_Status_Strategy := "aws" |} in
  let w := Fake.world [] [] in
  DeletionTimestamp (r_ObjectMeta r) = Some 1700000000
  /\ filter is_client_update (snd (run (CreateRedis Fake.externals r) w)) = [].
Proof.
  intros r w. split; [reflexivity|].
  exact (CreateRedis_deleting_sends_no_update Fake.externals r 1700000000 w
           eq_refl).
Defined.

Lemma CreateRedis_setup_failure_witness :
  let w := Fake.with_credentials (inr (errorString "denied")) (Fake.world [] []) in
  let r := Fake.redis "foo" in
  run (CreateRedis Fake.externals r) w
  = (Done (marked Fake.externals r,
           (None, Some (withMessage (errorString "denied")
                          "failed to reconcile s3 put object credentials"))),
     w,
     [Call_Client_Update (marked Fake.externals r);
      Call_ReadStorageStrategy "redis" "development";
      Call_ReconcileProviderCredentials "ns"]).
Proof.
  intros w r.
  exact (proj2 (proj2 (CreateRedis_setup_failure Fake.externals r w w
                         eq_refl eq_refl))
           Fake.the_strategy Fake.no_config (errorString "denied") w w
           eq_refl eq_refl eq_refl).
Defined.

Lemma DeleteRedis_composition_witness :
  let w := Fake.world [] [] in
  let r := marked Fake.externals (Fake.redis "foo") in
  run (DeleteRedis Fake.externals r) w
  = after_calls
      [Call_ReadStorageStrategy "redis" "development";
       Call_ReconcileProviderCredentials "ns"]
      (fun res => res)
      (run (deleteRedisCluster Fake.externals Fake.service (Fake.config "foo") r) w)
  /\ fst (fst (run (DeleteRedis Fake.externals r) w)) = Done (Fake.redis "foo", None).
Proof.
  intros w r. split; [|reflexivity].
  exact (DeleteRedis_composition Fake.externals r w Fake.the_strategy w
           Fake.no_config Fake.the_credentials w eq_refl eq_refl eq_refl).
Defined.

Lemma DeleteRedis_setup_failure_witness :
  let w := Fake.with_strategy (inr (errorString "no such tier"))
             (Fake.world [Fake.group "foo" "available" 32] []) in
  let r := marked Fake.externals (Fake.redis "foo") in
  run (DeleteRedis Fake.externals r) w
  = (Done (r, Some (withMessage
                      (withMessage (errorString "no such tier")
                         "failed to read aws strategy config")
                      "failed to retrieve aws redis config for instance foo")),
     w, [Call_ReadStorageStrategy "redis" "development"]).
Proof.
  intros w r.
  exact (proj1 (DeleteRedis_setup_failure Fake.externals r w)
           (errorString "no such tier") w eq_refl).
Defined.

Lemma find_primary_source_witness :
  find_primary (W := Fake.World) (R := Result * option error)
    [Fake.member "bar-001" "replica"; Fake.member "bar-002" "primary";
     Fake.member "bar-003" "primary"]
    (Fake.world [] [])
  = (Next "bar-002", Fake.world [] [], []).
Proof.
  apply (find_primary_source (Result * option error)).
  left.
  exists [Fake.member "bar-001" "replica"],
         {| CacheClusterId := Some "bar-002"; CurrentRole := Some "primary" |},
         [Fake.member "bar-003" "primary"].
  split; [reflexivity|]. split; [|split; reflexivity].
  repeat constructor.
  exists {| CacheClusterId := Some "bar-001"; CurrentRole := Some "replica" |},
         "replica".
  repeat split. discriminate.
Defined.

Lemma Reconcile_request_fetch_failure_witness :
  let w := Fake.with_snapshot_object (inr (errorString "not found"))
             (Fake.world [] []) in
  run (Reconcile Fake.externals Fake.the_request) w
  = (Done ({| Requeue := false; RequeueAfter := 0 |}, None), w,
     [Call_Client_Get_RedisSnapshot (req_NamespacedName Fake.the_request)]).
Proof.
  intros w.
  exact (Reconcile_request_fetch_failure Fake.externals Fake.the_request w
           (errorString "not found") w eq_refl).
Defined.

Lemma Reconcile_unsupported_strategy_witness :
  let openshift := {| r_ObjectMeta := Fake.meta "bar";
                      r_Spec_Tier := "development";
                      r_Status_Strategy := "openshift" |} in
  let w := Fake.with_redis_object (inl openshift) (Fake.world [] []) in
  let failed := with_Status (Fake.request_for "bar" PhasePending) PhaseFailed
                  "none supported deployment strategy" in
  run (Reconcile Fake.externals Fake.the_request) w
  = (Done ({| Requeue := false; RequeueAfter := 0 |},
           Some (errorString "none supported deployment strategy")),
     w,
     [Call_Client_Get_RedisSnapshot (req_NamespacedName Fake.the_request);
      Call_Client_Get_Redis {| nn_Namespace := "ns"; nn_Name := "bar" |};
      Call_Client_Status_Update failed]).
Proof.
  intros openshift w failed.
  refine (Reconcile_unsupported_strategy Fake.externals Fake.the_request w
            (Fake.request_for "bar" PhasePending) w openshift w None w
            eq_refl _ eq_refl _ eq_refl); discriminate.
Defined.

Lemma Reconcile_setup_failures_witness :
  let w := Fake.with_credentials (inr (errorString "denied")) (Fake.world [] []) in
  let failed := with_Status (Fake.request_for "bar" PhasePending) PhaseFailed
                  "failed to reconcile elasticache credentials" in
  run (Reconcile Fake.externals Fake.the_request) w
  = (Done ({| Requeue := false; RequeueAfter := 0 |},
           Some (withMessage (errorString "denied")
                   "failed to reconcile elasticache credentials")),
     w,
     [Call_Client_Get_RedisSnapshot (req_NamespacedName Fake.the_request);
      Call_Client_Get_Redis {| nn_Namespace := "ns"; nn_Name := "bar" |};
      Call_ReadStorageStrategy "redis" "development";
      Call_ReconcileProviderCredentials "ns";
      Call_Client_Status_Update failed]).
Proof.
  intros w failed.
  assert (Hphase : s_Status_Phase (Fake.request_for "bar" PhasePending)
                   <> PhaseComplete) by discriminate.
  exact (proj1 (proj2 (Reconcile_setup_failures Fake.externals Fake.the_request w
                         (Fake.request_for "bar" PhasePending) w
                         (Fake.redis "bar") w eq_refl Hphase eq_refl eq_refl)
                  Fake.the_strategy w eq_refl)
           (errorString "denied") w None w eq_refl eq_refl).
Defined.

(** The pass of the worlds of [Fake.world] reaches the describe calls. *)
Lemma Fake_setup_succeeds gs snaps :
  setup_succeeds Fake.externals Fake.the_request (Fake.world gs snaps)
    (Fake.request_for "bar" PhasePending) (Fake.redis "bar")
    Fake.the_strategy Fake.the_credentials "snap-bar-20240101" "bar"
    (Fake.world gs snaps).
Proof.
  exists (Fake.world gs snaps), (Fake.world gs snaps), (Fake.world gs snaps),
         (Fake.world gs snaps), (Fake.world gs snaps).
  repeat split. discriminate.
Defined.

Lemma Fake_snapshot_source :
  snapshot_source [Fake.member "bar-001" "primary"; Fake.member "bar-002" "replica"]
                  "bar-001".
Proof.
  left.
  exists [], {| CacheClusterId := Some "bar-001"; CurrentRole := Some "primary" |},
         [Fake.member "bar-002" "replica"].
  repeat split. constructor.
Defined.

Lemma Reconcile_creates_snapshot_witness :
  let w := Fake.world [Fake.group "bar" "available" 32] [] in
  let create := {| cs_CacheClusterId := Some "bar-001";
                   cs_SnapshotName := Some "snap-bar-20240101" |} in
  let in_progress := with_Status (Fake.request_for "bar" PhasePending)
                       PhaseInProgress "snapshot creation in progress" in
  run (Reconcile Fake.externals Fake.the_request) w
  = (Done ({| Requeue := true; RequeueAfter := Second * 60 |}, None), w,
     ((setup_calls Fake.externals Fake.the_request
         (Fake.request_for "bar" PhasePending) (Fake.redis "bar")
       ++ [Call_DescribeSnapshots Fake.service
             {| ds_SnapshotName := Some "snap-bar-20240101" |};
           Call_DescribeReplicationGroups Fake.service
             {| drg_ReplicationGroupId := Some "bar" |};
           Call_CreateSnapshot Fake.service create])
      ++ [Call_Client_Status_Update in_progress])%list).
Proof.
  intros w create in_progress.
  refine (proj1 (Reconcile_creates_snapshot Fake.externals Fake.the_request w
                   (Fake.request_for "bar" PhasePending) (Fake.redis "bar")
                   Fake.the_strategy Fake.the_credentials "snap-bar-20240101"
                   "bar" w {| Snapshots := [] |} None w
                   {| ReplicationGroups := [Some (Fake.group "bar" "available" 32)] |}
                   None w (Fake.group "bar" "available" 32) [] 32%N _ []
                   "bar-001"
                   (Fake_setup_succeeds _ _) eq_refl _ eq_refl eq_refl eq_refl
                   eq_refl Fake_snapshot_source)
            w None w eq_refl eq_refl).
  constructor.
Defined.

Lemma Reconcile_snapshot_pending_witness :
  let w := Fake.world [Fake.group "bar" "available" 32]
                      [("snap-bar-20240101", "creating")] in
  let in_progress := with_Status (Fake.request_for "bar" PhasePending)
                       PhaseInProgress "current snapshot status :  creating" in
  let pass := run (Reconcile Fake.externals Fake.the_request) w in
  pass
  = (Done ({| Requeue := true; RequeueAfter := Second * 60 |}, None), w,
     (setup_calls Fake.externals Fake.the_request
        (Fake.request_for "bar" PhasePending) (Fake.redis "bar")
      ++ [Call_DescribeSnapshots Fake.service
            {| ds_SnapshotName := Some "snap-bar-20240101" |};
          Call_DescribeReplicationGroups Fake.service
            {| drg_ReplicationGroupId := Some "bar" |};
          Call_Client_Status_Update in_progress])%list)
  /\ filter is_create_snapshot (snd pass) = [].
Proof.
  intros w in_progress pass.
  refine (Reconcile_snapshot_pending Fake.externals Fake.the_request w
            (Fake.request_for "bar" PhasePending) (Fake.redis "bar")
            Fake.the_strategy Fake.the_credentials "snap-bar-20240101"
            "bar" w _ None w
            {| SnapshotName := Some "snap-bar-20240101";
               SnapshotStatus := Some "creating" |}
            "creating"
            {| ReplicationGroups := [Some (Fake.group "bar" "available" 32)] |}
            None w (Fake.group "bar" "available" 32) [] 32%N _ []
            "bar-001" None w
            (Fake_setup_succeeds _ _) eq_refl _ eq_refl _ eq_refl eq_refl eq_refl
            eq_refl Fake_snapshot_source eq_refl).
  - exists [], []. repeat split. constructor.
  - discriminate.
Defined.

Lemma Reconcile_complete_update_failure_witness :
  let w := Fake.with_status_update_answer (Some (errorString "conflict"))
             (Fake.world [Fake.group "bar" "available" 32]
                         [("snap-bar-20240101", "available")]) in
  let complete := with_Status (Fake.request_for "bar" PhasePending)
                    PhaseComplete "snapshot created" in
  run (Reconcile Fake.externals Fake.the_request) w
  = (Done ({| Requeue := false; RequeueAfter := 0 |}, None), w,
     (setup_calls Fake.externals Fake.the_request
        (Fake.request_for "bar" PhasePending) (Fake.redis "bar")
      ++ [Call_DescribeSnapshots Fake.service
            {| ds_SnapshotName := Some "snap-bar-20240101" |};
          Call_DescribeReplicationGroups Fake.service
            {| drg_ReplicationGroupId := Some "bar" |};
          Call_Client_Status_Update complete])%list).
Proof.
  intros w complete.
  assert (Hsetup : setup_succeeds Fake.externals Fake.the_request w
                     (Fake.request_for "bar" PhasePending) (Fake.redis "bar")
                     Fake.the_strategy Fake.the_credentials
                     "snap-bar-20240101" "bar" w).
  { exists w, w, w, w, w. repeat split. discriminate. }
  refine (Reconcile_complete_update_failure Fake.externals Fake.the_request w
            (Fake.request_for "bar" PhasePending) (Fake.redis "bar")
            Fake.the_strategy Fake.the_credentials "snap-bar-20240101"
            "bar" w _ None w
            {| SnapshotName := Some "snap-bar-20240101";
               SnapshotStatus := Some "available" |}
            {| ReplicationGroups := [Some (Fake.group "bar" "available" 32)] |}
            None w (Fake.group "bar" "available" 32) [] 32%N _ []
            "bar-001" (errorString "conflict") w
            Hsetup eq_refl _ eq_refl eq_refl eq_refl eq_refl eq_refl
            Fake_snapshot_source eq_refl).
  exists [], []. repeat split. constructor.
Defined.

Lemma Reconcile_calls_witness :
  let t := snd (run (Reconcile Fake.externals Fake.the_request)
                    (Fake.world [Fake.group "bar" "available" 32] [])) in
  forallb is_reconcile_call t = true
  /\ (length (filter is_create_snapshot t) <= 1)%nat
  /\ (length (persisted_statuses t) <= 2)%nat.
Proof.
  apply (Reconcile_calls Fake.externals Fake.the_request
           (Fake.world [Fake.group "bar" "available" 32] [])).
  discriminate.
Defined.
